(** * Bank-reconciliation upload pipeline: a shallow embedding

    The development follows [upload/tasks.py] (column cleaning, integer
    conversion, chunk processing, the per-file driver),
    [upload/models.py] (the two bulk loaders), [upload/views.py] (the upload
    view that queues the driver) and the choices of [upload/forms.py].

    Conventions of the embedding:
    - a Python [str] is a [string]; one character is one code point below
      U+0100, so the whitespace class of [str.split] and [str.strip] is
      Python's whitespace class restricted to that range;
    - [float(s)] is the correctly rounded binary64 value of the literal [s],
      kept as a sign, a mantissa and a binary exponent; it strips its own,
      smaller, whitespace class; [int(x)] truncates;
    - a cell of a frame read with [dtype=str] is [Some s] (a string) or [None]
      (pandas' NaN, a missing cell); the labels of a frame are strings and
      are taken to be distinct once cleaned and renamed;
    - a dict is a [gmap string _]; the seen sets are [gset]s;
    - the value of [pd.to_datetime(_, errors='coerce')] is kept as the call
      it comes from ([VToDatetime]): no property here depends on a date;
    - exceptions, the log and the two database tables are threaded explicitly
      through a state-and-exception monad; the log keeps the WARNING and
      ERROR records;
    - the pandas readers and the database are collaborators: a file is given
      by what the readers return on it, and the world says, for the coming
      [bulk_create] calls, which of them the database fails. *)

From Stdlib Require Import ZArith Ascii String List Bool Lia.
From stdpp Require Import base option list strings gmap fin_maps.

Local Open Scope string_scope.
Local Open Scope list_scope.

(** ** Python strings *)

Module PyStr.

(** Code point of a character. *)
Definition ord (c : ascii) : N := N_of_ascii c.

(** [str.isspace] on one character: the code points Python treats as
    whitespace in [str.split()] and [str.strip()], below U+0100. *)
Definition isspace (c : ascii) : bool :=
  let n := ord c in
  ((9 <=? n) && (n <=? 13) || (28 <=? n) && (n <=? 32)
   || (n =? 133) || (n =? 160))%N.

Fixpoint filter (p : ascii -> bool) (s : string) : string :=
  match s with
  | EmptyString => EmptyString
  | String c s' => if p c then String c (filter p s') else filter p s'
  end.

Fixpoint forallb (p : ascii -> bool) (s : string) : bool :=
  match s with
  | EmptyString => true
  | String c s' => p c && forallb p s'
  end.

(** [''.join(parts)] *)
Fixpoint join (parts : list string) : string :=
  match parts with
  | [] => EmptyString
  | p :: ps => String.append p (join ps)
  end.

(** [s.split()]: the maximal runs of non-whitespace characters, in order. *)
Fixpoint split (s : string) : list string :=
  match s with
  | EmptyString => []
  | String c s' =>
      if isspace c then split s'
      else match s' with
           | EmptyString => [String c EmptyString]
           | String c' _ =>
               if isspace c' then String c EmptyString :: split s'
               else match split s' with
                    | w :: ws => String c w :: ws
                    | [] => [String c EmptyString]
                    end
           end
  end.

Fixpoint lstrip (s : string) : string :=
  match s with
  | EmptyString => EmptyString
  | String c s' => if isspace c then lstrip s' else s
  end.

Fixpoint rstrip (s : string) : string :=
  match s with
  | EmptyString => EmptyString
  | String c s' =>
      match rstrip s' with
      | EmptyString => if isspace c then EmptyString else String c EmptyString
      | r => String c r
      end
  end.

(** [s.strip()] *)
Definition strip (s : string) : string := rstrip (lstrip s).

Definition is_empty (s : string) : bool :=
  match s with EmptyString => true | _ => false end.

End PyStr.

(** ** Column Normalizer: [clean_column_name] (tasks.py) *)

(** [char not in ['.', '_']] *)
Definition not_dot_underscore (c : ascii) : bool :=
  negb (Ascii.eqb c "." || Ascii.eqb c "_")%char.

Definition clean_column_name (column_name : string) : string :=
  let parts := PyStr.split column_name in
  let cleaned_name :=
    PyStr.join (List.filter (fun part => negb (PyStr.is_empty part)) parts) in
  let cleaned_name := PyStr.strip (PyStr.filter not_dot_underscore cleaned_name) in
  cleaned_name.

(** The characters the specification says survive cleaning. *)
Definition kept_char (c : ascii) : bool :=
  negb (PyStr.isspace c) && not_dot_underscore c.

(** ** Python exceptions and the numeric built-ins [float] and [int] *)

Inductive exn : Type :=
| ValueError (msg : string)
| OverflowError (msg : string)
| KeyError (key : string)
| OtherError (name : string).

Definition is_ValueError (e : exn) : bool :=
  match e with ValueError _ => true | _ => false end.

Definition is_OverflowError (e : exn) : bool :=
  match e with OverflowError _ => true | _ => false end.

Module PyFloat.

Local Open Scope Z_scope.

(** A binary64 value.  [Finite neg m e] is [(-1)^neg * m * 2^e] with
    [0 <= m < 2^53] and [-1074 <= e <= 971], [m >= 2^52] unless
    [e = -1074]; zero is [Finite _ 0 (-1074)]. *)
Inductive t : Type :=
| NaN
| Inf (neg : bool)
| Finite (neg : bool) (m : Z) (e : Z).

(** The literal [0.0]. *)
Definition zero : t := Finite false 0 (-1074).

Definition is_digit (c : ascii) : bool :=
  let n := PyStr.ord c in ((48 <=? n) && (n <=? 57))%N.

Definition digit_val (c : ascii) : Z := Z.of_N (PyStr.ord c) - 48.

(** Longest prefix of decimal digits, and what follows it. *)
Fixpoint span_digits (s : string) : list Z * string :=
  match s with
  | EmptyString => ([], EmptyString)
  | String c s' =>
      if is_digit c
      then let '(ds, rest) := span_digits s' in (digit_val c :: ds, rest)
      else ([], s)
  end.

Definition digits_value (ds : list Z) : Z :=
  fold_left (fun acc d => 10 * acc + d) ds 0.

(** PEP 515: an underscore is accepted only between two digits; the
    underscores are then dropped.  [prev] is the previous character. *)
Fixpoint drop_underscores (prev : ascii) (s : string) : option string :=
  match s with
  | EmptyString => if Ascii.eqb prev "_" then None else Some EmptyString
  | String c s' =>
      if Ascii.eqb c "_"
      then if is_digit prev then drop_underscores c s' else None
      else if Ascii.eqb prev "_" && negb (is_digit c) then None
      else String c <$> drop_underscores c s'
  end.

Definition lower (c : ascii) : ascii :=
  let n := PyStr.ord c in
  if ((65 <=? n) && (n <=? 90))%N then ascii_of_N (n + 32) else c.

Fixpoint lower_str (s : string) : string :=
  match s with
  | EmptyString => EmptyString
  | String c s' => String (lower c) (lower_str s')
  end.

(** The characters [float] strips from both ends of a literal: the six of
    C's [isspace] and, below U+0100, the two Unicode spaces that are not
    ASCII (U+0085 and U+00A0), which [float] first replaces by a blank.  The
    separators U+001C to U+001F, whitespace for [str.split], are not among
    them: [float] rejects a literal that has one. *)
Definition isspace (c : ascii) : bool :=
  let n := PyStr.ord c in
  ((9 <=? n) && (n <=? 13) || (n =? 32) || (n =? 133) || (n =? 160))%N.

Fixpoint lstrip (s : string) : string :=
  match s with
  | EmptyString => EmptyString
  | String c s' => if isspace c then lstrip s' else s
  end.

Fixpoint rstrip (s : string) : string :=
  match s with
  | EmptyString => EmptyString
  | String c s' =>
      match rstrip s' with
      | EmptyString => if isspace c then EmptyString else String c EmptyString
      | r => String c r
      end
  end.

Definition strip (s : string) : string := rstrip (lstrip s).

(** Optional sign: [(negative, rest)]. *)
Definition parse_sign (s : string) : bool * string :=
  match s with
  | String "-" s' => (true, s')
  | String "+" s' => (false, s')
  | _ => (false, s)
  end.

(** The exponent part, which must reach the end of the literal. *)
Definition parse_exponent (s : string) : option Z :=
  match s with
  | EmptyString => Some 0
  | String c s' =>
      if Ascii.eqb (lower c) "e" then
        let '(neg, s'') := parse_sign s' in
        match span_digits s'' with
        | ([], _) => None
        | (ds, EmptyString) =>
            Some (if neg then - digits_value ds else digits_value ds)
        | (_, String _ _) => None
        end
      else None
  end.

(** [digits [. digits] [e [sign] digits]] with at least one mantissa digit:
    the pair [(D, E)] stands for [D * 10^E]. *)
Definition parse_decimal (s : string) : option (Z * Z * Z) :=
  let '(d1, r1) := span_digits s in
  let '(d2, r2) :=
    match r1 with
    | String "." r => span_digits r
    | _ => ([], r1)
    end in
  match d1 ++ d2 with
  | [] => None
  | ds =>
      match parse_exponent r2 with
      | Some x => Some (digits_value ds, x - Z.of_nat (length d2), Z.of_nat (length ds))
      | None => None
      end
  end.

(** Correctly rounded (nearest, ties to even) binary64 value of the
    positive rational [n / d]. *)
Definition round_ratio (neg : bool) (n d : Z) : t :=
  let L := Z.log2 n - Z.log2 d in
  let scaled e := if 0 <=? e then n / (d * 2 ^ e) else (n * 2 ^ (- e)) / d in
  let e := if 2 ^ 52 <=? scaled (L - 52) then L - 52 else L - 53 in
  let e := Z.max e (-1074) in
  let num := if 0 <=? e then n else n * 2 ^ (- e) in
  let den := if 0 <=? e then d * 2 ^ e else d in
  let q := num / den in
  let r := num mod den in
  let m := if den <? 2 * r then q + 1
           else if (den =? 2 * r) && Z.odd q then q + 1
           else q in
  let '(m, e) := if m =? 2 ^ 53 then (2 ^ 52, e + 1) else (m, e) in
  if 971 <? e then Inf neg else Finite neg m e.

(** Value of the decimal [D * 10^E], [D] written with [len] digits. *)
Definition of_decimal (neg : bool) (D E len : Z) : t :=
  if D =? 0 then Finite neg 0 (-1074)
  else if 310 <? E then Inf neg
  else if len + E <? -330 then Finite neg 0 (-1074)
  else if 0 <=? E then round_ratio neg (D * 10 ^ E) 1
  else round_ratio neg D (10 ^ (- E)).

(** [float(s)] for a string [s]. *)
Definition of_str (s : string) : exn + t :=
  let bad := inl (ValueError "could not convert string to float") in
  match drop_underscores "000"%char s with
  | None => bad
  | Some s1 =>
      let '(neg, body) := parse_sign (strip s1) in
      let low := lower_str body in
      if String.eqb low "inf" || String.eqb low "infinity" then inr (Inf neg)
      else if String.eqb low "nan" then inr NaN
      else match parse_decimal body with
           | Some (D, E, len) => inr (of_decimal neg D E len)
           | None => bad
           end
  end.

(** [int(x)] for a float [x]: truncation toward zero. *)
Definition to_int (x : t) : exn + Z :=
  match x with
  | NaN => inl (ValueError "cannot convert float NaN to integer")
  | Inf _ => inl (OverflowError "cannot convert float infinity to integer")
  | Finite neg m e =>
      let a := if 0 <=? e then m * 2 ^ e else m / 2 ^ (- e) in
      inr (if neg then - a else a)
  end.

End PyFloat.

(** ** Values, transaction dicts and frames *)

(** A cell of a frame read with [dtype=str]: a string, or [None] for NaN. *)
Definition cell : Type := option string.

(** What the pipeline stores under the keys of a transaction dict.
    [VToDatetime a] is the value of [pd.to_datetime(a, errors='coerce')]
    (a Timestamp or NaT), kept as the call it comes from: its argument [a] is
    what [row.get] returned, [None] when the label is absent. *)
Inductive value : Type :=
| VNone
| VInt (n : Z)
| VFloat (x : PyFloat.t)
| VToDatetime (a : option cell).

(** A transaction dict, e.g. [transaction_data]. *)
Abbreviation tx := (gmap string value).

(** [d.get(k)] *)
Definition dict_get (d : tx) (k : string) : value := default VNone (d !! k).

(** An [int]-or-[None] local such as [irctc_order_no]. *)
Definition value_of_int (o : option Z) : value :=
  match o with Some n => VInt n | None => VNone end.

(** Truth value of an [int]-or-[None]: [None] and [0] are false. *)
Definition truthy (o : option Z) : bool :=
  match o with Some n => negb (n =? 0)%Z | None => false end.

Record DataFrame : Type := mkDataFrame {
  columns : list string;
  rows : list (list cell)   (* one list per row, aligned with [columns] *)
}.

(** [df.empty]: some axis has length zero. *)
Definition df_empty (df : DataFrame) : bool :=
  match columns df, rows df with
  | [], _ | _, [] => true
  | _, _ => false
  end.

(** [row.get(k)] on a row of a frame with labels [cols]: the cell under the
    label [k], [None] when the frame has no such label.  (Labels of a frame
    are taken to be distinct: the first match is the cell.) *)
Fixpoint row_get (cols : list string) (r : list cell) (k : string) : option cell :=
  match cols, r with
  | c :: cols', x :: r' => if String.eqb c k then Some x else row_get cols' r' k
  | _, _ => None
  end.

Definition notna (o : option cell) : bool :=
  match o with Some (Some _) => true | _ => false end.

Definition in_columns (k : string) (cols : list string) : bool :=
  existsb (String.eqb k) cols.

(** [df.rename(columns=m)] *)
Definition rename_columns (m : gmap string string) (cols : list string) : list string :=
  (fun c => default c (m !! c)) <$> cols.

(** [df.dropna(subset=subset)]: a missing label is a [KeyError]. *)
Definition dropna (subset : list string) (df : DataFrame) : exn + DataFrame :=
  match List.find (fun k => negb (in_columns k (columns df))) subset with
  | Some k => inl (KeyError k)
  | None =>
      inr (mkDataFrame (columns df)
             (List.filter
                (fun r => List.forallb (fun k => notna (row_get (columns df) r k)) subset)
                (rows df)))
  end.

(** [range(0, n, step)] *)
Definition range_step (n step : nat) : list nat :=
  (fun k => k * step) <$> seq 0 ((n + step - 1) / step).

(** [l[i:i + size]] *)
Definition slice {A : Type} (l : list A) (i size : nat) : list A :=
  take size (drop i l).

(** ** Static tables (tasks.py) *)

Definition BANK_CODE_MAPPING : gmap string Z :=
  list_to_map [("hdfc", 101%Z); ("icici", 102%Z); ("karur_vysya", 40%Z)].

Record kind_mapping : Type := mkKindMapping {
  mapping_columns : list string;
  column_mapping : gmap string string
}.

Record bank_mapping : Type := mkBankMapping {
  booking : kind_mapping;
  refund : kind_mapping
}.

Definition BANK_MAPPINGS : gmap string bank_mapping :=
  list_to_map
    [("karur_vysya",
      mkBankMapping
        (mkKindMapping
           ["TXN DATE"; "IRCTC ORDER NO."; "BANK BOOKING REF.NO.";
            "BOOKING AMOUNT"; "CREDITED ON"]
           (list_to_map
              [("IRCTCORDERNO", "irctc_order_no");
               ("BANKBOOKINGREFNO", "bank_booking_ref_no");
               ("BOOKINGAMOUNT", "booking_amount");
               ("TXNDATE", "transaction_date");
               ("CREDITEDON", "credited_date")]))
        (mkKindMapping
           ["REFUND DATE"; "IRCTC ORDER NO."; "BANK BOOKING REF.NO.";
            "BANK REFUND REF.NO."; "REFUND AMOUNT"; "DEBITED ON"]
           (list_to_map
              [("IRCTCORDERNO", "irctc_order_no");
               ("REFUNDAMOUNT", "refund_amount");
               ("DEBITEDON", "debited_date");
               ("REFUNDDATE", "refund_date");
               ("BANKBOOKINGREFNO", "bank_booking_ref_no");
               ("BANKREFUNDREFNO", "bank_refund_ref_no")])))].

(** ** The world: database tables, log, and the effect monad *)

Inductive level : Type := WARNING | ERROR.

(** A log record: its level and the fixed text of its message (the values
    interpolated into the message are left out).  Only the WARNING and ERROR
    records are kept. *)
Record log_record : Type := Log { lvl : level; msg : string }.

(** The two Django models. *)
Inductive model : Type := BookingTransaction | RefundTransaction.

Record world : Type := mkWorld {
  booking_table : list tx;          (* rows of BookingTransaction *)
  refund_table : list tx;           (* rows of RefundTransaction *)
  db_faults : list (option exn);    (* what the database answers to the coming
                                       [bulk_create] calls: [Some e] raises [e],
                                       [None] (or no entry) commits *)
  inserts : list (model * list tx); (* every [bulk_create] call made so far *)
  log : list log_record
}.

Inductive outcome (A : Type) : Type :=
| Return (a : A)
| Raise (e : exn).
Arguments Return {A} a.
Arguments Raise {A} e.

(** A computation runs in a world and ends by returning or by raising. *)
Definition M (A : Type) : Type := world -> outcome A * world.

#[global] Instance M_ret : MRet M := fun A a w => (Return a, w).

#[global] Instance M_bind : MBind M := fun A B f m w =>
  match m w with
  | (Return a, w') => f a w'
  | (Raise e, w') => (Raise e, w')
  end.

Definition raise {A : Type} (e : exn) : M A := fun w => (Raise e, w).

Definition lift {A : Type} (r : exn + A) : M A :=
  match r with inl e => raise e | inr a => mret a end.

(** [try: body except <classes> as e: handler(e)] *)
Definition try_except {A : Type} (body : M A) (caught : exn -> bool)
    (handler : exn -> M A) : M A := fun w =>
  match body w with
  | (Raise e, w') => if caught e then handler e w' else (Raise e, w')
  | r => r
  end.

(** [except Exception] *)
Definition any_exception (e : exn) : bool := true.

(** The world with the records [recs] appended to its log. *)
Definition add_log (w : world) (recs : list log_record) : world :=
  mkWorld (booking_table w) (refund_table w) (db_faults w) (inserts w)
          (log w ++ recs).

(** [logger.warning(...)], [logger.error(...)] *)
Definition logger (l : level) (m : string) : M unit := fun w =>
  (Return tt, add_log w [Log l m]).

(** [for x in l: body(x)] *)
Fixpoint for_each {A : Type} (l : list A) (body : A -> M unit) : M unit :=
  match l with
  | [] => mret tt
  | x :: l' => body x ≫= fun _ => for_each l' body
  end.

(** [d[k]] on a dict of strings *)
Definition getitem {V : Type} (d : gmap string V) (k : string) : M V :=
  match d !! k with Some v => mret v | None => raise (KeyError k) end.

(** [row[k]] *)
Definition row_getitem (cols : list string) (r : list cell) (k : string) : M cell :=
  match row_get cols r k with Some c => mret c | None => raise (KeyError k) end.

(** ** The database (storage collaborator of the bulk loaders) *)

#[global] Instance pyfloat_eq_dec : EqDecision PyFloat.t.
Proof. solve_decision. Defined.

#[global] Instance value_eq_dec : EqDecision value.
Proof. solve_decision. Defined.

Definition table_of (cls : model) (w : world) : list tx :=
  match cls with
  | BookingTransaction => booking_table w
  | RefundTransaction => refund_table w
  end.

(** Columns declared [unique=True] by migration 0001. *)
Definition unique_columns (cls : model) : list string :=
  match cls with
  | BookingTransaction => ["irctc_order_no"; "bank_booking_ref_no"]
  | RefundTransaction => ["bank_booking_ref_no"; "bank_refund_ref_no"]
  end.

(** A row conflicts with a table when it repeats a non-null value of a unique
    column. *)
Definition conflicts (cls : model) (table : list tx) (row : tx) : bool :=
  existsb
    (fun col =>
       let v := dict_get row col in
       negb (bool_decide (v = VNone))
       && existsb (fun old => bool_decide (dict_get old col = v)) table)
    (unique_columns cls).

(** Insert with [ignore_conflicts=True]: a conflicting row is skipped. *)
Definition insert_ignore_conflicts (cls : model) (table objs : list tx) : list tx :=
  fold_left (fun t row => if conflicts cls t row then t else t ++ [row]) objs table.

Definition set_table (cls : model) (t : list tx) (faults : list (option exn))
    (calls : list (model * list tx)) (w : world) : world :=
  match cls with
  | BookingTransaction => mkWorld t (refund_table w) faults calls (log w)
  | RefundTransaction => mkWorld (booking_table w) t faults calls (log w)
  end.

(** [with transaction.atomic(): cls.objects.bulk_create(<instances of objs>, ignore_conflicts=True)]:
    the call is recorded; when it raises (building the instances or in the
    database), the atomic block leaves the table as it was. *)
Definition atomic_bulk_create (cls : model) (objs : list tx) : M unit := fun w =>
  let calls := inserts w ++ [(cls, objs)] in
  match db_faults w with
  | Some e :: faults => (Raise e, set_table cls (table_of cls w) faults calls w)
  | None :: faults =>
      (Return tt,
       set_table cls (insert_ignore_conflicts cls (table_of cls w) objs) faults calls w)
  | [] =>
      (Return tt,
       set_table cls (insert_ignore_conflicts cls (table_of cls w) objs) [] calls w)
  end.

(** [set(cls.objects.filter(irctc_order_no__in=keys).values_list('irctc_order_no', flat=True))]:
    the order numbers of the stored rows that match one of [keys]; SQL [IN]
    never matches a null.  The query itself is taken to succeed. *)
Definition existing_order_numbers (cls : model) (keys : list value) : M (list value) :=
  fun w =>
    (Return
       (List.filter
          (fun v => negb (bool_decide (v = VNone)) && bool_decide (v ∈ keys))
          ((fun row => dict_get row "irctc_order_no") <$> table_of cls w)),
     w).

(** ** Bulk Loader (models.py) *)

Definition batch_size : nat := 500.

(** [bulk_create_booking_transactions] and [bulk_create_refund_transactions]
    have the same body; [cls] is the class the method is called on. *)
Definition bulk_create_transactions (cls : model) (transactions : list tx) : M nat :=
  existing_orders ←
    existing_order_numbers cls
      (omap (fun t : tx => t !! "irctc_order_no") transactions);
  let new_transactions :=
    List.filter
      (fun t : tx => negb (bool_decide (dict_get t "irctc_order_no" ∈ existing_orders)))
      transactions in
  match new_transactions with
  | _ :: _ =>
      for_each (range_step (length new_transactions) batch_size)
        (fun i =>
           try_except
             (atomic_bulk_create cls (slice new_transactions i batch_size))
             any_exception
             (fun ex => logger ERROR "Error during bulk create";; raise ex));;
      mret (length new_transactions)
  | [] => mret 0
  end.

Definition bulk_create_booking_transactions : list tx -> M nat :=
  bulk_create_transactions BookingTransaction.

Definition bulk_create_refund_transactions : list tx -> M nat :=
  bulk_create_transactions RefundTransaction.

(** ** Row Converter (tasks.py) *)

(** [convert_to_int(val)] for a cell [val]. *)
Definition convert_to_int (val : cell) : M (option Z) :=
  try_except
    (match val with
     | None => mret None                                   (* pd.isna(val) *)
     | Some s =>
         if PyStr.is_empty s then mret None                (* val == '' *)
         else
           x ← lift (PyFloat.of_str s);
           n ← lift (PyFloat.to_int x);
           mret (Some n)
     end)
    (fun e => is_ValueError e || is_OverflowError e)
    (fun e => logger ERROR "Error converting value to int";; mret None).

(** [float(row.get(k, 0.0))] *)
Definition float_of_get (got : option cell) : exn + PyFloat.t :=
  match got with
  | None => inr PyFloat.zero          (* label absent: the default 0.0 *)
  | Some None => inr PyFloat.NaN      (* a missing cell is NaN *)
  | Some (Some s) => PyFloat.of_str s
  end.

Definition bank_code (bank_name : string) : value :=
  match BANK_CODE_MAPPING !! bank_name with Some n => VInt n | None => VNone end.

(** The dict literal built for a booking row. *)
Definition booking_transaction_data (code : value)
    (irctc_order_no bank_booking_ref_no : option Z) (booking_amount : PyFloat.t)
    (transaction_date credited_date : value) : tx :=
  <[ "bank_code" := code ]>
  (<[ "irctc_order_no" := value_of_int irctc_order_no ]>
  (<[ "bank_booking_ref_no" := value_of_int bank_booking_ref_no ]>
  (<[ "booking_amount" := VFloat booking_amount ]>
  (<[ "transaction_date" := transaction_date ]>
  (<[ "credited_date" := credited_date ]> ∅))))).

(** The dict literal built for a refund row. *)
Definition refund_transaction_data (code : value)
    (irctc_order_no bank_booking_ref_no bank_refund_ref_no : option Z)
    (refund_amount : PyFloat.t) (refund_date debited_date : value) : tx :=
  <[ "bank_code" := code ]>
  (<[ "irctc_order_no" := value_of_int irctc_order_no ]>
  (<[ "bank_booking_ref_no" := value_of_int bank_booking_ref_no ]>
  (<[ "bank_refund_ref_no" := value_of_int bank_refund_ref_no ]>
  (<[ "refund_amount" := VFloat refund_amount ]>
  (<[ "refund_date" := refund_date ]>
  (<[ "debited_date" := debited_date ]> ∅)))))).

(** State of a dedup loop: the seen set and the list being accumulated. *)
Definition loop_state : Type := gset (option Z) * list tx.

(** One iteration of the booking loop. *)
Definition booking_step (cols : list string) (bank_name : string)
    (st : loop_state) (row : list cell) : M loop_state :=
  let '(seen_booking_orders, bulk_data_bookings) := st in
  c ← row_getitem cols row "irctc_order_no";
  irctc_order_no ← convert_to_int c;
  c ← row_getitem cols row "bank_booking_ref_no";
  bank_booking_ref_no ← convert_to_int c;
  if bool_decide (irctc_order_no ∈ seen_booking_orders)
     || bool_decide (bank_booking_ref_no ∈ seen_booking_orders)
  then
    logger WARNING "Duplicate booking transaction detected";;
    mret st
  else
    booking_amount ← lift (float_of_get (row_get cols row "booking_amount"));
    let transaction_data :=
      booking_transaction_data (bank_code bank_name) irctc_order_no
        bank_booking_ref_no booking_amount
        (VToDatetime (row_get cols row "transaction_date"))
        (VToDatetime (row_get cols row "credited_date")) in
    if truthy irctc_order_no && truthy bank_booking_ref_no
    then mret ({[ irctc_order_no ]} ∪ seen_booking_orders,
               bulk_data_bookings ++ [transaction_data])
    else mret st.

(** One iteration of the refund loop. *)
Definition refund_step (cols : list string) (bank_name : string)
    (st : loop_state) (row : list cell) : M loop_state :=
  let '(seen_refund_orders, bulk_data_refunds) := st in
  c ← row_getitem cols row "irctc_order_no";
  irctc_order_no ← convert_to_int c;
  c ← row_getitem cols row "bank_refund_ref_no";
  bank_refund_ref_no ← convert_to_int c;
  if bool_decide (irctc_order_no ∈ seen_refund_orders)
     || bool_decide (bank_refund_ref_no ∈ seen_refund_orders)
  then
    logger WARNING "Duplicate refund transaction detected";;
    mret st
  else
    bank_booking_ref_no ←
      convert_to_int (default None (row_get cols row "bank_booking_ref_no"));
    refund_amount ← lift (float_of_get (row_get cols row "refund_amount"));
    let transaction_data :=
      refund_transaction_data (bank_code bank_name) irctc_order_no
        bank_booking_ref_no bank_refund_ref_no refund_amount
        (VToDatetime (row_get cols row "refund_date"))
        (VToDatetime (row_get cols row "debited_date")) in
    if truthy irctc_order_no && truthy bank_refund_ref_no
    then mret ({[ irctc_order_no ]} ∪ seen_refund_orders,
               bulk_data_refunds ++ [transaction_data])
    else mret st.

(** [for index, row in df_chunk.iterrows(): ...], threading the loop state. *)
Fixpoint iterrows (step : loop_state -> list cell -> M loop_state)
    (rs : list (list cell)) (st : loop_state) : M loop_state :=
  match rs with
  | [] => mret st
  | row :: rs' => st' ← step st row; iterrows step rs' st'
  end.

Definition expected_booking_columns : list string :=
  ["transaction_date"; "irctc_order_no"; "bank_booking_ref_no";
   "booking_amount"; "credited_date"].

Definition expected_refund_columns : list string :=
  ["refund_date"; "irctc_order_no"; "bank_booking_ref_no";
   "bank_refund_ref_no"; "refund_amount"; "debited_date"].

Definition has_required (expected cols : list string) : bool :=
  List.forallb (fun col => in_columns col cols) expected.

(** The booking loop of a chunk with (renamed) labels [cols]. *)
Definition booking_loop (cols : list string) (bank_name : string)
    (rs : list (list cell)) : M loop_state :=
  iterrows (booking_step cols bank_name) rs (∅, []).

Definition refund_loop (cols : list string) (bank_name : string)
    (rs : list (list cell)) : M loop_state :=
  iterrows (refund_step cols bank_name) rs (∅, []).

(** ** Dedup & Batch Assembler: [process_dataframe_chunk] (tasks.py) *)

Definition common_columns : list string := ["irctc_order_no"; "bank_booking_ref_no"].

Definition wants_booking (transaction_type : string) : bool :=
  String.eqb transaction_type "both" || String.eqb transaction_type "booking".

Definition wants_refund (transaction_type : string) : bool :=
  String.eqb transaction_type "both" || String.eqb transaction_type "refund".

Definition process_dataframe_chunk (df_chunk : DataFrame)
    (bank_name transaction_type : string) : M unit :=
  let cleaned_columns := clean_column_name <$> columns df_chunk in
  bank ← getitem BANK_MAPPINGS bank_name;
  let booking_col_mapping := column_mapping (booking bank) in
  let refund_col_mapping := column_mapping (refund bank) in
  m1 ← getitem booking_col_mapping "IRCTCORDERNO";
  m2 ← getitem booking_col_mapping "BANKBOOKINGREFNO";
  m3 ← getitem booking_col_mapping "BOOKINGAMOUNT";
  m4 ← getitem booking_col_mapping "TXNDATE";
  m5 ← getitem booking_col_mapping "CREDITEDON";
  let renaming : gmap string string :=
    filter (fun kv => in_columns kv.1 cleaned_columns = true) refund_col_mapping
    ∪ list_to_map [("IRCTCORDERNO", m1); ("BANKBOOKINGREFNO", m2);
                   ("BOOKINGAMOUNT", m3); ("TXNDATE", m4); ("CREDITEDON", m5)] in
  let renamed := mkDataFrame (rename_columns renaming cleaned_columns) (rows df_chunk) in
  df_chunk ← lift (dropna common_columns renamed);
  if df_empty df_chunk then
    logger WARNING "No valid rows remaining after dropping NAs. Skipping this chunk."
  else
    let cols := columns df_chunk in
    bulk_data_bookings ←
      (if wants_booking transaction_type && has_required expected_booking_columns cols
       then st ← booking_loop cols bank_name (rows df_chunk); mret st.2
       else mret []);
    bulk_data_refunds ←
      (if wants_refund transaction_type && has_required expected_refund_columns cols
       then st ← refund_loop cols bank_name (rows df_chunk); mret st.2
       else mret []);
    match bulk_data_bookings with
    | _ :: _ => bulk_create_booking_transactions bulk_data_bookings;; mret tt
    | [] => mret tt
    end;;
    match bulk_data_refunds with
    | _ :: _ => bulk_create_refund_transactions bulk_data_refunds;; mret tt
    | [] => mret tt
    end.

(** ** Pipeline Orchestrator: [process_uploaded_files] (tasks.py) *)

(** What iterating [pd.read_csv(..., chunksize=50000)] does: it yields a
    chunk, stops, or raises. *)
Inductive chunk_stream : Type :=
| StreamEnd
| StreamRaise (e : exn)
| StreamChunk (chunk : DataFrame) (rest : chunk_stream).

(** An uploaded file, given by what the pandas readers do on its bytes. *)
Record file_content : Type := mkFile {
  read_excel : exn + DataFrame;   (* pd.read_excel(BytesIO(file_content), dtype=str) *)
  read_csv : chunk_stream         (* pd.read_csv(BytesIO(file_content), dtype=str, chunksize=50000) *)
}.

Definition chunk_size : nat := N.to_nat 50000.

Fixpoint csv_chunks (s : chunk_stream) (bank_name transaction_type : string) : M unit :=
  match s with
  | StreamEnd => mret tt
  | StreamRaise e => raise e
  | StreamChunk chunk rest =>
      (if df_empty chunk
       then logger ERROR "Empty chunk detected. Skipping."
       else process_dataframe_chunk chunk bank_name transaction_type);;
      csv_chunks rest bank_name transaction_type
  end.

(** The body of the [for file_index, file_content in enumerate(files)] loop;
    the [return] of the empty-Excel branch leaves the whole function. *)
Fixpoint files_loop (files : list file_content)
    (bank_name transaction_type file_format : string) : M unit :=
  match files with
  | [] => mret tt
  | file :: files' =>
      if String.eqb file_format "excel" then
        df ← lift (read_excel file);
        let total_rows := length (rows df) in
        if (total_rows =? 0)%nat then
          logger ERROR "No data found in the file."
        else
          for_each (range_step total_rows chunk_size)
            (fun start_row =>
               process_dataframe_chunk
                 (mkDataFrame (columns df) (slice (rows df) start_row chunk_size))
                 bank_name transaction_type);;
          files_loop files' bank_name transaction_type file_format
      else if String.eqb file_format "csv" then
        csv_chunks (read_csv file) bank_name transaction_type;;
        files_loop files' bank_name transaction_type file_format
      else
        logger ERROR "Unsupported file format";;
        raise (ValueError "Unsupported file format")
  end.

Definition process_uploaded_files (files : list file_content)
    (bank_name transaction_type file_format : string) : M unit :=
  try_except
    (files_loop files bank_name transaction_type file_format)
    any_exception
    (fun e => logger ERROR "Error processing file";; raise e).

(** ** Auxiliary notions used by the statements *)

Definition empty_world : world := mkWorld [] [] [] [] [].

(** The field [k] of a transaction, as an [int]-or-[None]. *)
Definition int_field (k : string) (t : tx) : option Z :=
  match t !! k with Some (VInt n) => Some n | _ => None end.

(** The result and the final world of a run. *)
Definition result {A : Type} (r : outcome A * world) : outcome A := r.1.
Definition final {A : Type} (r : outcome A * world) : world := r.2.

(** [int(float(s))] *)
Definition int_of_str (s : string) : exn + Z :=
  match PyFloat.of_str s with
  | inl e => inl e
  | inr x => PyFloat.to_int x
  end.

(** The integer a cell converts to, if any. *)
Definition int_of_cell (val : cell) : option Z :=
  match val with
  | None => None
  | Some s =>
      if PyStr.is_empty s then None
      else match int_of_str s with inr n => Some n | inl _ => None end
  end.

(** The cell is a non-empty string that [int(float(_))] rejects. *)
Definition conversion_error (val : cell) : bool :=
  match val with
  | None => false
  | Some s =>
      if PyStr.is_empty s then false
      else match int_of_str s with inr _ => false | inl _ => true end
  end.

(** The world after a call of [convert_to_int]. *)
Definition after_convert (val : cell) (w : world) : world :=
  if conversion_error val
  then add_log w [Log ERROR "Error converting value to int"]
  else w.

(** The candidates a loader keeps after its existence check, in a world. *)
Definition new_candidates (cls : model) (transactions : list tx) (w : world) : list tx :=
  List.filter
    (fun t : tx =>
       negb (bool_decide
               (dict_get t "irctc_order_no"
                ∈ List.filter
                    (fun v => negb (bool_decide (v = VNone))
                              && bool_decide
                                   (v ∈ omap (fun t : tx => t !! "irctc_order_no")
                                          transactions))
                    ((fun row => dict_get row "irctc_order_no") <$> table_of cls w))))
    transactions.

(** The sub-batches a loader cuts its candidates into. *)
Definition sub_batches (new_transactions : list tx) : list (list tx) :=
  (fun i => slice new_transactions i batch_size)
    <$> range_step (length new_transactions) batch_size.

(** The loop of a loader over its sub-batches. *)
Definition insert_sub_batches (cls : model) (batches : list (list tx)) : M unit :=
  for_each batches
    (fun batch =>
       try_except (atomic_bulk_create cls batch) any_exception
         (fun ex => logger ERROR "Error during bulk create";; raise ex)).

(** Committing the sub-batches [batches] to a table, in order. *)
Definition commit_all (cls : model) (batches : list (list tx)) (table : list tx)
  : list tx :=
  fold_left (insert_ignore_conflicts cls) batches table.

(** A row of the table [cls] carries the order number [n]. *)
Definition order_in_table (cls : model) (w : world) (n : Z) : Prop :=
  exists row : tx, row ∈ table_of cls w /\ dict_get row "irctc_order_no" = VInt n.

(** Processing the chunks of a non-empty Excel frame. *)
Definition excel_chunks (df : DataFrame) (bank_name transaction_type : string) : M unit :=
  for_each (range_step (length (rows df)) chunk_size)
    (fun start_row =>
       process_dataframe_chunk
         (mkDataFrame (columns df) (slice (rows df) start_row chunk_size))
         bank_name transaction_type).

(** [pd.read_excel] succeeds on the file and the frame has no data row. *)
Definition zero_rows_excel (file : file_content) : bool :=
  match read_excel file with
  | inr df => (length (rows df) =? 0)%nat
  | inl _ => false
  end.

(** The CSV reader yields [n] chunks, all of them empty, and stops. *)
Fixpoint empty_chunks (s : chunk_stream) : option nat :=
  match s with
  | StreamEnd => Some 0
  | StreamRaise _ => None
  | StreamChunk chunk rest =>
      if df_empty chunk then S <$> empty_chunks rest else None
  end.

(** The CSV reader yields [n] chunks, all of them empty, and then raises [e];
    a reader that raises before it yields a chunk has [n = 0]. *)
Fixpoint empty_chunks_then_raise (s : chunk_stream) : option (nat * exn) :=
  match s with
  | StreamEnd => None
  | StreamRaise e => Some (0, e)
  | StreamChunk chunk rest =>
      if df_empty chunk
      then (fun ne : nat * exn => (S ne.1, ne.2)) <$> empty_chunks_then_raise rest
      else None
  end.

(** A row is eligible in a dedup loop: neither key is in the seen set and
    both keys are true values. *)
Definition eligible (seen : gset (option Z)) (o r : option Z) : bool :=
  negb (bool_decide (o ∈ seen) || bool_decide (r ∈ seen)) && truthy o && truthy r.

(** The records a loop run accumulated ([[]] when it raised). *)
Definition accepted (r : outcome loop_state * world) : list tx :=
  match r.1 with Return st => st.2 | Raise _ => [] end.



Definition order_numbers (bulk : list tx) : list (option Z) :=
  int_field "irctc_order_no" <$> bulk.

(** An iteration that returns either leaves the state alone or accepts the
    row: it appends one record whose order number is new to the seen set and
    adds that order number, and nothing else, to the seen set. *)
Definition step_effect (st st' : loop_state) : Prop :=
  st' = st
  \/ exists (o : option Z) (t : tx),
       (o ∉ st.1) /\ truthy o = true /\ int_field "irctc_order_no" t = o
       /\ st' = ({[ o ]} ∪ st.1, st.2 ++ [t]).

(** The invariant of both loops: the seen set is exactly the set of order
    numbers of the accumulated records, and these are pairwise distinct. *)
Definition seen_invariant (st : loop_state) : Prop :=
  st.1 = list_to_set (order_numbers st.2) /\ NoDup (order_numbers st.2).

(** What a run submitted to the database: for every [bulk_create] call, the
    model and the two booking keys of each record. *)
Definition submitted_booking_keys (r : outcome unit * world)
  : list (model * list (option Z * option Z)) :=
  (fun call : model * list tx =>
     (call.1,
      (fun t : tx => (int_field "irctc_order_no" t, int_field "bank_booking_ref_no" t))
        <$> call.2))
    <$> inserts (final r).

Definition submitted_refund_keys (r : outcome unit * world)
  : list (model * list (option Z * option Z)) :=
  (fun call : model * list tx =>
     (call.1,
      (fun t : tx => (int_field "irctc_order_no" t, int_field "bank_refund_ref_no" t))
        <$> call.2))
    <$> inserts (final r).

(** The value under the key [k] of every submitted record ([None] when the
    record has no such key). *)
Definition submitted_field (k : string) (r : outcome unit * world)
  : list (list (option value)) :=
  (fun call : model * list tx => (fun t : tx => t !! k) <$> call.2) <$> inserts (final r).

(** ** Concrete inputs used in the examples *)

Module Fixtures.

(** The Karur Vysya booking header, as uploaded. *)
Definition booking_header : list string :=
  ["TXN DATE"; "IRCTC ORDER NO."; "BANK BOOKING REF.NO."; "BOOKING AMOUNT";
   "CREDITED ON"].

Definition refund_header : list string :=
  ["REFUND DATE"; "IRCTC ORDER NO."; "BANK BOOKING REF.NO.";
   "BANK REFUND REF.NO."; "REFUND AMOUNT"; "DEBITED ON"].

(** The labels after cleaning and renaming. *)
Definition booking_cols : list string :=
  ["transaction_date"; "irctc_order_no"; "bank_booking_ref_no";
   "booking_amount"; "credited_date"].

Definition refund_cols : list string :=
  ["refund_date"; "irctc_order_no"; "bank_booking_ref_no";
   "bank_refund_ref_no"; "refund_amount"; "debited_date"].

Definition booking_row (order ref amount : cell) : list cell :=
  [Some "01-01-2024"; order; ref; amount; Some "05-01-2024"].

Definition refund_row (order booking_ref refund_ref amount : cell) : list cell :=
  [Some "02-01-2024"; order; booking_ref; refund_ref; amount; Some "06-01-2024"].

(** Two bookings with different order numbers and the same bank booking
    reference number. *)
Definition same_reference : DataFrame :=
  mkDataFrame booking_header
    [booking_row (Some "1") (Some "5") (Some "100.50");
     booking_row (Some "2") (Some "5") (Some "20")].

(** Two bookings whose keys are all different field by field; the reference
    number of the second is the order number of the first. *)
Definition crossed_keys : DataFrame :=
  mkDataFrame booking_header
    [booking_row (Some "1") (Some "5") (Some "100.50");
     booking_row (Some "2") (Some "1") (Some "20")].

Definition crossed_refund_keys : DataFrame :=
  mkDataFrame refund_header
    [refund_row (Some "1") (Some "7") (Some "5") (Some "100.50");
     refund_row (Some "2") (Some "8") (Some "1") (Some "20")].

(** The record built for the first row of [crossed_keys], and the one built
    for the first row of [crossed_refund_keys]. *)
Definition first_crossed_booking : tx :=
  booking_transaction_data (VInt 40) (Some 1%Z) (Some 5%Z)
    (PyFloat.Finite false 7072058789855232 (-46))
    (VToDatetime (Some (Some "01-01-2024")))
    (VToDatetime (Some (Some "05-01-2024"))).

Definition first_crossed_refund : tx :=
  refund_transaction_data (VInt 40) (Some 1%Z) (Some 7%Z) (Some 5%Z)
    (PyFloat.Finite false 7072058789855232 (-46))
    (VToDatetime (Some (Some "02-01-2024")))
    (VToDatetime (Some (Some "06-01-2024"))).

(** A booking and a refund whose amount cell is missing. *)
Definition missing_booking_amount : DataFrame :=
  mkDataFrame booking_header [booking_row (Some "123456") (Some "987654") None].

Definition missing_refund_amount : DataFrame :=
  mkDataFrame refund_header
    [refund_row (Some "123456") (Some "987654") (Some "555") None].

(** A booking whose amount is not a number for [float]. *)
Definition malformed_amount : DataFrame :=
  mkDataFrame booking_header
    [booking_row (Some "123456") (Some "987654") (Some "1,000.50")].


(** An Excel file with a header and no data row, and a CSV file whose reader
    yields one empty chunk. *)
Definition empty_excel : file_content :=
  mkFile (inr (mkDataFrame booking_header [])) StreamEnd.

Definition empty_csv : file_content :=
  mkFile (inl (OtherError "BadZipFile"))
         (StreamChunk (mkDataFrame booking_header []) StreamEnd).

(** A file of no bytes: each reader raises on it. *)
Definition blank : file_content :=
  mkFile (inl (OtherError "BadZipFile")) (StreamRaise (OtherError "EmptyDataError")).

Definition one_booking : file_content :=
  mkFile
    (inr (mkDataFrame booking_header
            [booking_row (Some "123456") (Some "987654") (Some "100.50")]))
    (StreamChunk
       (mkDataFrame booking_header
          [booking_row (Some "123456") (Some "987654") (Some "100.50")])
       StreamEnd).

(** A transaction dict carrying only an order number. *)
Definition order_only (n : Z) : tx := {[ "irctc_order_no" := VInt n ]}.

(** 1001 candidates with the order numbers 1 to 1001: three sub-batches. *)
Definition many_candidates : list tx :=
  (fun i => order_only (Z.of_nat i)) <$> seq 1 1001.

(** A database that commits the first bulk insert and fails the second. *)
Definition second_insert_fails : world :=
  mkWorld [] [] [None; Some (OtherError "OperationalError")] [] [].

(** A store that already holds order number 1001. *)
Definition holds_1001 : world :=
  mkWorld [order_only 1001] [] [] [] [].

End Fixtures.

(** * Further notions: growth of the store, reruns, the view *)

(** ** Notions used by the properties of the whole pipeline *)

(** Every run of [m] relates the world it starts in to the world it ends in
    by [R], whether it returns or raises. *)
Definition preserves {A : Type} (R : world -> world -> Prop) (m : M A) : Prop :=
  forall w, R w (m w).2.

(** The world only grew: rows were appended to the tables, calls to the
    trace, records to the log. *)
Definition grew (w w' : world) : Prop :=
  booking_table w `prefix_of` booking_table w'
  /\ refund_table w `prefix_of` refund_table w'
  /\ inserts w `prefix_of` inserts w'
  /\ log w `prefix_of` log w'.

(** The table of [cls] was left alone: same rows, and no [bulk_create] call
    for [cls] was added to the trace. *)
Definition untouched (cls : model) (w w' : world) : Prop :=
  table_of cls w' = table_of cls w
  /\ exists calls,
       inserts w' = inserts w ++ calls
       /\ Forall (fun call : model * list tx => call.1 <> cls) calls.

(** The non-null values of the column [col] in a table. *)
Definition key_values (col : string) (table : list tx) : list value :=
  List.filter (fun v => negb (bool_decide (v = VNone)))
    ((fun row => dict_get row col) <$> table).

(** The computation does not look at the world and only logs: its outcome
    and the records it logs are the same in every world. *)
Definition logs_only {A : Type} (m : M A) : Prop :=
  exists (o : outcome A) (recs : list log_record),
    forall w, m w = (o, add_log w recs).

(** The database commits every insert: no fault is scheduled. *)
Definition commits (w : world) : Prop := db_faults w = [].

(** The tables of [w'] are those of [w] with rows appended. *)
Definition tables_extend (w w' : world) : Prop :=
  booking_table w `prefix_of` booking_table w'
  /\ refund_table w `prefix_of` refund_table w'.

Definition same_tables (w w' : world) : Prop :=
  booking_table w' = booking_table w /\ refund_table w' = refund_table w.

(** Running [m] again persists nothing: once [m] has run in a world [w], a
    run of [m] in any later world [w'] (one whose tables extend those the
    first run left) ends like the first run and changes no table. *)
Definition repeatable {A : Type} (m : M A) : Prop :=
  forall w w',
    commits w -> commits w' -> tables_extend (m w).2 w' ->
    (m w').1 = (m w).1 /\ same_tables w' (m w').2.

(** [m] only appends to the store, keeps a committing database committing,
    and is repeatable. *)
Definition tame {A : Type} (m : M A) : Prop :=
  preserves grew m
  /\ preserves (fun w w' => commits w -> commits w') m
  /\ repeatable m.

(** Every candidate carries an order number. *)
Definition with_order_numbers (transactions : list tx) : Prop :=
  Forall (fun t => dict_get t "irctc_order_no" <> VNone) transactions.

(** Every candidate is dealt with by the table: its order number is stored,
    or the candidate conflicts with a stored row. *)
Definition settled (cls : model) (transactions table : list tx) : Prop :=
  Forall
    (fun t =>
       dict_get t "irctc_order_no" ∈ key_values "irctc_order_no" table
       \/ conflicts cls table t = true)
    transactions.

(** ** The form's choices (forms.py) *)

Definition BANK_CHOICES : list (string * string) :=
  [("hdfc", "HDFC"); ("icici", "ICICI"); ("karur_vysya", "Karur Vysya")].

Definition TRANSACTION_CHOICES : list (string * string) :=
  [("booking", "Booking"); ("refund", "Refund"); ("both", "Both")].

(** ** Notions used by the properties of chunk processing *)

(** The renaming [process_dataframe_chunk] applies for Karur Vysya: the
    refund mapping completed by the booking mapping. *)
Definition KARUR_RENAMING : gmap string string :=
  match BANK_MAPPINGS !! "karur_vysya" with
  | Some bank => column_mapping (refund bank) ∪ column_mapping (booking bank)
  | None => ∅
  end.

(** The label a header gets: it is cleaned, then renamed if the registry
    knows the cleaned token. *)
Definition karur_label (header : string) : string :=
  let token := clean_column_name header in
  default token (KARUR_RENAMING !! token).

(** The frame [dropna] is called on. *)
Definition renamed_frame (df : DataFrame) : DataFrame :=
  mkDataFrame (karur_label <$> columns df) (rows df).

(** Some header of the frame cleans to the token [token]. *)
Definition has_token (cols : list string) (token : string) : bool :=
  existsb (fun header => String.eqb (clean_column_name header) token) cols.

(** What [process_dataframe_chunk] does once the frame is renamed and its
    rows without keys are dropped. *)
Definition chunk_body (df_chunk : DataFrame) (bank_name transaction_type : string)
  : M unit :=
  if df_empty df_chunk then
    logger WARNING "No valid rows remaining after dropping NAs. Skipping this chunk."
  else
    let cols := columns df_chunk in
    bulk_data_bookings ←
      (if wants_booking transaction_type && has_required expected_booking_columns cols
       then st ← booking_loop cols bank_name (rows df_chunk); mret st.2
       else mret []);
    bulk_data_refunds ←
      (if wants_refund transaction_type && has_required expected_refund_columns cols
       then st ← refund_loop cols bank_name (rows df_chunk); mret st.2
       else mret []);
    match bulk_data_bookings with
    | _ :: _ => bulk_create_booking_transactions bulk_data_bookings;; mret tt
    | [] => mret tt
    end;;
    match bulk_data_refunds with
    | _ :: _ => bulk_create_refund_transactions bulk_data_refunds;; mret tt
    | [] => mret tt
    end.

(** The cleaned tokens of the columns the booking loop and the refund loop
    require. *)
Definition booking_tokens : list string :=
  ["TXNDATE"; "IRCTCORDERNO"; "BANKBOOKINGREFNO"; "BOOKINGAMOUNT"; "CREDITEDON"].

Definition refund_tokens : list string :=
  ["REFUNDDATE"; "IRCTCORDERNO"; "BANKBOOKINGREFNO"; "BANKREFUNDREFNO";
   "REFUNDAMOUNT"; "DEBITEDON"].

(** ** Decimal numerals *)

(** The string is made of decimal digits. *)
Definition all_digits (s : string) : bool := PyStr.forallb PyFloat.is_digit s.

(** The value of a decimal numeral, read from the left. *)
Fixpoint numeral_value_from (acc : Z) (s : string) : Z :=
  match s with
  | EmptyString => acc
  | String c s' => numeral_value_from (10 * acc + PyFloat.digit_val c) s'
  end.

Definition numeral_value (s : string) : Z := numeral_value_from 0 s.

(** ** The upload view: [upload_files] (views.py) *)

(** [s.endswith(suffix)] *)
Definition endswith (s suffix : string) : bool :=
  let n := String.length s in
  let k := String.length suffix in
  (k <=? n)%nat && String.eqb (String.substring (n - k) k s) suffix.

(** An uploaded file as the view reads it. *)
Record uploaded_file : Type := mkUpload {
  file_name : string;    (* file.name *)
  file_size : N;         (* file.size *)
  file_bytes : string    (* file.read() *)
}.

(** The request as the view reads it: [form_is_valid] is the answer of
    [form.is_valid()], and the two cleaned fields are what [cleaned_data]
    holds when the form is valid. *)
Record request : Type := mkRequest {
  method : string;
  form_is_valid : bool;
  cleaned_bank_name : string;
  cleaned_transaction_type : string;
  FILES : list uploaded_file         (* request.FILES.getlist('file') *)
}.

Inductive response : Type :=
| JsonResponse (message : string) (status : Z)
| render_upload_form.

(** One call of [process_uploaded_files.delay]: the arguments handed to the
    task queue (what the broker does with them is not part of the view). *)
Record task_call : Type := mkTask {
  task_files : list string;
  task_bank_name : string;
  task_transaction_type : string;
  task_file_format : string
}.

(** The [for file in files] loop of the view, with its two local variables;
    a [return] inside the loop leaves the view with a response. *)
Fixpoint scan_files (files : list uploaded_file) (file_contents : list string)
    (file_format : option string)
    : (response * list log_record) + (list string * option string) :=
  match files with
  | [] => inr (file_contents, file_format)
  | file :: files' =>
      if (file_size file =? 0)%N then
        inl (JsonResponse
               (String.append "File " (String.append (file_name file) " is empty."))
               400,
             [Log ERROR "File is empty."])
      else
        let file_content := file_bytes file in
        let file_name := file_name file in
        if endswith file_name ".xlsx" then
          scan_files files' (file_contents ++ [file_content]) (Some "excel")
        else if endswith file_name ".csv" then
          scan_files files' (file_contents ++ [file_content]) (Some "csv")
        else
          inl (JsonResponse
                 "Unsupported file extension. Only .xlsx and .csv files are allowed."
                 400,
               [Log ERROR "Unsupported file extension for file"])
  end.

(** What a call of the view produces: its response, the task calls it
    queued, and the ERROR records it logged. *)
Record view_result : Type := mkViewResult {
  view_response : response;
  queued : list task_call;
  view_log : list log_record
}.

Definition upload_files (request : request) : view_result :=
  if String.eqb (method request) "POST" then
    if form_is_valid request then
      let bank_name := cleaned_bank_name request in
      let transaction_type := cleaned_transaction_type request in
      match scan_files (FILES request) [] None with
      | inl (early, recs) => mkViewResult early [] recs
      | inr (file_contents, None) =>
          mkViewResult
            (JsonResponse
               "Unable to determine file format. Please upload .xlsx or .csv files."
               400)
            []
            [Log ERROR "Could not determine file format for uploaded files."]
      | inr (file_contents, Some file_format) =>
          mkViewResult
            (JsonResponse "Files uploaded successfully. Processing started." 202)
            [mkTask file_contents bank_name transaction_type file_format]
            []
      end
    else mkViewResult render_upload_form [] []
  else mkViewResult render_upload_form [] [].

(** The HTTP status of a JSON response. *)
Definition json_status (r : response) : option Z :=
  match r with JsonResponse _ status => Some status | render_upload_form => None end.

(** The format a file name stands for. *)
Definition format_of_name (name : string) : option string :=
  if endswith name ".xlsx" then Some "excel"
  else if endswith name ".csv" then Some "csv"
  else None.

(** The file is not empty and its name has a supported extension. *)
Definition acceptable (file : uploaded_file) : bool :=
  negb (file_size file =? 0)%N && bool_decide (is_Some (format_of_name (file_name file))).

(** A valid POST with at least one file, all of them acceptable. *)
Definition upload_accepted (request : request) : bool :=
  String.eqb (method request) "POST" && form_is_valid request
  && negb (bool_decide (FILES request = [])) && List.forallb acceptable (FILES request).

(** * Properties *)

(** ** Column Normalizer *)

Section CleanColumnName.

Import PyStr.

Lemma filter_append (p : ascii -> bool) (s1 s2 : string) :
  filter p (String.append s1 s2) = String.append (filter p s1) (filter p s2).
Proof.
  induction s1 as [|c s1 IH]; simpl; [reflexivity|].
  destruct (p c); simpl; rewrite IH; reflexivity.
Qed.

Lemma filter_filter (p q : ascii -> bool) (s : string) :
  filter p (filter q s) = filter (fun c => q c && p c) s.
Proof.
  induction s as [|c s IH]; simpl; [reflexivity|].
  destruct (q c); simpl; [destruct (p c)|]; rewrite IH; reflexivity.
Qed.

Lemma filter_ext (p q : ascii -> bool) (s : string) :
  (forall c, p c = q c) -> filter p s = filter q s.
Proof.
  intros E. induction s as [|c s IH]; simpl; [reflexivity|].
  rewrite E, IH. reflexivity.
Qed.

Lemma forallb_filter (p q : ascii -> bool) (s : string) :
  (forall c, q c = true -> p c = true) -> forallb p (filter q s) = true.
Proof.
  intros H. induction s as [|c s IH]; simpl; [reflexivity|].
  destruct (q c) eqn:Q; simpl; [rewrite (H _ Q)|]; exact IH.
Qed.

(** Every part produced by [split] has a character. *)
Lemma split_parts_nonempty (s : string) :
  Forall (fun part => is_empty part = false) (split s).
Proof.
  induction s as [|c s IH]; simpl; [constructor|].
  destruct (isspace c); [exact IH|].
  destruct s as [|c' s']; [repeat constructor|].
  destruct (isspace c'); [constructor; [reflexivity|exact IH]|].
  destruct (split (String c' s')) as [|w ws]; [repeat constructor|].
  inversion IH; subst. constructor; [reflexivity|assumption].
Qed.

Lemma filter_nonempty_id (parts : list string) :
  Forall (fun part => is_empty part = false) parts ->
  List.filter (fun part => negb (is_empty part)) parts = parts.
Proof.
  induction 1 as [|p ps Hp _ IH]; simpl; [reflexivity|].
  rewrite Hp; simpl. f_equal. exact IH.
Qed.

(** Joining the parts gives back the string without its whitespace. *)
Lemma join_split (s : string) :
  join (split s) = filter (fun c => negb (isspace c)) s.
Proof.
  induction s as [|c s IH]; [reflexivity|].
  cbn [split filter].
  destruct (isspace c) eqn:Hc; cbn [negb]; [exact IH|].
  destruct s as [|c' s']; [reflexivity|].
  destruct (isspace c') eqn:Hc'.
  - cbn [join]. rewrite IH. reflexivity.
  - destruct (split (String c' s')) as [|w ws] eqn:Hs.
    + cbn [join] in *. rewrite <- IH. reflexivity.
    + cbn [join] in *. rewrite <- IH. reflexivity.
Qed.

Lemma lstrip_no_space (s : string) :
  forallb (fun c => negb (isspace c)) s = true -> lstrip s = s.
Proof.
  destruct s as [|c s]; simpl; [reflexivity|].
  destruct (isspace c); simpl; [discriminate|reflexivity].
Qed.

Lemma rstrip_no_space (s : string) :
  forallb (fun c => negb (isspace c)) s = true -> rstrip s = s.
Proof.
  induction s as [|c s IH]; simpl; [reflexivity|].
  destruct (isspace c) eqn:Hc; simpl; [discriminate|].
  intros H. rewrite (IH H). destruct s; reflexivity.
Qed.

Lemma strip_no_space (s : string) :
  forallb (fun c => negb (isspace c)) s = true -> strip s = s.
Proof.
  intros H. unfold strip. rewrite (lstrip_no_space _ H).
  apply rstrip_no_space, H.
Qed.

Lemma clean_column_name_filter (s : string) :
  clean_column_name s = filter kept_char s.
Proof.
  unfold clean_column_name.
  rewrite (filter_nonempty_id _ (split_parts_nonempty s)), join_split.
  rewrite filter_filter. fold kept_char.
  apply strip_no_space, forallb_filter.
  intros c. unfold kept_char. destruct (isspace c); [discriminate|reflexivity].
Qed.

End CleanColumnName.

(** C8. [clean_column_name] is a total function on strings whose result is its
    argument with every whitespace character, every ['.'] and every ['_']
    removed and every other character kept, in order ([kept_char] decides
    which characters stay); the empty string is mapped to the empty string. *)
Theorem clean_column_name_removes_exactly :
  (forall s : string, clean_column_name s = PyStr.filter kept_char s)
  /\ (forall c : ascii,
        kept_char c = false <->
        PyStr.isspace c = true \/ c = "."%char \/ c = "_"%char)
  /\ clean_column_name "" = "".
Proof.
  split; [exact clean_column_name_filter|]. split; [|reflexivity].
  intros c. unfold kept_char, not_dot_underscore.
  destruct (PyStr.isspace c); simpl.
  - split; auto.
  - destruct (Ascii.eqb_spec c "."); [subst; simpl; split; auto|].
    destruct (Ascii.eqb_spec c "_"); [subst; simpl; split; auto|].
    simpl. split; [discriminate|]. intros [H|[H|H]]; congruence.
Qed.

Example clean_karur_vysya_header :
  (fun b => clean_column_name <$> mapping_columns (booking b))
    <$> BANK_MAPPINGS !! "karur_vysya"
  = Some ["TXNDATE"; "IRCTCORDERNO"; "BANKBOOKINGREFNO"; "BOOKINGAMOUNT"; "CREDITEDON"].
Proof. vm_compute. reflexivity. Qed.

(** ** Running monadic code *)

Lemma run_bind {A B : Type} (m : M A) (f : A -> M B) (w : world) :
  (m ≫= f) w =
  match m w with
  | (Return a, w') => f a w'
  | (Raise e, w') => (Raise e, w')
  end.
Proof. reflexivity. Qed.

Lemma run_ret {A : Type} (a : A) (w : world) : (mret a : M A) w = (Return a, w).
Proof. reflexivity. Qed.

Lemma run_logger (l : level) (m : string) (w : world) :
  logger l m w = (Return tt, add_log w [Log l m]).
Proof. reflexivity. Qed.

Lemma add_log_nil (w : world) : add_log w [] = w.
Proof. destruct w; unfold add_log; simpl. rewrite app_nil_r. reflexivity. Qed.

Lemma add_log_add_log (w : world) (l1 l2 : list log_record) :
  add_log (add_log w l1) l2 = add_log w (l1 ++ l2).
Proof. unfold add_log; simpl. rewrite app_assoc. reflexivity. Qed.

(** ** Row Converter *)

Lemma of_str_raises_ValueError (s : string) (e : exn) :
  PyFloat.of_str s = inl e -> is_ValueError e = true.
Proof.
  unfold PyFloat.of_str.
  destruct (PyFloat.drop_underscores _ s) as [s1|]; [|intros [= <-]; reflexivity].
  destruct (PyFloat.parse_sign (PyFloat.strip s1)) as [neg body].
  destruct (_ || _); [discriminate|].
  destruct (String.eqb _ "nan"); [discriminate|].
  destruct (PyFloat.parse_decimal body) as [[[D E] len]|]; [discriminate|].
  intros [= <-]; reflexivity.
Qed.

Lemma to_int_raises (x : PyFloat.t) (e : exn) :
  PyFloat.to_int x = inl e -> is_ValueError e || is_OverflowError e = true.
Proof. destruct x; simpl; intros [= <-]; reflexivity. Qed.

Lemma int_of_str_raises (s : string) (e : exn) :
  int_of_str s = inl e -> is_ValueError e || is_OverflowError e = true.
Proof.
  unfold int_of_str. destruct (PyFloat.of_str s) as [e'|x] eqn:F.
  - intros [= <-]. rewrite (of_str_raises_ValueError _ _ F). reflexivity.
  - apply to_int_raises.
Qed.

(** What a call of [convert_to_int] does: it returns, with the integer of the
    cell or [None], and logs one ERROR record exactly when the conversion
    raised. *)
Lemma convert_to_int_run (val : cell) (w : world) :
  convert_to_int val w =
  (Return (int_of_cell val),
   if conversion_error val
   then add_log w [Log ERROR "Error converting value to int"]
   else w).
Proof.
  unfold convert_to_int, try_except, int_of_cell, conversion_error.
  destruct val as [s|]; [|reflexivity].
  destruct (PyStr.is_empty s); [reflexivity|].
  rewrite run_bind. unfold int_of_str.
  destruct (PyFloat.of_str s) as [e|x] eqn:F; simpl.
  - unfold raise. rewrite (of_str_raises_ValueError _ _ F). reflexivity.
  - rewrite run_bind. destruct (PyFloat.to_int x) as [e|n] eqn:T; simpl.
    + unfold raise. rewrite (to_int_raises _ _ T). reflexivity.
    + reflexivity.
Qed.

Lemma run_convert_bind {B : Type} (val : cell) (f : option Z -> M B) (w : world) :
  (convert_to_int val ≫= f) w = f (int_of_cell val) (after_convert val w).
Proof. rewrite run_bind, convert_to_int_run. reflexivity. Qed.

(** One iteration of the booking loop, on a row that has the two key labels. *)
Lemma booking_step_run (cols : list string) (bank_name : string)
    (seen : gset (option Z)) (bulk : list tx) (row : list cell)
    (c1 c2 : cell) (w : world) :
  row_get cols row "irctc_order_no" = Some c1 ->
  row_get cols row "bank_booking_ref_no" = Some c2 ->
  let o := int_of_cell c1 in
  let r := int_of_cell c2 in
  let w2 := after_convert c2 (after_convert c1 w) in
  booking_step cols bank_name (seen, bulk) row w =
  if bool_decide (o ∈ seen) || bool_decide (r ∈ seen)
  then (Return (seen, bulk),
        add_log w2 [Log WARNING "Duplicate booking transaction detected"])
  else match float_of_get (row_get cols row "booking_amount") with
       | inl e => (Raise e, w2)
       | inr x =>
           (Return
              (if truthy o && truthy r
               then ({[ o ]} ∪ seen,
                     bulk ++ [booking_transaction_data (bank_code bank_name) o r x
                                (VToDatetime (row_get cols row "transaction_date"))
                                (VToDatetime (row_get cols row "credited_date"))])
               else (seen, bulk)),
            w2)
       end.
Proof.
  intros H1 H2 o r w2. unfold booking_step, row_getitem.
  rewrite H1, H2. rewrite run_bind, run_ret, run_convert_bind.
  rewrite run_bind, run_ret, run_convert_bind.
  fold o r w2.
  destruct (bool_decide (o ∈ seen) || bool_decide (r ∈ seen)); [reflexivity|].
  rewrite run_bind.
  destruct (float_of_get (row_get cols row "booking_amount")) as [e|x]; simpl;
    [reflexivity|].
  destruct (truthy o && truthy r); reflexivity.
Qed.

Lemma refund_step_run (cols : list string) (bank_name : string)
    (seen : gset (option Z)) (bulk : list tx) (row : list cell)
    (c1 c2 : cell) (w : world) :
  row_get cols row "irctc_order_no" = Some c1 ->
  row_get cols row "bank_refund_ref_no" = Some c2 ->
  let o := int_of_cell c1 in
  let r := int_of_cell c2 in
  let c3 := default None (row_get cols row "bank_booking_ref_no") in
  let w2 := after_convert c2 (after_convert c1 w) in
  refund_step cols bank_name (seen, bulk) row w =
  if bool_decide (o ∈ seen) || bool_decide (r ∈ seen)
  then (Return (seen, bulk),
        add_log w2 [Log WARNING "Duplicate refund transaction detected"])
  else match float_of_get (row_get cols row "refund_amount") with
       | inl e => (Raise e, after_convert c3 w2)
       | inr x =>
           (Return
              (if truthy o && truthy r
               then ({[ o ]} ∪ seen,
                     bulk ++ [refund_transaction_data (bank_code bank_name) o
                                (int_of_cell c3) r x
                                (VToDatetime (row_get cols row "refund_date"))
                                (VToDatetime (row_get cols row "debited_date"))])
               else (seen, bulk)),
            after_convert c3 w2)
       end.
Proof.
  intros H1 H2 o r c3 w2. unfold refund_step, row_getitem.
  rewrite H1, H2. rewrite run_bind, run_ret, run_convert_bind.
  rewrite run_bind, run_ret, run_convert_bind.
  fold o r w2.
  destruct (bool_decide (o ∈ seen) || bool_decide (r ∈ seen)); [reflexivity|].
  rewrite run_convert_bind. fold c3. rewrite run_bind.
  destruct (float_of_get (row_get cols row "refund_amount")) as [e|x]; simpl;
    [reflexivity|].
  destruct (truthy o && truthy r); reflexivity.
Qed.

(** ** Dedup loops: what one iteration can do, and the loop invariant *)

Lemma int_field_order_booking code o r x d1 d2 :
  int_field "irctc_order_no" (booking_transaction_data code o r x d1 d2) = o.
Proof.
  unfold int_field, booking_transaction_data.
  rewrite lookup_insert_ne by done. rewrite lookup_insert_eq.
  destruct o; reflexivity.
Qed.

Lemma int_field_ref_booking code o r x d1 d2 :
  int_field "bank_booking_ref_no" (booking_transaction_data code o r x d1 d2) = r.
Proof.
  unfold int_field, booking_transaction_data.
  do 2 (rewrite lookup_insert_ne by done). rewrite lookup_insert_eq.
  destruct r; reflexivity.
Qed.

Lemma int_field_order_refund code o b r x d1 d2 :
  int_field "irctc_order_no" (refund_transaction_data code o b r x d1 d2) = o.
Proof.
  unfold int_field, refund_transaction_data.
  rewrite lookup_insert_ne by done. rewrite lookup_insert_eq.
  destruct o; reflexivity.
Qed.


Lemma booking_step_effect cols bank_name st row w st' w' :
  booking_step cols bank_name st row w = (Return st', w') -> step_effect st st'.
Proof.
  destruct st as [seen bulk].
  destruct (row_get cols row "irctc_order_no") as [c1|] eqn:H1;
    [|unfold booking_step, row_getitem; rewrite H1; discriminate].
  destruct (row_get cols row "bank_booking_ref_no") as [c2|] eqn:H2;
    [|unfold booking_step, row_getitem; rewrite H1, H2;
      rewrite run_bind, run_ret, run_convert_bind; discriminate].
  rewrite (booking_step_run _ _ _ _ _ _ _ _ H1 H2). cbv zeta.
  destruct (bool_decide (int_of_cell c1 ∈ seen)) eqn:D1; simpl;
    [intros [= <- _]; left; reflexivity|].
  destruct (bool_decide (int_of_cell c2 ∈ seen)) eqn:D2; simpl;
    [intros [= <- _]; left; reflexivity|].
  destruct (float_of_get _) as [e|x]; [discriminate|].
  destruct (truthy (int_of_cell c1)) eqn:T1; simpl;
    [|intros [= <- _]; left; reflexivity].
  destruct (truthy (int_of_cell c2)) eqn:T2; simpl;
    [|intros [= <- _]; left; reflexivity].
  intros [= <- _]. right. eexists _, _. simpl.
  split; [apply bool_decide_eq_false in D1; exact D1|].
  split; [exact T1|]. split; [apply int_field_order_booking|reflexivity].
Qed.

Lemma refund_step_effect cols bank_name st row w st' w' :
  refund_step cols bank_name st row w = (Return st', w') -> step_effect st st'.
Proof.
  destruct st as [seen bulk].
  destruct (row_get cols row "irctc_order_no") as [c1|] eqn:H1;
    [|unfold refund_step, row_getitem; rewrite H1; discriminate].
  destruct (row_get cols row "bank_refund_ref_no") as [c2|] eqn:H2;
    [|unfold refund_step, row_getitem; rewrite H1, H2;
      rewrite run_bind, run_ret, run_convert_bind; discriminate].
  rewrite (refund_step_run _ _ _ _ _ _ _ _ H1 H2). cbv zeta.
  destruct (bool_decide (int_of_cell c1 ∈ seen)) eqn:D1; simpl;
    [intros [= <- _]; left; reflexivity|].
  destruct (bool_decide (int_of_cell c2 ∈ seen)) eqn:D2; simpl;
    [intros [= <- _]; left; reflexivity|].
  destruct (float_of_get _) as [e|x]; [discriminate|].
  destruct (truthy (int_of_cell c1)) eqn:T1; simpl;
    [|intros [= <- _]; left; reflexivity].
  destruct (truthy (int_of_cell c2)) eqn:T2; simpl;
    [|intros [= <- _]; left; reflexivity].
  intros [= <- _]. right. eexists _, _. simpl.
  split; [apply bool_decide_eq_false in D1; exact D1|].
  split; [exact T1|]. split; [apply int_field_order_refund|reflexivity].
Qed.

Lemma seen_invariant_init : seen_invariant (∅, []).
Proof. split; [reflexivity|constructor]. Qed.

Lemma seen_invariant_step st st' :
  step_effect st st' -> seen_invariant st -> seen_invariant st'.
Proof.
  intros [->|(o & t & Hnew & _ & Ho & ->)] [Hseen Hnd]; [split; assumption|].
  unfold seen_invariant, order_numbers in *. simpl.
  rewrite fmap_app. simpl. rewrite Ho. split.
  - rewrite list_to_set_app_L, <- Hseen. simpl.
    rewrite (right_id_L ∅ (∪)). apply (comm_L (∪)).
  - apply NoDup_app. split; [exact Hnd|]. split; [|apply NoDup_singleton].
    intros y Hy Hy'. apply list_elem_of_singleton in Hy'. subst y.
    apply Hnew. rewrite Hseen. apply elem_of_list_to_set. exact Hy.
Qed.

Lemma iterrows_cons (step : loop_state -> list cell -> M loop_state)
    (row : list cell) (rs : list (list cell)) (st : loop_state) (w : world) :
  iterrows step (row :: rs) st w =
  match step st row w with
  | (Return st', w') => iterrows step rs st' w'
  | (Raise e, w') => (Raise e, w')
  end.
Proof. reflexivity. Qed.

Lemma iterrows_invariant (step : loop_state -> list cell -> M loop_state)
    (I : loop_state -> Prop) :
  (forall st row w st' w', step st row w = (Return st', w') -> I st -> I st') ->
  forall rs st w st' w',
    iterrows step rs st w = (Return st', w') -> I st -> I st'.
Proof.
  intros Hstep rs. induction rs as [|row rs IH]; intros st w st' w'.
  - simpl. rewrite run_ret. intros [= <- _]. trivial.
  - simpl. rewrite run_bind.
    destruct (step st row w) as [[st1|e] w1] eqn:S; [|discriminate].
    intros Hrun Hst. eapply IH; [exact Hrun|]. eapply Hstep; eassumption.
Qed.

Lemma booking_loop_invariant cols bank_name rs w st w' :
  booking_loop cols bank_name rs w = (Return st, w') -> seen_invariant st.
Proof.
  intros H. eapply (iterrows_invariant _ seen_invariant); [|exact H|].
  - intros ? ? ? ? ? S. apply seen_invariant_step.
    eapply booking_step_effect, S.
  - apply seen_invariant_init.
Qed.

Lemma refund_loop_invariant cols bank_name rs w st w' :
  refund_loop cols bank_name rs w = (Return st, w') -> seen_invariant st.
Proof.
  intros H. eapply (iterrows_invariant _ seen_invariant); [|exact H|].
  - intros ? ? ? ? ? S. apply seen_invariant_step.
    eapply refund_step_effect, S.
  - apply seen_invariant_init.
Qed.

(** ** Claims about the Dedup & Batch Assembler and the Row Converter *)

(** Two rows with different order numbers and the same bank booking reference
    number, the reference being different from the first order number: the
    booking loop accepts both. *)
Lemma booking_loop_same_reference cols bank_name row1 row2 c1 r1 x1 c2 r2 x2 w :
  row_get cols row1 "irctc_order_no" = Some c1 ->
  row_get cols row1 "bank_booking_ref_no" = Some r1 ->
  float_of_get (row_get cols row1 "booking_amount") = inr x1 ->
  row_get cols row2 "irctc_order_no" = Some c2 ->
  row_get cols row2 "bank_booking_ref_no" = Some r2 ->
  float_of_get (row_get cols row2 "booking_amount") = inr x2 ->
  truthy (int_of_cell c1) = true ->
  truthy (int_of_cell c2) = true ->
  truthy (int_of_cell r1) = true ->
  int_of_cell c2 <> int_of_cell c1 ->
  int_of_cell r2 = int_of_cell r1 ->
  int_of_cell r1 <> int_of_cell c1 ->
  exists t1 t2,
    accepted (booking_loop cols bank_name [row1; row2] w) = [t1; t2]
    /\ int_field "irctc_order_no" t1 = int_of_cell c1
    /\ int_field "irctc_order_no" t2 = int_of_cell c2
    /\ int_field "bank_booking_ref_no" t1 = int_of_cell r1
    /\ int_field "bank_booking_ref_no" t2 = int_of_cell r1.
Proof.
  intros H1 H2 H3 H4 H5 H6 T1 T2 T3 Ho Hr Hro.
  unfold booking_loop, accepted. rewrite iterrows_cons.
  rewrite (booking_step_run _ _ _ _ _ _ _ _ H1 H2). cbv zeta.
  rewrite !bool_decide_eq_false_2 by apply not_elem_of_empty.
  rewrite H3, T1, T3. cbn [orb andb]. rewrite iterrows_cons.
  rewrite (booking_step_run _ _ _ _ _ _ _ _ H4 H5). cbv zeta.
  rewrite (bool_decide_eq_false_2 (int_of_cell c2 ∈ _))
    by (rewrite elem_of_union, elem_of_singleton; intros [?|?%elem_of_empty]; auto).
  rewrite (bool_decide_eq_false_2 (int_of_cell r2 ∈ _))
    by (rewrite Hr, elem_of_union, elem_of_singleton;
        intros [?|?%elem_of_empty]; auto).
  rewrite H6, T2, Hr, T3. cbn [orb andb iterrows]. rewrite run_ret.
  eexists _, _. split; [reflexivity|].
  rewrite !int_field_order_booking, !int_field_ref_booking. repeat split.
Qed.

(** C1 (evaluation at the failing input).  Whenever two rows of a chunk have
    different order numbers and the same bank booking reference number, and
    that reference is not the order number of the first row, the booking loop
    accepts both rows: two accepted records share the reference number.  In
    the chunk [Fixtures.same_reference] the rows have the order numbers 1 and
    2 and both have the reference number 5: chunk processing returns normally,
    logs nothing and submits both records in one batch. *)
Theorem same_reference_both_accepted :
  (forall cols bank_name row1 row2 c1 r1 x1 c2 r2 x2 w,
      row_get cols row1 "irctc_order_no" = Some c1 ->
      row_get cols row1 "bank_booking_ref_no" = Some r1 ->
      float_of_get (row_get cols row1 "booking_amount") = inr x1 ->
      row_get cols row2 "irctc_order_no" = Some c2 ->
      row_get cols row2 "bank_booking_ref_no" = Some r2 ->
      float_of_get (row_get cols row2 "booking_amount") = inr x2 ->
      truthy (int_of_cell c1) = true ->
      truthy (int_of_cell c2) = true ->
      truthy (int_of_cell r1) = true ->
      int_of_cell c2 <> int_of_cell c1 ->
      int_of_cell r2 = int_of_cell r1 ->
      int_of_cell r1 <> int_of_cell c1 ->
      exists t1 t2,
        accepted (booking_loop cols bank_name [row1; row2] w) = [t1; t2]
        /\ int_field "irctc_order_no" t1 = int_of_cell c1
        /\ int_field "irctc_order_no" t2 = int_of_cell c2
        /\ int_field "bank_booking_ref_no" t1 = int_of_cell r1
        /\ int_field "bank_booking_ref_no" t2 = int_of_cell r1)
  /\ (let run :=
        process_dataframe_chunk Fixtures.same_reference "karur_vysya" "booking"
          empty_world in
      result run = Return tt
      /\ submitted_booking_keys run
         = [(BookingTransaction, [(Some 1%Z, Some 5%Z); (Some 2%Z, Some 5%Z)])]
      /\ log (final run) = []).
Proof.
  split; [exact booking_loop_same_reference|].
  vm_compute. repeat split.
Qed.

Lemma same_reference_both_accepted_witness :
  exists t1 t2,
    accepted (booking_loop Fixtures.booking_cols "karur_vysya"
                (rows Fixtures.same_reference) empty_world) = [t1; t2]
    /\ int_field "irctc_order_no" t1 = Some 1%Z
    /\ int_field "irctc_order_no" t2 = Some 2%Z
    /\ int_field "bank_booking_ref_no" t1 = Some 5%Z
    /\ int_field "bank_booking_ref_no" t2 = Some 5%Z.
Proof.
  refine (proj1 same_reference_both_accepted
            Fixtures.booking_cols "karur_vysya"
            (Fixtures.booking_row (Some "1") (Some "5") (Some "100.50"))
            (Fixtures.booking_row (Some "2") (Some "5") (Some "20"))
            (Some "1") (Some "5") (PyFloat.Finite false 7072058789855232 (-46))
            (Some "2") (Some "5") (PyFloat.Finite false 5629499534213120 (-48))
            empty_world eq_refl eq_refl eq_refl eq_refl eq_refl eq_refl
            eq_refl eq_refl eq_refl _ eq_refl _);
    vm_compute; discriminate.
Defined.

(** The part of C1 the code does keep: the records a dedup loop accepted in
    one chunk have pairwise distinct IRCTC order numbers. *)
Theorem accepted_order_numbers_distinct :
  (forall cols bank_name rs w st w',
      booking_loop cols bank_name rs w = (Return st, w') ->
      NoDup (order_numbers st.2))
  /\ (forall cols bank_name rs w st w',
         refund_loop cols bank_name rs w = (Return st, w') ->
         NoDup (order_numbers st.2)).
Proof.
  split; intros cols bank_name rs w st w' H.
  - exact (proj2 (booking_loop_invariant _ _ _ _ _ _ H)).
  - exact (proj2 (refund_loop_invariant _ _ _ _ _ _ H)).
Qed.

Lemma accepted_order_numbers_distinct_witness :
  NoDup (order_numbers [Fixtures.first_crossed_booking]).
Proof.
  assert (H : booking_loop Fixtures.booking_cols "karur_vysya"
                (rows Fixtures.crossed_keys) empty_world
              = (Return ({[ Some 1%Z ]}, [Fixtures.first_crossed_booking]),
                 add_log empty_world
                   [Log WARNING "Duplicate booking transaction detected"])).
  { vm_cast_no_check
      (eq_refl (Return ({[ Some 1%Z ]} : gset (option Z),
                        [Fixtures.first_crossed_booking]),
                add_log empty_world
                  [Log WARNING "Duplicate booking transaction detected"])). }
  exact (proj1 accepted_order_numbers_distinct _ _ _ _ _ _ H).
Defined.

(** C10.  In both dedup loops the seen set holds the order numbers of the
    accepted records and nothing else, and a row's reference number is tested
    for membership in that set.  In [Fixtures.crossed_keys] (bookings) and
    [Fixtures.crossed_refund_keys] (refunds) the two rows differ in their order
    numbers (1, 2) and in their reference numbers (5, 1), and the reference
    number of the second row is the order number of the first: the second
    row, which is eligible on its own, is dropped as a duplicate with a
    warning, and only the first record is submitted. *)
Theorem reference_tested_against_seen_order_numbers :
  (forall cols bank_name rs w st w',
      booking_loop cols bank_name rs w = (Return st, w') ->
      st.1 = list_to_set (order_numbers st.2))
  /\ (forall cols bank_name rs w st w',
         refund_loop cols bank_name rs w = (Return st, w') ->
         st.1 = list_to_set (order_numbers st.2))
  /\ (let run :=
        process_dataframe_chunk Fixtures.crossed_keys "karur_vysya" "booking"
          empty_world in
      eligible ∅ (int_of_cell (Some "2")) (int_of_cell (Some "1")) = true
      /\ result run = Return tt
      /\ submitted_booking_keys run = [(BookingTransaction, [(Some 1%Z, Some 5%Z)])]
      /\ log (final run) = [Log WARNING "Duplicate booking transaction detected"])
  /\ (let run :=
        process_dataframe_chunk Fixtures.crossed_refund_keys "karur_vysya" "refund"
          empty_world in
      eligible ∅ (int_of_cell (Some "2")) (int_of_cell (Some "1")) = true
      /\ result run = Return tt
      /\ submitted_refund_keys run = [(RefundTransaction, [(Some 1%Z, Some 5%Z)])]
      /\ log (final run) = [Log WARNING "Duplicate refund transaction detected"]).
Proof.
  split; [|split; [|split]].
  - intros cols bank_name rs w st w' H.
    exact (proj1 (booking_loop_invariant _ _ _ _ _ _ H)).
  - intros cols bank_name rs w st w' H.
    exact (proj1 (refund_loop_invariant _ _ _ _ _ _ H)).
  - vm_compute. repeat split.
  - vm_compute. repeat split.
Qed.

Lemma reference_tested_against_seen_order_numbers_witness :
  ({[ Some 1%Z ]} : gset (option Z))
  = list_to_set (order_numbers [Fixtures.first_crossed_refund]).
Proof.
  assert (H : refund_loop Fixtures.refund_cols "karur_vysya"
                (rows Fixtures.crossed_refund_keys) empty_world
              = (Return ({[ Some 1%Z ]}, [Fixtures.first_crossed_refund]),
                 add_log empty_world
                   [Log WARNING "Duplicate refund transaction detected"])).
  { vm_cast_no_check
      (eq_refl (Return ({[ Some 1%Z ]} : gset (option Z),
                        [Fixtures.first_crossed_refund]),
                add_log empty_world
                  [Log WARNING "Duplicate refund transaction detected"])). }
  exact (proj1 (proj2 reference_tested_against_seen_order_numbers)
           _ _ _ _ _ _ H).
Defined.






(** C4 (evaluation at the failing input).  For every eligible row of the
    booking loop (respectively of the refund loop) whose amount cell is
    missing, the record appended for the row carries the amount NaN, which is
    not the float 0.0: the default of [row.get] is used only when the label is
    absent, and the loops run only when the label is present.  The booking
    row of [Fixtures.missing_booking_amount] and the refund row of
    [Fixtures.missing_refund_amount] are such rows, and the NaN record is what
    chunk processing submits for them. *)
Theorem missing_amount_becomes_nan :
  (forall cols bank_name seen bulk row c1 c2 w,
      row_get cols row "irctc_order_no" = Some c1 ->
      row_get cols row "bank_booking_ref_no" = Some c2 ->
      row_get cols row "booking_amount" = Some None ->
      eligible seen (int_of_cell c1) (int_of_cell c2) = true ->
      exists t w',
        booking_step cols bank_name (seen, bulk) row w
        = (Return ({[ int_of_cell c1 ]} ∪ seen, bulk ++ [t]), w')
        /\ t !! "booking_amount" = Some (VFloat PyFloat.NaN))
  /\ (forall cols bank_name seen bulk row c1 c2 w,
         row_get cols row "irctc_order_no" = Some c1 ->
         row_get cols row "bank_refund_ref_no" = Some c2 ->
         row_get cols row "refund_amount" = Some None ->
         eligible seen (int_of_cell c1) (int_of_cell c2) = true ->
         exists t w',
           refund_step cols bank_name (seen, bulk) row w
           = (Return ({[ int_of_cell c1 ]} ∪ seen, bulk ++ [t]), w')
           /\ t !! "refund_amount" = Some (VFloat PyFloat.NaN))
  /\ submitted_field "booking_amount"
       (process_dataframe_chunk Fixtures.missing_booking_amount "karur_vysya"
          "booking" empty_world)
     = [[Some (VFloat PyFloat.NaN)]]
  /\ submitted_field "refund_amount"
       (process_dataframe_chunk Fixtures.missing_refund_amount "karur_vysya"
          "refund" empty_world)
     = [[Some (VFloat PyFloat.NaN)]]
  /\ VFloat PyFloat.NaN <> VFloat PyFloat.zero.
Proof.
  split; [|split].
  - intros cols bank_name seen bulk row c1 c2 w H1 H2 H3 He.
    rewrite (booking_step_run _ _ _ _ _ _ _ _ H1 H2). cbv zeta.
    unfold eligible in He. apply andb_prop in He as [He T2].
    apply andb_prop in He as [He T1]. apply negb_true_iff in He.
    rewrite He, H3, T1, T2. simpl. eexists _, _. split; [reflexivity|].
    reflexivity.
  - intros cols bank_name seen bulk row c1 c2 w H1 H2 H3 He.
    rewrite (refund_step_run _ _ _ _ _ _ _ _ H1 H2). cbv zeta.
    unfold eligible in He. apply andb_prop in He as [He T2].
    apply andb_prop in He as [He T1]. apply negb_true_iff in He.
    rewrite He, H3, T1, T2. simpl. eexists _, _. split; [reflexivity|].
    reflexivity.
  - split; [vm_compute; reflexivity|].
    split; [vm_compute; reflexivity|discriminate].
Qed.

Lemma missing_amount_becomes_nan_witness :
  exists t w',
    booking_step Fixtures.booking_cols "karur_vysya" (∅, [])
      (Fixtures.booking_row (Some "123456") (Some "987654") None) empty_world
    = (Return ({[ Some 123456%Z ]} ∪ ∅, [] ++ [t]), w')
    /\ t !! "booking_amount" = Some (VFloat PyFloat.NaN).
Proof.
  exact (proj1 missing_amount_becomes_nan
           Fixtures.booking_cols "karur_vysya" ∅ []
           (Fixtures.booking_row (Some "123456") (Some "987654") None)
           (Some "123456") (Some "987654") empty_world
           eq_refl eq_refl eq_refl eq_refl).
Defined.

(** [float] and the whitespace around a literal: a blank or a no-break space
    is stripped, the separator U+001C is not, so that [convert_to_int]
    answers [None] (and logs) for a cell that [str.split] would see as a
    blank followed by [7]. *)
Example float_strips_less_than_split :
  int_of_cell (Some " 7 ") = Some 7%Z
  /\ int_of_cell (Some (String (ascii_of_N 160) "7")) = Some 7%Z
  /\ int_of_cell (Some (String (ascii_of_N 28) "7")) = None
  /\ conversion_error (Some (String (ascii_of_N 28) "7")) = true
  /\ PyStr.isspace (ascii_of_N 28) = true.
Proof. vm_compute. repeat split. Qed.

(** C6 (evaluation at the failing input).  A malformed amount string is not
    absorbed.  When [float] rejects the amount string of a row that the
    duplicate test of the loop lets through, the iteration raises the
    [ValueError] of [float]: no sentinel is stored, no record is appended and
    nothing is logged for the amount.  The only row of
    [Fixtures.malformed_amount] has the amount [1,000.50]: chunk processing
    raises that [ValueError], nothing is submitted to the store, and the
    driver logs the error and raises it again.  The integer conversion next
    to it is guarded: [convert_to_int] never raises, it returns [None] for a
    missing cell, an empty string or a string that [int(float(_))] rejects,
    logging one ERROR record in the last case; on the same string
    [1,000.50] it returns [None]. *)
Theorem malformed_amount_not_absorbed :
  (forall cols bank_name seen bulk row c1 c2 s e w,
      row_get cols row "irctc_order_no" = Some c1 ->
      row_get cols row "bank_booking_ref_no" = Some c2 ->
      bool_decide (int_of_cell c1 ∈ seen) || bool_decide (int_of_cell c2 ∈ seen)
      = false ->
      row_get cols row "booking_amount" = Some (Some s) ->
      PyFloat.of_str s = inl e ->
      booking_step cols bank_name (seen, bulk) row w
      = (Raise e, after_convert c2 (after_convert c1 w))
      /\ is_ValueError e = true)
  /\ (forall cols bank_name seen bulk row c1 c2 s e w,
         row_get cols row "irctc_order_no" = Some c1 ->
         row_get cols row "bank_refund_ref_no" = Some c2 ->
         bool_decide (int_of_cell c1 ∈ seen) || bool_decide (int_of_cell c2 ∈ seen)
         = false ->
         row_get cols row "refund_amount" = Some (Some s) ->
         PyFloat.of_str s = inl e ->
         refund_step cols bank_name (seen, bulk) row w
         = (Raise e,
            after_convert (default None (row_get cols row "bank_booking_ref_no"))
              (after_convert c2 (after_convert c1 w)))
         /\ is_ValueError e = true)
  /\ process_dataframe_chunk Fixtures.malformed_amount "karur_vysya" "booking"
       empty_world
     = (Raise (ValueError "could not convert string to float"), empty_world)
  /\ process_uploaded_files
       [mkFile (inr Fixtures.malformed_amount) StreamEnd]
       "karur_vysya" "booking" "excel" empty_world
     = (Raise (ValueError "could not convert string to float"),
        add_log empty_world [Log ERROR "Error processing file"])
  /\ (forall val w,
         convert_to_int val w = (Return (int_of_cell val), after_convert val w))
  /\ (forall val w,
         after_convert val w
         = if conversion_error val
           then add_log w [Log ERROR "Error converting value to int"]
           else w)
  /\ int_of_cell None = None /\ int_of_cell (Some "") = None
  /\ conversion_error None = false /\ conversion_error (Some "") = false
  /\ (forall val, conversion_error val = true -> int_of_cell val = None)
  /\ conversion_error (Some "1,000.50") = true.
Proof.
  split; [|split].
  - intros cols bank_name seen bulk row c1 c2 s e w H1 H2 Hdup H3 He.
    split; [|exact (of_str_raises_ValueError _ _ He)].
    rewrite (booking_step_run _ _ _ _ _ _ _ _ H1 H2). cbv zeta.
    rewrite Hdup, H3. simpl. rewrite He. reflexivity.
  - intros cols bank_name seen bulk row c1 c2 s e w H1 H2 Hdup H3 He.
    split; [|exact (of_str_raises_ValueError _ _ He)].
    rewrite (refund_step_run _ _ _ _ _ _ _ _ H1 H2). cbv zeta.
    rewrite Hdup, H3. simpl. rewrite He. reflexivity.
  - split; [vm_compute; reflexivity|]. split; [vm_compute; reflexivity|].
    split; [exact convert_to_int_run|]. split; [reflexivity|].
    do 4 (split; [reflexivity|]).
    split; [|vm_compute; reflexivity].
    intros [s|]; simpl; [|discriminate].
    destruct (PyStr.is_empty s); [discriminate|].
    destruct (int_of_str s); [reflexivity|discriminate].
Qed.

Lemma malformed_amount_not_absorbed_witness :
  booking_step Fixtures.booking_cols "karur_vysya" (∅, [])
    (Fixtures.booking_row (Some "123456") (Some "987654") (Some "1,000.50"))
    empty_world
  = (Raise (ValueError "could not convert string to float"), empty_world)
  /\ is_ValueError (ValueError "could not convert string to float") = true.
Proof.
  exact (proj1 malformed_amount_not_absorbed
           Fixtures.booking_cols "karur_vysya" ∅ []
           (Fixtures.booking_row (Some "123456") (Some "987654") (Some "1,000.50"))
           (Some "123456") (Some "987654") "1,000.50"
           (ValueError "could not convert string to float") empty_world
           eq_refl eq_refl eq_refl eq_refl eq_refl).
Defined.

(** ** Bulk Loader *)

Lemma for_each_fmap {A B : Type} (f : A -> B) (l : list A) (body : B -> M unit) :
  for_each (f <$> l) body = for_each l (fun x => body (f x)).
Proof.
  induction l as [|x l IH]; [reflexivity|].
  rewrite fmap_cons. cbn [for_each]. rewrite IH. reflexivity.
Qed.

(** The loader computes its candidates from the table it is called in, then
    loops over their sub-batches. *)
Lemma bulk_create_transactions_run (cls : model) (transactions : list tx) (w : world) :
  bulk_create_transactions cls transactions w =
  match new_candidates cls transactions w with
  | [] => (Return 0, w)
  | new =>
      match insert_sub_batches cls (sub_batches new) w with
      | (Return _, w') => (Return (length new), w')
      | (Raise e, w') => (Raise e, w')
      end
  end.
Proof.
  unfold bulk_create_transactions. rewrite run_bind.
  unfold existing_order_numbers. fold (new_candidates cls transactions w).
  destruct (new_candidates cls transactions w) as [|t new]; [reflexivity|].
  rewrite run_bind. unfold insert_sub_batches, sub_batches.
  rewrite for_each_fmap.
  destruct (for_each _ _ w) as [[[]|e] w']; reflexivity.
Qed.

Lemma run_atomic_raise (cls : model) (batch : list tx) (w : world) e faults :
  db_faults w = Some e :: faults ->
  try_except (atomic_bulk_create cls batch) any_exception
    (fun ex => logger ERROR "Error during bulk create";; raise ex) w
  = (Raise e,
     add_log (set_table cls (table_of cls w) faults (inserts w ++ [(cls, batch)]) w)
       [Log ERROR "Error during bulk create"]).
Proof.
  intros H. unfold try_except, atomic_bulk_create. rewrite H. reflexivity.
Qed.

Lemma run_atomic_commit (cls : model) (batch : list tx) (w : world) faults :
  db_faults w = None :: faults ->
  try_except (atomic_bulk_create cls batch) any_exception
    (fun ex => logger ERROR "Error during bulk create";; raise ex) w
  = (Return tt,
     set_table cls (insert_ignore_conflicts cls (table_of cls w) batch) faults
       (inserts w ++ [(cls, batch)]) w).
Proof.
  intros H. unfold try_except, atomic_bulk_create. rewrite H. reflexivity.
Qed.

(** Whatever the database answers, the calls a loop makes are an initial
    segment of its sub-batches. *)
Lemma insert_sub_batches_calls (cls : model) (batches : list (list tx)) (w : world) :
  exists j,
    inserts (insert_sub_batches cls batches w).2
    = inserts w ++ (pair cls <$> take j batches).
Proof.
  revert w. induction batches as [|b bs IH]; intros w.
  - exists 0. simpl. rewrite app_nil_r. reflexivity.
  - unfold insert_sub_batches. simpl. rewrite run_bind.
    fold (insert_sub_batches cls bs).
    unfold try_except at 1, atomic_bulk_create.
    destruct (db_faults w) as [|[e|] faults].
    + destruct (IH (set_table cls (insert_ignore_conflicts cls (table_of cls w) b) []
                      (inserts w ++ [(cls, b)]) w)) as [j Hj].
      exists (S j). rewrite Hj. destruct cls; simpl; rewrite <- app_assoc; reflexivity.
    + exists 1. destruct cls; simpl; destruct bs; reflexivity.
    + destruct (IH (set_table cls (insert_ignore_conflicts cls (table_of cls w) b)
                      faults (inserts w ++ [(cls, b)]) w)) as [j Hj].
      exists (S j). rewrite Hj. destruct cls; simpl; rewrite <- app_assoc; reflexivity.
Qed.

(** The loop when the database commits [k] inserts and fails the next. *)
Lemma insert_sub_batches_fails_at (cls : model) (k : nat) :
  forall (batches : list (list tx)) (w : world) (e : exn) (faults : list (option exn)),
    db_faults w = replicate k None ++ Some e :: faults ->
    k < length batches ->
    let r := insert_sub_batches cls batches w in
    r.1 = Raise e
    /\ log r.2 = log w ++ [Log ERROR "Error during bulk create"]
    /\ inserts r.2 = inserts w ++ (pair cls <$> take (S k) batches)
    /\ table_of cls r.2 = commit_all cls (take k batches) (table_of cls w)
    /\ (forall cls', cls' <> cls -> table_of cls' r.2 = table_of cls' w)
    /\ db_faults r.2 = faults.
Proof.
  induction k as [|k IH]; intros batches w e faults Hf Hk;
    (destruct batches as [|b bs]; [simpl in Hk; lia|]).
  - simpl in Hf. cbv zeta. unfold insert_sub_batches. simpl.
    rewrite run_bind, (run_atomic_raise _ _ _ _ _ Hf).
    destruct cls, w; simpl; repeat split; try reflexivity;
      intros []; congruence.
  - simpl in Hf, Hk. cbv zeta. unfold insert_sub_batches. simpl.
    rewrite run_bind, (run_atomic_commit _ _ _ _ Hf).
    fold (insert_sub_batches cls bs).
    set (w1 := set_table cls _ _ _ w).
    assert (Hf1 : db_faults w1 = replicate k None ++ Some e :: faults)
      by (destruct cls; reflexivity).
    destruct (IH bs w1 e faults Hf1 ltac:(lia)) as (R & L & I & T & O & F).
    split; [exact R|]. split; [rewrite L; destruct cls; reflexivity|].
    split; [rewrite I; destruct cls; simpl; rewrite <- app_assoc; reflexivity|].
    split; [rewrite T; destruct cls; reflexivity|].
    split; [|exact F].
    intros cls' Hne. rewrite (O cls' Hne). subst w1.
    destruct cls, cls'; try congruence; reflexivity.
Qed.

Lemma slice_length_le {A : Type} (l : list A) (i size : nat) :
  length (slice l i size) <= size.
Proof. unfold slice. rewrite length_take. lia. Qed.

Lemma sub_batches_bounded (new : list tx) :
  Forall (fun batch => length batch <= batch_size) (sub_batches new).
Proof.
  unfold sub_batches. apply Forall_fmap, Forall_forall.
  intros i _. apply slice_length_le.
Qed.

Lemma elem_of_sub_batches (new batch : list tx) (t : tx) :
  batch ∈ sub_batches new -> t ∈ batch -> t ∈ new.
Proof.
  unfold sub_batches, slice. intros Hb Ht.
  apply list_elem_of_fmap in Hb as (i & -> & _).
  apply subseteq_take in Ht. apply subseteq_drop in Ht. exact Ht.
Qed.

(** A candidate the loader keeps does not carry an order number of the
    table. *)
Lemma new_candidates_not_in_table (cls : model) (transactions : list tx)
    (w : world) (t : tx) (n : Z) :
  t ∈ new_candidates cls transactions w ->
  order_in_table cls w n ->
  dict_get t "irctc_order_no" <> VInt n.
Proof.
  unfold new_candidates. intros Ht (row & Hrow & Hn) Heq.
  apply list_elem_of_In, filter_In in Ht as [Hin Hkeep].
  apply negb_true_iff, bool_decide_eq_false in Hkeep. apply Hkeep.
  rewrite Heq. apply list_elem_of_In, filter_In. split.
  - apply list_elem_of_In, list_elem_of_fmap. exists row. split; [|exact Hrow].
    symmetry; exact Hn.
  - apply andb_true_intro. split; [reflexivity|].
    apply bool_decide_eq_true, list_elem_of_omap.
    exists t. split; [apply list_elem_of_In, Hin|].
    unfold dict_get in Heq. destruct (t !! "irctc_order_no") as [v|]; simpl in Heq;
      [congruence|discriminate].
Qed.

(** C2.  For both loaders (the class [cls] is [BookingTransaction] or
    [RefundTransaction]) and whatever the database answers to the inserts:
    the calls of [bulk_create] a loader makes hand over only candidates whose
    IRCTC order number is not an order number of the table the loader was
    called in, and a candidate whose order number is in that table is not
    among the candidates kept for insertion. *)
Theorem existing_order_numbers_never_submitted :
  forall (cls : model) (transactions : list tx) (w : world),
    (forall t n,
        t ∈ transactions ->
        dict_get t "irctc_order_no" = VInt n ->
        order_in_table cls w n ->
        t ∉ new_candidates cls transactions w)
    /\ exists calls,
         inserts (final (bulk_create_transactions cls transactions w))
         = inserts w ++ calls
         /\ forall call t n,
              call ∈ calls -> t ∈ call.2 -> order_in_table cls w n ->
              call.1 = cls /\ t ∈ transactions
              /\ dict_get t "irctc_order_no" <> VInt n.
Proof.
  intros cls transactions w. split.
  - intros t n _ Hn Hin Hnew.
    exact (new_candidates_not_in_table _ _ _ _ _ Hnew Hin Hn).
  - unfold final. rewrite bulk_create_transactions_run.
    destruct (new_candidates cls transactions w) as [|t0 new] eqn:Hnew.
    + exists []. simpl. rewrite app_nil_r. split; [reflexivity|].
      intros call t n Hc. apply elem_of_nil in Hc. contradiction.
    + destruct (insert_sub_batches_calls cls (sub_batches (t0 :: new)) w) as [j Hj].
      exists (pair cls <$> take j (sub_batches (t0 :: new))). split.
      * cbv zeta. destruct (insert_sub_batches cls _ w) as [[[]|e] w']; exact Hj.
      * intros call t n Hc Ht Hin.
        apply list_elem_of_fmap in Hc as (batch & -> & Hb). simpl in *.
        apply subseteq_take in Hb.
        pose proof (elem_of_sub_batches _ _ _ Hb Ht) as Hk. rewrite <- Hnew in Hk.
        split; [reflexivity|]. split.
        -- unfold new_candidates in Hk.
           apply list_elem_of_In, filter_In in Hk as [Hk _].
           apply list_elem_of_In, Hk.
        -- exact (new_candidates_not_in_table _ _ _ _ _ Hk Hin).
Qed.

Lemma existing_order_numbers_never_submitted_witness :
  Fixtures.order_only 1001 ∉ new_candidates BookingTransaction
                               Fixtures.many_candidates Fixtures.holds_1001.
Proof.
  apply (proj1 (existing_order_numbers_never_submitted BookingTransaction
                  Fixtures.many_candidates Fixtures.holds_1001)
           (Fixtures.order_only 1001) 1001%Z).
  - apply list_elem_of_fmap. exists 1001. split; [reflexivity|].
    apply elem_of_seq. lia.
  - reflexivity.
  - exists (Fixtures.order_only 1001). split; [|reflexivity].
    apply list_elem_of_singleton. reflexivity.
Defined.

(** The sub-batches partition the candidates. *)
Lemma concat_slices {A : Type} (s m : nat) :
  forall l : list A,
    length l <= m * s ->
    concat ((fun k => slice l (k * s) s) <$> seq 0 m) = l.
Proof.
  unfold slice. induction m as [|m IH]; intros l Hl.
  - simpl in *. destruct l; [reflexivity|simpl in Hl; lia].
  - cbn [seq]. rewrite fmap_cons. cbn [concat]. rewrite <- fmap_S_seq.
    rewrite <- list_fmap_compose. change (drop (0 * s) l) with l.
    transitivity (take s l ++ drop s l); [|apply take_drop]. f_equal.
    rewrite <- (IH (drop s l)) at 1 by (rewrite length_drop; lia).
    f_equal. apply list_fmap_ext. intros _ k _. simpl.
    rewrite drop_drop. reflexivity.
Qed.

Lemma range_step_covers (n s : nat) : 0 < s -> n <= (n + s - 1) / s * s.
Proof.
  intros Hs.
  pose proof (Nat.div_mod_eq (n + s - 1) s) as E.
  pose proof (Nat.mod_upper_bound (n + s - 1) s ltac:(lia)) as B.
  nia.
Qed.

Lemma concat_sub_batches (new : list tx) : concat (sub_batches new) = new.
Proof.
  unfold sub_batches, range_step. rewrite <- list_fmap_compose.
  apply (concat_slices batch_size). apply range_step_covers.
  unfold batch_size. lia.
Qed.

(** C7.  The loader cuts the candidates it keeps into sub-batches of at most
    500 records that together are the candidates.  When the database commits
    the first [k] inserts and raises [e] on the next, with [k] smaller than
    the number of sub-batches: the loader raises [e] to its caller after
    logging one ERROR record; the [bulk_create] calls made are those of the
    sub-batches 0 to [k] and no later one; the loader's table holds the
    sub-batches before [k] (committed in order, conflicts skipped) and not
    sub-batch [k]; the other table is untouched. *)
Theorem sub_batch_failure_is_partial :
  forall (cls : model) (transactions : list tx) (w : world) (k : nat) (e : exn)
         (faults : list (option exn)),
    db_faults w = replicate k None ++ Some e :: faults ->
    k < length (sub_batches (new_candidates cls transactions w)) ->
    let new := new_candidates cls transactions w in
    let r := bulk_create_transactions cls transactions w in
    Forall (fun batch => length batch <= 500) (sub_batches new)
    /\ concat (sub_batches new) = new
    /\ result r = Raise e
    /\ log (final r) = log w ++ [Log ERROR "Error during bulk create"]
    /\ inserts (final r) = inserts w ++ (pair cls <$> take (S k) (sub_batches new))
    /\ table_of cls (final r)
       = commit_all cls (take k (sub_batches new)) (table_of cls w)
    /\ (forall cls', cls' <> cls -> table_of cls' (final r) = table_of cls' w).
Proof.
  intros cls transactions w k e faults Hf Hk. cbv zeta.
  split; [apply sub_batches_bounded|].
  split; [apply concat_sub_batches|].
  unfold result, final. rewrite bulk_create_transactions_run.
  destruct (insert_sub_batches_fails_at cls k _ w e faults Hf Hk)
    as (R & L & I & T & O & _).
  destruct (new_candidates cls transactions w) as [|t0 new'];
    [vm_compute in Hk; lia|].
  cbv zeta.
  destruct (insert_sub_batches cls (sub_batches (t0 :: new')) w) as [[[]|e'] w'];
    simpl in *; [discriminate|].
  injection R as ->. repeat split; assumption.
Qed.

Lemma sub_batch_failure_is_partial_witness :
  result (bulk_create_booking_transactions Fixtures.many_candidates
            Fixtures.second_insert_fails)
  = Raise (OtherError "OperationalError")
  /\ log (final (bulk_create_booking_transactions Fixtures.many_candidates
                   Fixtures.second_insert_fails))
     = [Log ERROR "Error during bulk create"].
Proof.
  assert (Hk : 1 < length (sub_batches
                             (new_candidates BookingTransaction
                                Fixtures.many_candidates
                                Fixtures.second_insert_fails))).
  { apply Nat.ltb_lt. vm_cast_no_check (eq_refl true). }
  destruct (sub_batch_failure_is_partial BookingTransaction
              Fixtures.many_candidates Fixtures.second_insert_fails 1
              (OtherError "OperationalError") [] eq_refl Hk)
    as (_ & _ & R & L & _).
  split; [exact R|exact L].
Defined.

Example three_sub_batches_second_fails :
  let r := bulk_create_booking_transactions Fixtures.many_candidates
             Fixtures.second_insert_fails in
  length <$> sub_batches Fixtures.many_candidates = [500; 500; 1]
  /\ (fun call : model * list tx => length call.2) <$> inserts (final r) = [500; 500]
  /\ length (booking_table (final r)) = 500.
Proof. vm_compute. repeat split. Qed.

(** ** Pipeline Orchestrator *)

Lemma files_loop_excel_cons file files bank_name transaction_type w :
  files_loop (file :: files) bank_name transaction_type "excel" w =
  match read_excel file with
  | inl e => (Raise e, w)
  | inr df =>
      if (length (rows df) =? 0)%nat
      then (Return tt, add_log w [Log ERROR "No data found in the file."])
      else match excel_chunks df bank_name transaction_type w with
           | (Return _, w') => files_loop files bank_name transaction_type "excel" w'
           | (Raise e, w') => (Raise e, w')
           end
  end.
Proof.
  cbn [files_loop]. change (String.eqb "excel" "excel") with true. cbv iota.
  rewrite run_bind. destruct (read_excel file) as [e|df]; [reflexivity|].
  simpl lift. rewrite run_ret.
  destruct (length (rows df) =? 0)%nat; [reflexivity|].
  rewrite run_bind. reflexivity.
Qed.

Lemma files_loop_csv_cons file files bank_name transaction_type w :
  files_loop (file :: files) bank_name transaction_type "csv" w =
  match csv_chunks (read_csv file) bank_name transaction_type w with
  | (Return _, w') => files_loop files bank_name transaction_type "csv" w'
  | (Raise e, w') => (Raise e, w')
  end.
Proof. reflexivity. Qed.

(** Empty chunks are logged and skipped. *)
Lemma csv_chunks_empty (s : chunk_stream) bank_name transaction_type :
  forall (n : nat) (w : world),
    empty_chunks s = Some n ->
    csv_chunks s bank_name transaction_type w
    = (Return tt,
       add_log w (replicate n (Log ERROR "Empty chunk detected. Skipping."))).
Proof.
  induction s as [|e|chunk rest IH]; intros n w; simpl.
  - intros [= <-]. rewrite add_log_nil. reflexivity.
  - discriminate.
  - destruct (df_empty chunk); [|discriminate].
    destruct (empty_chunks rest) as [m|]; [|discriminate].
    intros [= <-]. rewrite run_bind, run_logger, (IH m _ eq_refl).
    rewrite add_log_add_log. reflexivity.
Qed.

(** The loop over a list of Excel files, cut at any position: either some
    file of the first part has no data row, and the loop ends inside the
    first part, or the loop goes on with the second part in the world the
    first part left. *)
Lemma files_loop_excel_app (before files : list file_content)
    bank_name transaction_type :
  forall w,
    files_loop (before ++ files) bank_name transaction_type "excel" w =
    if forallb (fun f => negb (zero_rows_excel f)) before
    then match files_loop before bank_name transaction_type "excel" w with
         | (Return _, w') => files_loop files bank_name transaction_type "excel" w'
         | (Raise e, w') => (Raise e, w')
         end
    else files_loop before bank_name transaction_type "excel" w.
Proof.
  induction before as [|f before IH]; intros w.
  - reflexivity.
  - rewrite <- app_comm_cons, !files_loop_excel_cons.
    cbn [forallb]. unfold zero_rows_excel at 1.
    destruct (read_excel f) as [e|df]; simpl.
    + destruct (forallb _ before); reflexivity.
    + destruct (length (rows df) =? 0)%nat; simpl; [reflexivity|].
      destruct (excel_chunks df bank_name transaction_type w) as [[[]|e] w1].
      * apply IH.
      * destruct (forallb _ before); reflexivity.
Qed.

(** C3 (counterexample).  An Excel file with a header and no data row, and a
    CSV file whose only chunk is empty: the driver logs an ERROR record and
    returns normally; no exception reaches the caller. *)
Lemma empty_file_returns_normally :
  process_uploaded_files [Fixtures.empty_excel] "karur_vysya" "booking" "excel"
    empty_world
  = (Return tt, add_log empty_world [Log ERROR "No data found in the file."])
  /\ process_uploaded_files [Fixtures.empty_csv] "karur_vysya" "booking" "csv"
       empty_world
     = (Return tt, add_log empty_world [Log ERROR "Empty chunk detected. Skipping."]).
Proof. split; vm_compute; reflexivity. Qed.

(** Empty chunks before the reader raises are logged and skipped; then the
    exception of the reader leaves the loop over the chunks. *)
Lemma csv_chunks_empty_then_raise (s : chunk_stream) bank_name transaction_type :
  forall (n : nat) (e : exn) (w : world),
    empty_chunks_then_raise s = Some (n, e) ->
    csv_chunks s bank_name transaction_type w
    = (Raise e,
       add_log w (replicate n (Log ERROR "Empty chunk detected. Skipping."))).
Proof.
  induction s as [|e'|chunk rest IH]; intros n e w; simpl.
  - discriminate.
  - intros [= <- <-]. rewrite add_log_nil. reflexivity.
  - destruct (df_empty chunk); [|discriminate].
    destruct (empty_chunks_then_raise rest) as [[m e']|]; [|discriminate].
    intros [= <- <-]. rewrite run_bind, run_logger, (IH m e' _ eq_refl).
    rewrite add_log_add_log. reflexivity.
Qed.

(** C3 (amended).  Nothing is persisted or submitted for a file with zero
    data rows, and how the file is reported depends on what the reader does
    on it.  When the reader returns a frame without rows (Excel format), the
    driver logs one ERROR record and returns normally at that file: no
    failure reaches the caller.  When the CSV reader yields empty chunks and
    stops, each empty chunk is logged at ERROR level and skipped, and the
    driver goes on with the following files as if called on them: no failure
    reaches the caller either.  Only when the reader itself raises on the
    file (a CSV reader that raises, at once or after empty chunks; an Excel
    reader that raises) does a failure reach the caller: the driver logs one
    more ERROR record and raises the reader's exception.  In all cases the
    two tables and the trace of [bulk_create] calls are left as they were. *)
Theorem empty_file_raised_only_by_reader :
  (forall file files bank_name transaction_type w,
      zero_rows_excel file = true ->
      process_uploaded_files (file :: files) bank_name transaction_type "excel" w
      = (Return tt, add_log w [Log ERROR "No data found in the file."]))
  /\ (forall file files bank_name transaction_type w n,
         empty_chunks (read_csv file) = Some n ->
         process_uploaded_files (file :: files) bank_name transaction_type "csv" w
         = process_uploaded_files files bank_name transaction_type "csv"
             (add_log w (replicate n (Log ERROR "Empty chunk detected. Skipping."))))
  /\ (forall file files bank_name transaction_type w n e,
         empty_chunks_then_raise (read_csv file) = Some (n, e) ->
         process_uploaded_files (file :: files) bank_name transaction_type "csv" w
         = (Raise e,
            add_log w (replicate n (Log ERROR "Empty chunk detected. Skipping.")
                       ++ [Log ERROR "Error processing file"])))
  /\ (forall file files bank_name transaction_type w e,
         read_excel file = inl e ->
         process_uploaded_files (file :: files) bank_name transaction_type "excel" w
         = (Raise e, add_log w [Log ERROR "Error processing file"]))
  /\ (forall w recs,
         booking_table (add_log w recs) = booking_table w
         /\ refund_table (add_log w recs) = refund_table w
         /\ inserts (add_log w recs) = inserts w).
Proof.
  split; [|split; [|split; [|split]]].
  - intros file files bank_name transaction_type w Hz.
    unfold process_uploaded_files, try_except.
    rewrite files_loop_excel_cons. unfold zero_rows_excel in Hz.
    destruct (read_excel file) as [e|df]; [discriminate|].
    rewrite Hz. reflexivity.
  - intros file files bank_name transaction_type w n Hn.
    unfold process_uploaded_files, try_except.
    rewrite files_loop_csv_cons, (csv_chunks_empty _ _ _ _ _ Hn). reflexivity.
  - intros file files bank_name transaction_type w n e Hn.
    unfold process_uploaded_files, try_except.
    rewrite files_loop_csv_cons, (csv_chunks_empty_then_raise _ _ _ _ _ _ Hn).
    unfold any_exception. rewrite run_bind, run_logger, add_log_add_log.
    reflexivity.
  - intros file files bank_name transaction_type w e He.
    unfold process_uploaded_files, try_except.
    rewrite files_loop_excel_cons, He.
    unfold any_exception. rewrite run_bind, run_logger. reflexivity.
  - intros w recs. repeat split.
Qed.

Lemma empty_file_raised_only_by_reader_witness :
  process_uploaded_files [Fixtures.blank; Fixtures.one_booking]
    "karur_vysya" "booking" "csv" empty_world
  = (Raise (OtherError "EmptyDataError"),
     add_log empty_world
       (replicate 0 (Log ERROR "Empty chunk detected. Skipping.")
        ++ [Log ERROR "Error processing file"])).
Proof.
  exact (proj1 (proj2 (proj2 empty_file_raised_only_by_reader)) Fixtures.blank
           [Fixtures.one_booking] "karur_vysya" "booking" empty_world
           0 (OtherError "EmptyDataError") eq_refl).
Defined.

(** A file with a header and no data row before a file with one booking:
    in Excel format the run ends at the first and the booking is never
    read; in CSV format the booking is persisted. *)
Example empty_file_then_a_booking :
  process_uploaded_files [Fixtures.empty_excel; Fixtures.one_booking]
    "karur_vysya" "booking" "excel" empty_world
  = (Return tt, add_log empty_world [Log ERROR "No data found in the file."])
  /\ length (booking_table
               (final (process_uploaded_files
                         [Fixtures.empty_csv; Fixtures.one_booking]
                         "karur_vysya" "booking" "csv" empty_world))) = 1.
Proof. split; vm_compute; reflexivity. Qed.

(** C9.  Take a list of files in Excel format whose file at position
    [length before] parses to zero data rows, and suppose the files before it
    are processed without an exception, leaving the world [w1].  Then the
    driver returns normally, and the final world is [w1], with the record of
    the empty file added to the log when no earlier file was empty: nothing
    of the files after that position is read, processed or inserted, whatever
    they are. *)
Theorem empty_excel_file_ends_the_run :
  forall (before after : list file_content) (file : file_content)
         (bank_name transaction_type : string) (w w1 : world),
    zero_rows_excel file = true ->
    files_loop before bank_name transaction_type "excel" w = (Return tt, w1) ->
    let r := process_uploaded_files (before ++ file :: after) bank_name
               transaction_type "excel" w in
    result r = Return tt
    /\ final r
       = (if forallb (fun f => negb (zero_rows_excel f)) before
          then add_log w1 [Log ERROR "No data found in the file."]
          else w1)
    /\ inserts (final r) = inserts w1
    /\ booking_table (final r) = booking_table w1
    /\ refund_table (final r) = refund_table w1.
Proof.
  intros before after file bank_name transaction_type w w1 Hz Hb. cbv zeta.
  unfold process_uploaded_files, try_except, result, final.
  rewrite files_loop_excel_app, Hb.
  destruct (forallb _ before).
  - rewrite files_loop_excel_cons. unfold zero_rows_excel in Hz.
    destruct (read_excel file) as [e|df]; [discriminate|].
    rewrite Hz. repeat split.
  - repeat split.
Qed.

Lemma empty_excel_file_ends_the_run_witness :
  result (process_uploaded_files
            ([] ++ Fixtures.empty_excel :: [Fixtures.one_booking])
            "karur_vysya" "booking" "excel" empty_world)
  = Return tt
  /\ inserts (final (process_uploaded_files
                       ([] ++ Fixtures.empty_excel :: [Fixtures.one_booking])
                       "karur_vysya" "booking" "excel" empty_world))
     = [].
Proof.
  destruct (empty_excel_file_ends_the_run [] [Fixtures.one_booking]
              Fixtures.empty_excel "karur_vysya" "booking" empty_world
              empty_world eq_refl eq_refl)
    as (R & _ & I & _).
  split; [exact R|exact I].
Defined.

Example file_after_an_empty_one_is_skipped :
  let alone :=
    process_uploaded_files [Fixtures.one_booking] "karur_vysya" "booking"
      "excel" empty_world in
  let behind :=
    process_uploaded_files [Fixtures.empty_excel; Fixtures.one_booking]
      "karur_vysya" "booking" "excel" empty_world in
  length (booking_table (final alone)) = 1
  /\ length (booking_table (final behind)) = 0
  /\ result behind = Return tt.
Proof. vm_compute. repeat split. Qed.

(** ** Further properties of the specification's test list *)

(** The Column Normalizer is idempotent: cleaning a cleaned name changes
    nothing. *)
Theorem clean_column_name_idempotent :
  forall s : string, clean_column_name (clean_column_name s) = clean_column_name s.
Proof.
  intros s. rewrite !clean_column_name_filter, filter_filter.
  apply filter_ext. intros c. destruct (kept_char c); reflexivity.
Qed.

(** End to end: a CSV file with the Karur Vysya booking header and the one
    data row [01-01-2024, 123456, 987654, 100.50, 05-01-2024], processed for
    bank [karur_vysya] and type [booking] in an empty store, persists exactly
    one booking, with order number 123456, bank booking reference 987654 and
    the amount 100.5 (the float 201 * 2^-1), and no refund. *)
Theorem one_booking_end_to_end :
  let r := process_uploaded_files [Fixtures.one_booking] "karur_vysya" "booking"
             "csv" empty_world in
  result r = Return tt
  /\ (fun t : tx =>
        (int_field "irctc_order_no" t, int_field "bank_booking_ref_no" t,
         t !! "booking_amount")) <$> booking_table (final r)
     = [(Some 123456%Z, Some 987654%Z,
         Some (VFloat (PyFloat.Finite false 7072058789855232 (-46))))]
  /\ refund_table (final r) = []
  /\ log (final r) = []
  /\ (7072058789855232 = 201 * 2 ^ 45)%Z.
Proof. vm_compute. repeat split. Qed.

(** * Further properties of the pipeline *)

(** ** What every run of the pipeline preserves *)

Section Preservation.

Variable R : world -> world -> Prop.
Hypothesis R_refl : forall w, R w w.
Hypothesis R_trans : forall w1 w2 w3, R w1 w2 -> R w2 w3 -> R w1 w3.
Hypothesis R_log : forall w recs, R w (add_log w recs).

Lemma preserves_ret {A : Type} (a : A) : preserves R (mret a : M A).
Proof. intros w. apply R_refl. Qed.

Lemma preserves_raise {A : Type} (e : exn) : preserves R (raise e : M A).
Proof. intros w. apply R_refl. Qed.

Lemma preserves_lift {A : Type} (r : exn + A) : preserves R (lift r).
Proof. destruct r; [apply preserves_raise|apply preserves_ret]. Qed.

Lemma preserves_bind {A B : Type} (m : M A) (f : A -> M B) :
  preserves R m -> (forall a, preserves R (f a)) -> preserves R (m ≫= f).
Proof.
  intros Hm Hf w. rewrite run_bind. specialize (Hm w).
  destruct (m w) as [[a|e] w1]; simpl in *; [|exact Hm].
  eapply R_trans; [exact Hm|apply Hf].
Qed.

Lemma preserves_try_except {A : Type} (body : M A) caught (handler : exn -> M A) :
  preserves R body -> (forall e, preserves R (handler e)) ->
  preserves R (try_except body caught handler).
Proof.
  intros Hb Hh w. unfold try_except. specialize (Hb w).
  destruct (body w) as [[a|e] w1]; simpl in *; [exact Hb|].
  destruct (caught e); [|exact Hb].
  eapply R_trans; [exact Hb|apply Hh].
Qed.

Lemma preserves_logger l m : preserves R (logger l m).
Proof. intros w. apply R_log. Qed.

Lemma preserves_for_each {A : Type} (l : list A) (body : A -> M unit) :
  (forall x, preserves R (body x)) -> preserves R (for_each l body).
Proof.
  intros Hb. induction l as [|x l IH]; [apply preserves_ret|].
  apply preserves_bind; [apply Hb|intros _; exact IH].
Qed.

Lemma preserves_getitem {V : Type} (d : gmap string V) k : preserves R (getitem d k).
Proof.
  unfold getitem. destruct (d !! k); [apply preserves_ret|apply preserves_raise].
Qed.

Lemma preserves_row_getitem cols r k : preserves R (row_getitem cols r k).
Proof.
  unfold row_getitem.
  destruct (row_get cols r k); [apply preserves_ret|apply preserves_raise].
Qed.

Lemma preserves_convert_to_int val : preserves R (convert_to_int val).
Proof.
  intros w. rewrite convert_to_int_run. simpl.
  destruct (conversion_error val); [apply R_log|apply R_refl].
Qed.

Ltac preserve :=
  repeat first
    [ apply preserves_ret | apply preserves_raise | apply preserves_lift
    | apply preserves_logger | apply preserves_getitem
    | apply preserves_row_getitem | apply preserves_convert_to_int
    | apply preserves_bind; [|intros ?]
    | match goal with
      | |- preserves _ (if ?b then _ else _) => destruct b
      end ].

Lemma preserves_booking_step cols bank_name st row :
  preserves R (booking_step cols bank_name st row).
Proof. destruct st as [seen bulk]. unfold booking_step. preserve. Qed.

Lemma preserves_refund_step cols bank_name st row :
  preserves R (refund_step cols bank_name st row).
Proof. destruct st as [seen bulk]. unfold refund_step. preserve. Qed.

Lemma preserves_iterrows step rs :
  (forall st row, preserves R (step st row)) ->
  forall st, preserves R (iterrows step rs st).
Proof.
  intros Hs. induction rs as [|row rs IH]; intros st; [apply preserves_ret|].
  apply preserves_bind; [apply Hs|exact IH].
Qed.

(** The loaders: [ok cls] says that a [bulk_create] call on [cls] is
    harmless for [R]. *)
Variable ok : model -> Prop.
Hypothesis R_atomic :
  forall cls objs, ok cls -> preserves R (atomic_bulk_create cls objs).

Lemma preserves_bulk_create_transactions cls transactions :
  ok cls -> preserves R (bulk_create_transactions cls transactions).
Proof.
  intros Hok. unfold bulk_create_transactions.
  apply preserves_bind; [intros w; apply R_refl|intros existing].
  destruct (List.filter _ transactions); [apply preserves_ret|].
  apply preserves_bind; [|intros ?; apply preserves_ret].
  apply preserves_for_each. intros i.
  apply preserves_try_except; [apply R_atomic, Hok|].
  intros e. preserve.
Qed.

Lemma preserves_ret_bind {A B : Type} (a : A) (f : A -> M B) :
  preserves R (f a) -> preserves R ((mret a : M A) ≫= f).
Proof. intros H w. exact (H w). Qed.

Lemma preserves_process_dataframe_chunk df bank_name transaction_type :
  (wants_booking transaction_type = true -> ok BookingTransaction) ->
  (wants_refund transaction_type = true -> ok RefundTransaction) ->
  preserves R (process_dataframe_chunk df bank_name transaction_type).
Proof.
  intros Hb Hr. unfold process_dataframe_chunk.
  do 6 (apply preserves_bind; [apply preserves_getitem|intros ?]).
  apply preserves_bind; [apply preserves_lift|intros df'].
  destruct (df_empty df'); [apply preserves_logger|].
  assert (Hfinish : forall bookings refunds,
             (bookings <> [] -> ok BookingTransaction) ->
             (refunds <> [] -> ok RefundTransaction) ->
             preserves R
               (match bookings with
                | _ :: _ => bulk_create_booking_transactions bookings;; mret tt
                | [] => mret tt
                end;;
                match refunds with
                | _ :: _ => bulk_create_refund_transactions refunds;; mret tt
                | [] => mret tt
                end)).
  { intros bookings refunds Ob Or. apply preserves_bind.
    - destruct bookings; [apply preserves_ret|].
      apply preserves_bind; [|intros ?; apply preserves_ret].
      apply preserves_bulk_create_transactions, Ob. discriminate.
    - intros _. destruct refunds; [apply preserves_ret|].
      apply preserves_bind; [|intros ?; apply preserves_ret].
      apply preserves_bulk_create_transactions, Or. discriminate. }
  assert (Hrefunds : forall bookings,
             (bookings <> [] -> ok BookingTransaction) ->
             preserves R
               ((if wants_refund transaction_type
                    && has_required expected_refund_columns (columns df')
                 then st ← refund_loop (columns df') bank_name (rows df'); mret st.2
                 else mret []) ≫= fun refunds =>
                match bookings with
                | _ :: _ => bulk_create_booking_transactions bookings;; mret tt
                | [] => mret tt
                end;;
                match refunds with
                | _ :: _ => bulk_create_refund_transactions refunds;; mret tt
                | [] => mret tt
                end)).
  { intros bookings Ob.
    destruct (wants_refund transaction_type && has_required _ _) eqn:C.
    - apply andb_prop in C as [C _]. apply preserves_bind.
      + apply preserves_bind; [|intros ?; apply preserves_ret].
        apply preserves_iterrows. apply preserves_refund_step.
      + intros refunds. apply Hfinish; auto.
    - apply preserves_ret_bind.
      exact (Hfinish bookings [] Ob (fun H => False_ind _ (H eq_refl))). }
  destruct (wants_booking transaction_type && has_required _ _) eqn:C.
  - apply andb_prop in C as [C _]. apply preserves_bind.
    + apply preserves_bind; [|intros ?; apply preserves_ret].
      apply preserves_iterrows. apply preserves_booking_step.
    + intros bookings. apply Hrefunds. auto.
  - apply preserves_ret_bind.
    exact (Hrefunds [] (fun H => False_ind _ (H eq_refl))).
Qed.

Lemma preserves_csv_chunks s bank_name transaction_type :
  (wants_booking transaction_type = true -> ok BookingTransaction) ->
  (wants_refund transaction_type = true -> ok RefundTransaction) ->
  preserves R (csv_chunks s bank_name transaction_type).
Proof.
  intros Hb Hr. induction s as [|e|chunk rest IH]; simpl.
  - apply preserves_ret.
  - apply preserves_raise.
  - apply preserves_bind; [|intros _; exact IH].
    destruct (df_empty chunk); [apply preserves_logger|].
    apply preserves_process_dataframe_chunk; assumption.
Qed.

Lemma preserves_files_loop files bank_name transaction_type file_format :
  (wants_booking transaction_type = true -> ok BookingTransaction) ->
  (wants_refund transaction_type = true -> ok RefundTransaction) ->
  preserves R (files_loop files bank_name transaction_type file_format).
Proof.
  intros Hb Hr. induction files as [|file files IH]; [apply preserves_ret|].
  cbn [files_loop]. destruct (String.eqb file_format "excel").
  - apply preserves_bind; [apply preserves_lift|intros df].
    destruct (length (rows df) =? 0)%nat; [apply preserves_logger|].
    apply preserves_bind; [|intros _; exact IH].
    apply preserves_for_each. intros start_row.
    apply preserves_process_dataframe_chunk; assumption.
  - destruct (String.eqb file_format "csv").
    + apply preserves_bind; [|intros _; exact IH].
      apply preserves_csv_chunks; assumption.
    + apply preserves_bind; [apply preserves_logger|intros _; apply preserves_raise].
Qed.

Lemma preserves_process_uploaded_files files bank_name transaction_type file_format :
  (wants_booking transaction_type = true -> ok BookingTransaction) ->
  (wants_refund transaction_type = true -> ok RefundTransaction) ->
  preserves R (process_uploaded_files files bank_name transaction_type file_format).
Proof.
  intros Hb Hr. unfold process_uploaded_files.
  apply preserves_try_except; [apply preserves_files_loop; assumption|].
  intros e. apply preserves_bind; [apply preserves_logger|intros _; apply preserves_raise].
Qed.

End Preservation.

(** *** The store only grows *)

Lemma insert_ignore_conflicts_prefix cls objs :
  forall table, table `prefix_of` insert_ignore_conflicts cls table objs.
Proof.
  unfold insert_ignore_conflicts.
  induction objs as [|row objs IH]; intros table; simpl; [reflexivity|].
  destruct (conflicts cls table row); [apply IH|].
  etransitivity; [|apply IH]. apply prefix_app_r. reflexivity.
Qed.

Lemma grew_refl w : grew w w.
Proof. repeat split; reflexivity. Qed.

Lemma grew_trans w1 w2 w3 : grew w1 w2 -> grew w2 w3 -> grew w1 w3.
Proof.
  intros (A1 & B1 & C1 & D1) (A2 & B2 & C2 & D2).
  repeat split; etransitivity; eassumption.
Qed.

Lemma grew_add_log w recs : grew w (add_log w recs).
Proof.
  repeat split; simpl; try reflexivity. apply prefix_app_r. reflexivity.
Qed.

Lemma grew_atomic cls objs : preserves grew (atomic_bulk_create cls objs).
Proof.
  intros w. unfold atomic_bulk_create.
  destruct (db_faults w) as [|[e|] faults]; destruct cls; simpl;
    repeat split; simpl;
    first [ reflexivity
          | apply insert_ignore_conflicts_prefix
          | apply prefix_app_r; reflexivity ].
Qed.

Lemma grew_bulk_create cls transactions :
  preserves grew (bulk_create_transactions cls transactions).
Proof.
  apply (preserves_bulk_create_transactions grew grew_refl grew_trans grew_add_log
           (fun _ => True) (fun cls objs _ => grew_atomic cls objs)).
  exact I.
Qed.

Lemma grew_process_uploaded_files files bank_name transaction_type file_format :
  preserves grew
    (process_uploaded_files files bank_name transaction_type file_format).
Proof.
  apply (preserves_process_uploaded_files grew grew_refl grew_trans grew_add_log
           (fun _ => True) (fun cls objs _ => grew_atomic cls objs)); trivial.
Qed.

(** In every run of a loader and in every run of the driver, whether it
    returns or raises, rows are only appended to the two tables: no stored
    row is removed, changed or moved; likewise the trace of [bulk_create]
    calls and the log only grow. *)
Theorem pipeline_only_appends :
  (forall cls transactions w,
      grew w (final (bulk_create_transactions cls transactions w)))
  /\ (forall df bank_name transaction_type w,
         grew w (final (process_dataframe_chunk df bank_name transaction_type w)))
  /\ (forall files bank_name transaction_type file_format w,
         grew w (final (process_uploaded_files files bank_name transaction_type
                          file_format w))).
Proof.
  split; [|split].
  - intros cls transactions. apply grew_bulk_create.
  - intros df bank_name transaction_type.
    apply (preserves_process_dataframe_chunk grew grew_refl grew_trans grew_add_log
             (fun _ => True) (fun cls objs _ => grew_atomic cls objs)); trivial.
  - intros files bank_name transaction_type file_format.
    apply grew_process_uploaded_files.
Qed.

(** *** A run for one kind leaves the table of the other kind alone *)

Lemma untouched_refl cls w : untouched cls w w.
Proof.
  split; [reflexivity|]. exists []. rewrite app_nil_r. split; [reflexivity|constructor].
Qed.

Lemma untouched_trans cls w1 w2 w3 :
  untouched cls w1 w2 -> untouched cls w2 w3 -> untouched cls w1 w3.
Proof.
  intros (T1 & c1 & I1 & F1) (T2 & c2 & I2 & F2). split; [congruence|].
  exists (c1 ++ c2). rewrite I2, I1, app_assoc. split; [reflexivity|].
  apply Forall_app; split; assumption.
Qed.

Lemma untouched_add_log cls w recs : untouched cls w (add_log w recs).
Proof.
  split; [destruct cls; reflexivity|]. exists []. simpl. rewrite app_nil_r.
  split; [reflexivity|constructor].
Qed.

Lemma untouched_atomic cls cls' objs :
  cls' <> cls -> preserves (untouched cls) (atomic_bulk_create cls' objs).
Proof.
  intros Hne w. unfold atomic_bulk_create.
  destruct (db_faults w) as [|[e|] faults]; (split;
    [destruct cls, cls'; try congruence; reflexivity
    |exists [(cls', objs)]; split;
     [destruct cls'; reflexivity|repeat constructor; exact Hne]]).
Qed.

Lemma untouched_bulk_create cls cls' transactions :
  cls' <> cls -> preserves (untouched cls) (bulk_create_transactions cls' transactions).
Proof.
  intros Hne.
  apply (preserves_bulk_create_transactions (untouched cls)
           (untouched_refl _) (untouched_trans _) (untouched_add_log _)
           (fun c => c <> cls) (fun c objs H => untouched_atomic _ c objs H)).
  exact Hne.
Qed.

(** A run of the driver whose transaction type does not ask for refunds
    (e.g. [booking]) never changes the refund table and never calls
    [bulk_create] on [RefundTransaction]; symmetrically for a type that does
    not ask for bookings (e.g. [refund]). *)
Theorem other_kind_untouched :
  forall files bank_name transaction_type file_format w,
    (wants_refund transaction_type = false ->
     untouched RefundTransaction w
       (final (process_uploaded_files files bank_name transaction_type
                 file_format w)))
    /\ (wants_booking transaction_type = false ->
        untouched BookingTransaction w
          (final (process_uploaded_files files bank_name transaction_type
                    file_format w))).
Proof.
  intros files bank_name transaction_type file_format w. split; intros Hw.
  - apply (preserves_process_uploaded_files (untouched RefundTransaction)
             (untouched_refl _) (untouched_trans _) (untouched_add_log _)
             (fun c => c <> RefundTransaction)
             (fun c objs H => untouched_atomic _ c objs H)).
    + intros _. discriminate.
    + rewrite Hw. discriminate.
  - apply (preserves_process_uploaded_files (untouched BookingTransaction)
             (untouched_refl _) (untouched_trans _) (untouched_add_log _)
             (fun c => c <> BookingTransaction)
             (fun c objs H => untouched_atomic _ c objs H)).
    + rewrite Hw. discriminate.
    + intros _. discriminate.
Qed.

Lemma other_kind_untouched_witness :
  untouched RefundTransaction empty_world
    (final (process_uploaded_files [Fixtures.one_booking] "karur_vysya"
              "booking" "csv" empty_world)).
Proof.
  exact (proj1 (other_kind_untouched [Fixtures.one_booking] "karur_vysya"
                  "booking" "csv" empty_world) eq_refl).
Defined.

(** *** The loader when the database commits every insert *)

Lemma commit_all_concat cls batches :
  forall table,
    commit_all cls batches table = insert_ignore_conflicts cls table (concat batches).
Proof.
  unfold commit_all, insert_ignore_conflicts.
  induction batches as [|b bs IH]; intros table; simpl; [reflexivity|].
  rewrite fold_left_app. apply IH.
Qed.

Lemma run_atomic_commit_nil (cls : model) (batch : list tx) (w : world) :
  db_faults w = [] ->
  try_except (atomic_bulk_create cls batch) any_exception
    (fun ex => logger ERROR "Error during bulk create";; raise ex) w
  = (Return tt,
     set_table cls (insert_ignore_conflicts cls (table_of cls w) batch) []
       (inserts w ++ [(cls, batch)]) w).
Proof.
  intros H. unfold try_except, atomic_bulk_create. rewrite H. reflexivity.
Qed.

Lemma insert_sub_batches_commit cls batches :
  forall w,
    db_faults w = [] ->
    insert_sub_batches cls batches w
    = (Return tt,
       set_table cls (commit_all cls batches (table_of cls w)) []
         (inserts w ++ (pair cls <$> batches)) w).
Proof.
  induction batches as [|b bs IH]; intros w Hf.
  - simpl. rewrite app_nil_r. unfold insert_sub_batches. simpl. rewrite run_ret.
    destruct cls, w; simpl in *; subst; reflexivity.
  - unfold insert_sub_batches. cbn [for_each].
    rewrite run_bind, (run_atomic_commit_nil _ _ _ Hf).
    fold (insert_sub_batches cls bs). rewrite IH by (destruct cls; reflexivity).
    destruct cls; simpl; rewrite <- app_assoc; reflexivity.
Qed.

Lemma insert_ignore_conflicts_length cls objs :
  forall table,
    length (insert_ignore_conflicts cls table objs) <= length table + length objs.
Proof.
  unfold insert_ignore_conflicts.
  induction objs as [|row objs IH]; intros table; simpl; [lia|].
  destruct (conflicts cls table row).
  - specialize (IH table). lia.
  - specialize (IH (table ++ [row])). rewrite length_app in IH. simpl in IH. lia.
Qed.

Lemma bulk_create_commits_run cls transactions w :
  commits w ->
  let new := new_candidates cls transactions w in
  let r := bulk_create_transactions cls transactions w in
  result r = Return (length new)
  /\ table_of cls (final r) = insert_ignore_conflicts cls (table_of cls w) new
  /\ inserts (final r) = inserts w ++ (pair cls <$> sub_batches new)
  /\ log (final r) = log w
  /\ commits (final r).
Proof.
  intros Hf. cbv zeta. unfold result, final, commits in *.
  rewrite bulk_create_transactions_run.
  destruct (new_candidates cls transactions w) as [|t0 new] eqn:Hn.
  - simpl. rewrite app_nil_r. repeat split; assumption.
  - cbv zeta. rewrite (insert_sub_batches_commit _ _ _ Hf).
    rewrite commit_all_concat, concat_sub_batches.
    destruct cls; simpl in *; repeat split.
Qed.

(** A loader called on candidates that are all excluded by the existence
    check (in particular on no candidate at all) returns 0 and leaves the
    world as it is: no [bulk_create] call, no log record.  When the database
    commits every insert, the loader returns the number of candidates it
    kept, logs nothing, makes one call per sub-batch and leaves in its table
    the old rows followed by the kept candidates that did not conflict; the
    number returned is an upper bound of the number of rows persisted, not
    the number itself. *)
Theorem loader_returns_submitted_count :
  (forall cls transactions w,
      new_candidates cls transactions w = [] ->
      bulk_create_transactions cls transactions w = (Return 0, w))
  /\ (forall cls w, new_candidates cls [] w = [])
  /\ (forall cls transactions w,
         commits w ->
         let new := new_candidates cls transactions w in
         let r := bulk_create_transactions cls transactions w in
         result r = Return (length new)
         /\ table_of cls (final r) = insert_ignore_conflicts cls (table_of cls w) new
         /\ length (table_of cls (final r)) <= length (table_of cls w) + length new
         /\ inserts (final r) = inserts w ++ (pair cls <$> sub_batches new)
         /\ log (final r) = log w
         /\ commits (final r)).
Proof.
  split; [|split].
  - intros cls transactions w Hn. rewrite bulk_create_transactions_run, Hn.
    reflexivity.
  - reflexivity.
  - intros cls transactions w Hf. cbv zeta.
    destruct (bulk_create_commits_run cls transactions w Hf) as (R & T & I & L & C).
    split; [exact R|]. split; [exact T|]. split; [|auto].
    rewrite T. apply insert_ignore_conflicts_length.
Qed.

Lemma loader_returns_submitted_count_witness :
  result (bulk_create_booking_transactions Fixtures.many_candidates Fixtures.holds_1001)
  = Return (length (new_candidates BookingTransaction Fixtures.many_candidates
                      Fixtures.holds_1001)).
Proof.
  exact (proj1 (proj2 (proj2 loader_returns_submitted_count)
                  BookingTransaction Fixtures.many_candidates Fixtures.holds_1001
                  eq_refl)).
Defined.

Example loader_counts_more_than_it_persists :
  let r := bulk_create_booking_transactions
             [Fixtures.first_crossed_booking; Fixtures.first_crossed_booking]
             empty_world in
  result r = Return 2 /\ length (booking_table (final r)) = 1.
Proof. vm_compute. repeat split. Qed.

(** *** Running a loader again *)

Lemma conflicts_mono cls table table' row :
  table `prefix_of` table' ->
  conflicts cls table row = true -> conflicts cls table' row = true.
Proof.
  intros [k ->]. unfold conflicts. rewrite !existsb_exists.
  intros (col & Hcol & H). exists col. split; [exact Hcol|].
  apply andb_prop in H as [H1 H2]. apply andb_true_intro. split; [exact H1|].
  rewrite existsb_app, H2. reflexivity.
Qed.

(** Every object handed to the insert is afterwards in the table or in
    conflict with it. *)
Lemma insert_ignore_conflicts_settles cls objs :
  forall table row,
    row ∈ objs ->
    row ∈ insert_ignore_conflicts cls table objs
    \/ conflicts cls (insert_ignore_conflicts cls table objs) row = true.
Proof.
  induction objs as [|o objs IH]; intros table row Hin.
  - apply elem_of_nil in Hin. contradiction.
  - apply elem_of_cons in Hin as [->|Hin].
    + change (insert_ignore_conflicts cls table (o :: objs))
        with (insert_ignore_conflicts cls
                (if conflicts cls table o then table else table ++ [o]) objs).
      destruct (conflicts cls table o) eqn:C.
      * right. eapply conflicts_mono; [apply insert_ignore_conflicts_prefix|exact C].
      * left. eapply elem_of_prefix; [|apply insert_ignore_conflicts_prefix].
        apply elem_of_app. right. apply list_elem_of_singleton. reflexivity.
    + change (insert_ignore_conflicts cls table (o :: objs))
        with (insert_ignore_conflicts cls
                (if conflicts cls table o then table else table ++ [o]) objs).
      apply IH, Hin.
Qed.

Lemma insert_all_conflicting cls objs table :
  Forall (fun row => conflicts cls table row = true) objs ->
  insert_ignore_conflicts cls table objs = table.
Proof.
  unfold insert_ignore_conflicts.
  induction 1 as [|row objs Hc _ IH]; simpl; [reflexivity|].
  rewrite Hc. exact IH.
Qed.

(** The candidates kept by the existence check, as a property of a
    transaction. *)
Lemma elem_of_new_candidates cls transactions w t :
  t ∈ new_candidates cls transactions w <->
  t ∈ transactions
  /\ (dict_get t "irctc_order_no" = VNone
      \/ dict_get t "irctc_order_no" ∉ key_values "irctc_order_no" (table_of cls w)).
Proof.
  unfold new_candidates, key_values.
  rewrite list_elem_of_In, filter_In, <- list_elem_of_In.
  rewrite negb_true_iff, bool_decide_eq_false.
  split; intros [Hin H]; (split; [exact Hin|]).
  - destruct (decide (dict_get t "irctc_order_no" = VNone)) as [E|E]; [left; exact E|].
    right. intros Hk. apply H.
    apply list_elem_of_In, filter_In in Hk as [Hk _].
    apply list_elem_of_In, filter_In. split; [exact Hk|].
    apply andb_true_intro. split.
    + apply negb_true_iff, bool_decide_eq_false, E.
    + apply bool_decide_eq_true, list_elem_of_omap. exists t. split; [exact Hin|].
      unfold dict_get in E |- *.
      destruct (t !! "irctc_order_no"); [reflexivity|contradiction].
  - intros Hk. apply list_elem_of_In, filter_In in Hk as [Hk Hv].
    apply andb_prop in Hv as [Hv _].
    apply negb_true_iff, bool_decide_eq_false in Hv.
    destruct H as [E|H]; [contradiction|]. apply H.
    apply list_elem_of_In, filter_In. split; [exact Hk|].
    apply negb_true_iff, bool_decide_eq_false, Hv.
Qed.

Lemma key_values_elem col table row :
  row ∈ table -> dict_get row col <> VNone ->
  dict_get row col ∈ key_values col table.
Proof.
  intros Hin Hv. unfold key_values. apply list_elem_of_In, filter_In. split.
  - apply list_elem_of_In, list_elem_of_fmap. exists row. split; [reflexivity|exact Hin].
  - apply negb_true_iff, bool_decide_eq_false, Hv.
Qed.

Lemma key_values_app col t1 t2 :
  key_values col (t1 ++ t2) = key_values col t1 ++ key_values col t2.
Proof. unfold key_values. rewrite fmap_app. apply List.filter_app. Qed.

Lemma key_values_prefix col table table' v :
  table `prefix_of` table' -> v ∈ key_values col table -> v ∈ key_values col table'.
Proof.
  intros [k ->] Hv. rewrite key_values_app. apply elem_of_app. left. exact Hv.
Qed.

Lemma settled_mono cls transactions table table' :
  table `prefix_of` table' ->
  settled cls transactions table -> settled cls transactions table'.
Proof.
  intros Hp Hs. unfold settled in *. eapply Forall_impl; [exact Hs|].
  intros t [Hk|Hc].
  - left. eapply key_values_prefix; eassumption.
  - right. eapply conflicts_mono; eassumption.
Qed.

(** What a run that committed every insert leaves behind. *)
Lemma settled_after_insert cls transactions w :
  with_order_numbers transactions ->
  settled cls transactions
    (insert_ignore_conflicts cls (table_of cls w) (new_candidates cls transactions w)).
Proof.
  intros Hnn. apply Forall_forall. intros t Hin.
  pose proof (proj1 (Forall_forall _ _) Hnn t Hin) as Hv.
  destruct (decide (dict_get t "irctc_order_no"
                    ∈ key_values "irctc_order_no" (table_of cls w))) as [Hk|Hk].
  - left. eapply key_values_prefix; [apply insert_ignore_conflicts_prefix|exact Hk].
  - assert (Hnew : t ∈ new_candidates cls transactions w)
      by (apply elem_of_new_candidates; auto).
    destruct (insert_ignore_conflicts_settles cls _ (table_of cls w) t Hnew)
      as [Hstored|Hc]; [left|right; exact Hc].
    apply key_values_elem; assumption.
Qed.

(** On a settled table the candidates kept by the existence check all
    conflict, so inserting them changes nothing. *)
Lemma settled_candidates_conflict cls transactions w :
  settled cls transactions (table_of cls w) ->
  Forall (fun row => conflicts cls (table_of cls w) row = true)
    (new_candidates cls transactions w).
Proof.
  intros Hs. apply Forall_forall. intros t Hnew.
  apply elem_of_new_candidates in Hnew as [Hin Hfresh].
  destruct (proj1 (Forall_forall _ _) Hs t Hin) as [Hk|Hc]; [|exact Hc].
  destruct Hfresh as [E|Hfresh]; [|contradiction].
  exfalso. rewrite E in Hk. unfold key_values in Hk.
  apply list_elem_of_In, filter_In in Hk as [_ Hk].
  apply negb_true_iff, bool_decide_eq_false in Hk. apply Hk. reflexivity.
Qed.

Lemma bulk_create_on_settled cls transactions w :
  commits w ->
  settled cls transactions (table_of cls w) ->
  let r := bulk_create_transactions cls transactions w in
  result r = Return (length (new_candidates cls transactions w))
  /\ same_tables w (final r)
  /\ log (final r) = log w.
Proof.
  intros Hf Hs. cbv zeta.
  destruct (bulk_create_commits_run cls transactions w Hf) as (R & T & _ & L & _).
  rewrite (insert_all_conflicting _ _ _ (settled_candidates_conflict _ _ _ Hs)) in T.
  split; [exact R|]. split; [|exact L]. split.
  - destruct cls; [exact T|].
    exact (proj1 (untouched_bulk_create BookingTransaction RefundTransaction
                    transactions ltac:(discriminate) w)).
  - destruct cls; [|exact T].
    exact (proj1 (untouched_bulk_create RefundTransaction BookingTransaction
                    transactions ltac:(discriminate) w)).
Qed.

(** The bulk load is idempotent.  Let every candidate carry an order number
    and let the database commit every insert.  After a first run of a loader
    on the candidates, a second run on the same candidates returns normally
    and leaves both tables exactly as the first run left them (it may still
    submit, and count, candidates that conflict again). *)
Theorem loader_rerun_persists_nothing :
  forall cls transactions w,
    commits w ->
    with_order_numbers transactions ->
    let w1 := final (bulk_create_transactions cls transactions w) in
    let r2 := bulk_create_transactions cls transactions w1 in
    result r2 = Return (length (new_candidates cls transactions w1))
    /\ booking_table (final r2) = booking_table w1
    /\ refund_table (final r2) = refund_table w1
    /\ log (final r2) = log w1.
Proof.
  intros cls transactions w Hf Hnn. cbv zeta.
  destruct (bulk_create_commits_run cls transactions w Hf) as (_ & T1 & _ & _ & F1).
  set (w1 := final (bulk_create_transactions cls transactions w)) in *.
  assert (Hs : settled cls transactions (table_of cls w1))
    by (rewrite T1; apply settled_after_insert, Hnn).
  destruct (bulk_create_on_settled cls transactions w1 F1 Hs) as (R & [S1 S2] & L).
  auto.
Qed.

Lemma loader_rerun_persists_nothing_witness :
  booking_table
    (final (bulk_create_booking_transactions
              [Fixtures.order_only 1; Fixtures.order_only 2]
              (final (bulk_create_booking_transactions
                        [Fixtures.order_only 1; Fixtures.order_only 2]
                        empty_world))))
  = booking_table
      (final (bulk_create_booking_transactions
                [Fixtures.order_only 1; Fixtures.order_only 2] empty_world)).
Proof.
  refine (proj1 (proj2 (loader_rerun_persists_nothing BookingTransaction
                          [Fixtures.order_only 1; Fixtures.order_only 2]
                          empty_world eq_refl _))).
  repeat constructor; discriminate.
Defined.

(** *** Computations that only log *)

Lemma logs_only_ret {A : Type} (a : A) : logs_only (mret a : M A).
Proof. exists (Return a), []. intros w. rewrite add_log_nil. reflexivity. Qed.

Lemma logs_only_raise {A : Type} (e : exn) : logs_only (raise e : M A).
Proof. exists (Raise e), []. intros w. rewrite add_log_nil. reflexivity. Qed.

Lemma logs_only_lift {A : Type} (r : exn + A) : logs_only (lift r).
Proof. destruct r; [apply logs_only_raise|apply logs_only_ret]. Qed.

Lemma logs_only_logger l m : logs_only (logger l m).
Proof. exists (Return tt), [Log l m]. reflexivity. Qed.

Lemma logs_only_bind {A B : Type} (m : M A) (f : A -> M B) :
  logs_only m -> (forall a, logs_only (f a)) -> logs_only (m ≫= f).
Proof.
  intros (o & recs & Hm) Hf. destruct o as [a|e].
  - destruct (Hf a) as (o' & recs' & Hfa). exists o', (recs ++ recs').
    intros w. rewrite run_bind, Hm, Hfa, add_log_add_log. reflexivity.
  - exists (Raise e), recs. intros w. rewrite run_bind, Hm. reflexivity.
Qed.

Lemma logs_only_getitem {V : Type} (d : gmap string V) k : logs_only (getitem d k).
Proof.
  unfold getitem. destruct (d !! k); [apply logs_only_ret|apply logs_only_raise].
Qed.

Lemma logs_only_row_getitem cols r k : logs_only (row_getitem cols r k).
Proof.
  unfold row_getitem.
  destruct (row_get cols r k); [apply logs_only_ret|apply logs_only_raise].
Qed.

Lemma logs_only_convert_to_int val : logs_only (convert_to_int val).
Proof.
  exists (Return (int_of_cell val)),
         (if conversion_error val
          then [Log ERROR "Error converting value to int"] else []).
  intros w. rewrite convert_to_int_run. unfold after_convert.
  destruct (conversion_error val); [reflexivity|]. rewrite add_log_nil. reflexivity.
Qed.

Ltac logs_only :=
  repeat first
    [ apply logs_only_ret | apply logs_only_raise | apply logs_only_lift
    | apply logs_only_logger | apply logs_only_getitem
    | apply logs_only_row_getitem | apply logs_only_convert_to_int
    | apply logs_only_bind; [|intros ?]
    | match goal with
      | |- logs_only (if ?b then _ else _) => destruct b
      end ].

Lemma logs_only_booking_step cols bank_name st row :
  logs_only (booking_step cols bank_name st row).
Proof. destruct st as [seen bulk]. unfold booking_step. logs_only. Qed.

Lemma logs_only_refund_step cols bank_name st row :
  logs_only (refund_step cols bank_name st row).
Proof. destruct st as [seen bulk]. unfold refund_step. logs_only. Qed.

Lemma logs_only_iterrows step rs :
  (forall st row, logs_only (step st row)) ->
  forall st, logs_only (iterrows step rs st).
Proof.
  intros Hs. induction rs as [|row rs IH]; intros st; [apply logs_only_ret|].
  apply logs_only_bind; [apply Hs|exact IH].
Qed.

(** *** Tame computations *)

Lemma tables_extend_refl w : tables_extend w w.
Proof. split; reflexivity. Qed.

Lemma grew_tables_extend w w' : grew w w' -> tables_extend w w'.
Proof. intros (A & B & _). split; assumption. Qed.

Lemma tables_extend_trans w1 w2 w3 :
  tables_extend w1 w2 -> tables_extend w2 w3 -> tables_extend w1 w3.
Proof. intros [A1 B1] [A2 B2]. split; etransitivity; eassumption. Qed.

Lemma same_tables_extend w w' w'' :
  same_tables w' w'' -> tables_extend w w' -> tables_extend w w''.
Proof. intros [A B] [C D]. split; [rewrite A|rewrite B]; assumption. Qed.

Lemma logs_only_tame {A : Type} (m : M A) : logs_only m -> tame m.
Proof.
  intros (o & recs & Hm). split; [|split].
  - intros w. rewrite Hm. apply grew_add_log.
  - intros w. rewrite Hm. trivial.
  - intros w w' _ _ _. rewrite !Hm. split; [reflexivity|split; reflexivity].
Qed.

Lemma commits_trans :
  forall w1 w2 w3 : world,
    (commits w1 -> commits w2) -> (commits w2 -> commits w3) -> commits w1 -> commits w3.
Proof. auto. Qed.

(** Sequencing, with a property [P] known of what the first part returns. *)
Lemma tame_bind {A B : Type} (P : A -> Prop) (m : M A) (f : A -> M B) :
  tame m ->
  (forall a w, (m w).1 = Return a -> P a) ->
  (forall a, P a -> tame (f a)) ->
  tame (m ≫= f).
Proof.
  intros (Gm & Cm & Rm) HP Hf. split; [|split].
  - intros w. rewrite run_bind. specialize (Gm w). pose proof (fun a => HP a w) as HPw.
    destruct (m w) as [[a|e] w1]; simpl in *; [|exact Gm].
    eapply grew_trans; [exact Gm|]. apply (Hf a (HPw a eq_refl)).
  - intros w. rewrite run_bind. specialize (Cm w). pose proof (fun a => HP a w) as HPw.
    destruct (m w) as [[a|e] w1]; simpl in *; [|exact Cm].
    intros Hc. apply (proj1 (proj2 (Hf a (HPw a eq_refl)))), Cm, Hc.
  - intros w w' Hc Hc' Hext. rewrite !run_bind in *.
    pose proof (Gm w) as G1. pose proof (Cm w Hc) as C1.
    pose proof (fun a => HP a w) as HPa.
    destruct (m w) as [[a|e] w1] eqn:E1; simpl in *.
    + destruct (Hf a (HPa a eq_refl)) as (Gf & Cf & Rf).
      assert (Hext1 : tables_extend w1 w').
      { eapply tables_extend_trans; [|exact Hext].
        apply grew_tables_extend, Gf. }
      destruct (Rm w w' Hc Hc') as [Hr Hs]; [rewrite E1; exact Hext1|].
      rewrite E1 in Hr. simpl in Hr.
      pose proof (Cm w' Hc') as C1'.
      destruct (m w') as [[a'|e'] w1']; simpl in *; [|discriminate].
      injection Hr as ->.
      destruct (Rf w1 w1' C1 C1') as [Hr2 Hs2].
      { eapply same_tables_extend; [exact Hs|exact Hext]. }
      split; [exact Hr2|].
      destruct Hs as [S1 S2], Hs2 as [S3 S4]. split; congruence.
    + destruct (Rm w w' Hc Hc') as [Hr Hs]; [rewrite E1; exact Hext|].
      rewrite E1 in Hr. simpl in Hr.
      destruct (m w') as [[a'|e'] w1']; simpl in *; [discriminate|].
      injection Hr as ->. split; [reflexivity|exact Hs].
Qed.

Lemma tame_seq {A B : Type} (m : M A) (f : A -> M B) :
  tame m -> (forall a, tame (f a)) -> tame (m ≫= f).
Proof. intros Hm Hf. apply (tame_bind (fun _ => True)); auto. Qed.

Lemma tame_ret_bind {A B : Type} (a : A) (f : A -> M B) :
  tame (f a) -> tame ((mret a : M A) ≫= f).
Proof. intros H. exact H. Qed.

Lemma tame_try_except {A : Type} (body : M A) (handler : exn -> M A) :
  tame body -> (forall e, logs_only (handler e)) ->
  tame (try_except body any_exception handler).
Proof.
  intros (Gb & Cb & Rb) Hh. split; [|split].
  - intros w. unfold try_except. specialize (Gb w).
    destruct (body w) as [[a|e] w1]; simpl in *; [exact Gb|].
    destruct (Hh e) as (o & recs & He). rewrite He.
    eapply grew_trans; [exact Gb|apply grew_add_log].
  - intros w. unfold try_except. specialize (Cb w).
    destruct (body w) as [[a|e] w1]; simpl in *; [exact Cb|].
    destruct (Hh e) as (o & recs & He). rewrite He. exact Cb.
  - intros w w' Hc Hc' Hext. unfold try_except in *.
    destruct (body w) as [[a|e] w1] eqn:E1; simpl in *.
    + destruct (Rb w w' Hc Hc') as [Hr Hs]; [rewrite E1; exact Hext|].
      rewrite E1 in Hr. simpl in Hr.
      destruct (body w') as [[a'|e'] w1']; simpl in *; [|discriminate].
      split; [exact Hr|exact Hs].
    + destruct (Hh e) as (o & recs & He). rewrite He in Hext |- *.
      destruct (Rb w w' Hc Hc') as [Hr Hs]; [rewrite E1; exact Hext|].
      rewrite E1 in Hr. simpl in Hr.
      destruct (body w') as [[a'|e'] w1']; simpl in *; [discriminate|].
      injection Hr as ->. rewrite He. split; [reflexivity|exact Hs].
Qed.

Lemma tame_for_each {A : Type} (l : list A) (body : A -> M unit) :
  (forall x, tame (body x)) -> tame (for_each l body).
Proof.
  intros Hb. induction l as [|x l IH]; [apply logs_only_tame, logs_only_ret|].
  apply tame_seq; [apply Hb|intros _; exact IH].
Qed.

(** *** Uploading the same files again *)

Lemma commits_bulk_create cls transactions :
  preserves (fun w w' => commits w -> commits w')
    (bulk_create_transactions cls transactions).
Proof.
  intros w Hc. exact (proj2 (proj2 (proj2 (proj2
    (bulk_create_commits_run cls transactions w Hc))))).
Qed.

(** A loader call as the chunk processor makes it (the count is dropped). *)
Lemma tame_load cls transactions :
  with_order_numbers transactions ->
  tame (bulk_create_transactions cls transactions ≫= fun _ => mret tt).
Proof.
  intros Hnn.
  assert (Hrun : forall w, commits w ->
            (bulk_create_transactions cls transactions ≫= fun _ => mret tt) w
            = (Return tt, (bulk_create_transactions cls transactions w).2)).
  { intros w Hc. rewrite run_bind.
    destruct (bulk_create_commits_run cls transactions w Hc) as (R & _).
    unfold result in R.
    destruct (bulk_create_transactions cls transactions w) as [[n|e] w1];
      simpl in *; [reflexivity|discriminate]. }
  split; [|split].
  - apply (preserves_bind grew grew_trans);
      [apply grew_bulk_create|intros n; apply (preserves_ret grew grew_refl)].
  - apply (preserves_bind (fun w w' => commits w -> commits w') commits_trans);
      [apply commits_bulk_create|intros n w H; exact H].
  - intros w w' Hc Hc' Hext. rewrite (Hrun w Hc) in *. rewrite (Hrun w' Hc').
    simpl in *. split; [reflexivity|].
    destruct (bulk_create_commits_run cls transactions w Hc) as (_ & T1 & _).
    assert (Hs : settled cls transactions (table_of cls w')).
    { eapply settled_mono; [|apply (settled_after_insert cls transactions w Hnn)].
      rewrite <- T1. destruct Hext as [Eb Er]. destruct cls; assumption. }
    exact (proj1 (proj2 (bulk_create_on_settled cls transactions w' Hc' Hs))).
Qed.

(** The records a dedup loop accepts carry an order number. *)
Lemma step_effect_orders st st' :
  step_effect st st' -> with_order_numbers st.2 -> with_order_numbers st'.2.
Proof.
  intros [->|(o & t & _ & Ht & Ho & ->)] H; [exact H|]. simpl.
  apply Forall_app. split; [exact H|]. constructor; [|constructor].
  unfold int_field in Ho. unfold dict_get.
  destruct (t !! "irctc_order_no") as [[]|]; subst; simpl in *; discriminate.
Qed.

Lemma booking_loop_orders cols bank_name rs w st :
  (booking_loop cols bank_name rs w).1 = Return st -> with_order_numbers st.2.
Proof.
  destruct (booking_loop cols bank_name rs w) as [o w'] eqn:E. simpl.
  intros ->. eapply (iterrows_invariant _ (fun st => with_order_numbers st.2));
    [|exact E|constructor].
  intros ? ? ? ? ? S. apply step_effect_orders. eapply booking_step_effect, S.
Qed.

Lemma refund_loop_orders cols bank_name rs w st :
  (refund_loop cols bank_name rs w).1 = Return st -> with_order_numbers st.2.
Proof.
  destruct (refund_loop cols bank_name rs w) as [o w'] eqn:E. simpl.
  intros ->. eapply (iterrows_invariant _ (fun st => with_order_numbers st.2));
    [|exact E|constructor].
  intros ? ? ? ? ? S. apply step_effect_orders. eapply refund_step_effect, S.
Qed.

Lemma tame_process_dataframe_chunk df bank_name transaction_type :
  tame (process_dataframe_chunk df bank_name transaction_type).
Proof.
  unfold process_dataframe_chunk.
  do 6 (apply tame_seq; [apply logs_only_tame, logs_only_getitem|intros ?]).
  apply tame_seq; [apply logs_only_tame, logs_only_lift|intros df'].
  destruct (df_empty df'); [apply logs_only_tame, logs_only_logger|].
  assert (Hfinish : forall bookings refunds,
             with_order_numbers bookings -> with_order_numbers refunds ->
             tame
               (match bookings with
                | _ :: _ => bulk_create_booking_transactions bookings;; mret tt
                | [] => mret tt
                end;;
                match refunds with
                | _ :: _ => bulk_create_refund_transactions refunds;; mret tt
                | [] => mret tt
                end)).
  { intros bookings refunds Ob Or. apply tame_seq.
    - destruct bookings; [apply logs_only_tame, logs_only_ret|].
      apply tame_load, Ob.
    - intros _. destruct refunds; [apply logs_only_tame, logs_only_ret|].
      apply tame_load, Or. }
  assert (Hrefunds : forall bookings,
             with_order_numbers bookings ->
             tame
               ((if wants_refund transaction_type
                    && has_required expected_refund_columns (columns df')
                 then st ← refund_loop (columns df') bank_name (rows df'); mret st.2
                 else mret []) ≫= fun refunds =>
                match bookings with
                | _ :: _ => bulk_create_booking_transactions bookings;; mret tt
                | [] => mret tt
                end;;
                match refunds with
                | _ :: _ => bulk_create_refund_transactions refunds;; mret tt
                | [] => mret tt
                end)).
  { intros bookings Ob.
    destruct (wants_refund transaction_type && has_required _ _).
    - apply (tame_bind with_order_numbers).
      + apply logs_only_tame, logs_only_bind; [|intros ?; apply logs_only_ret].
        apply logs_only_iterrows, logs_only_refund_step.
      + intros refunds w. rewrite run_bind.
        destruct (refund_loop (columns df') bank_name (rows df') w)
          as [[st|e] w1] eqn:E; simpl; [|discriminate].
        intros [= <-]. apply (refund_loop_orders (columns df') bank_name (rows df') w).
        rewrite E. reflexivity.
      + intros refunds Or. apply Hfinish; assumption.
    - apply tame_ret_bind. exact (Hfinish bookings [] Ob ltac:(constructor)). }
  destruct (wants_booking transaction_type && has_required _ _).
  - apply (tame_bind with_order_numbers).
    + apply logs_only_tame, logs_only_bind; [|intros ?; apply logs_only_ret].
      apply logs_only_iterrows, logs_only_booking_step.
    + intros bookings w. rewrite run_bind.
      destruct (booking_loop (columns df') bank_name (rows df') w)
        as [[st|e] w1] eqn:E; simpl; [|discriminate].
      intros [= <-]. apply (booking_loop_orders (columns df') bank_name (rows df') w).
      rewrite E. reflexivity.
    + intros bookings Ob. apply Hrefunds, Ob.
  - apply tame_ret_bind. exact (Hrefunds [] ltac:(constructor)).
Qed.

Lemma tame_csv_chunks s bank_name transaction_type :
  tame (csv_chunks s bank_name transaction_type).
Proof.
  induction s as [|e|chunk rest IH]; simpl.
  - apply logs_only_tame, logs_only_ret.
  - apply logs_only_tame, logs_only_raise.
  - apply tame_seq; [|intros _; exact IH].
    destruct (df_empty chunk); [apply logs_only_tame, logs_only_logger|].
    apply tame_process_dataframe_chunk.
Qed.

Lemma tame_files_loop files bank_name transaction_type file_format :
  tame (files_loop files bank_name transaction_type file_format).
Proof.
  induction files as [|file files IH]; [apply logs_only_tame, logs_only_ret|].
  cbn [files_loop]. destruct (String.eqb file_format "excel").
  - apply tame_seq; [apply logs_only_tame, logs_only_lift|intros df].
    destruct (length (rows df) =? 0)%nat; [apply logs_only_tame, logs_only_logger|].
    apply tame_seq; [|intros _; exact IH].
    apply tame_for_each. intros start_row. apply tame_process_dataframe_chunk.
  - destruct (String.eqb file_format "csv").
    + apply tame_seq; [|intros _; exact IH]. apply tame_csv_chunks.
    + apply logs_only_tame, logs_only_bind;
        [apply logs_only_logger|intros _; apply logs_only_raise].
Qed.

Lemma tame_process_uploaded_files files bank_name transaction_type file_format :
  tame (process_uploaded_files files bank_name transaction_type file_format).
Proof.
  unfold process_uploaded_files. apply tame_try_except; [apply tame_files_loop|].
  intros e. apply logs_only_bind; [apply logs_only_logger|intros _; apply logs_only_raise].
Qed.

(** Uploading the same files again persists nothing.  Let the database
    commit every insert.  After a first run of the driver on a list of files,
    a second run on the same files (same bank, type and format), started in
    the world the first run left or in any later world whose tables extend
    it, ends as the first run did (it returns, or raises the same exception)
    and leaves both tables exactly as it found them. *)
Theorem reupload_persists_nothing :
  forall files bank_name transaction_type file_format w w',
    commits w -> commits w' ->
    let run := process_uploaded_files files bank_name transaction_type file_format in
    tables_extend (final (run w)) w' ->
    result (run w') = result (run w)
    /\ booking_table (final (run w')) = booking_table w'
    /\ refund_table (final (run w')) = refund_table w'.
Proof.
  intros files bank_name transaction_type file_format w w' Hc Hc' run Hext.
  destruct (tame_process_uploaded_files files bank_name transaction_type file_format)
    as (_ & _ & Hrep).
  destruct (Hrep w w' Hc Hc' Hext) as [Hr [Hb Hf]]. auto.
Qed.

Lemma reupload_persists_nothing_witness :
  booking_table
    (final (process_uploaded_files [Fixtures.one_booking] "karur_vysya" "booking" "csv"
              (final (process_uploaded_files [Fixtures.one_booking] "karur_vysya"
                        "booking" "csv" empty_world))))
  = booking_table
      (final (process_uploaded_files [Fixtures.one_booking] "karur_vysya"
                "booking" "csv" empty_world)).
Proof.
  refine (proj1 (proj2 (reupload_persists_nothing [Fixtures.one_booking]
                          "karur_vysya" "booking" "csv" empty_world
                          (final (process_uploaded_files [Fixtures.one_booking]
                                    "karur_vysya" "booking" "csv" empty_world))
                          eq_refl _ _))).
  - vm_cast_no_check (eq_refl (@nil (option exn))).
  - apply tables_extend_refl.
Defined.

(** ** Chunking *)

Lemma chunk_size_pos : 0 < chunk_size.
Proof. apply Nat.ltb_lt. vm_cast_no_check (eq_refl true). Qed.

Lemma range_step_first (n s : nat) :
  0 < n -> 0 < s -> exists l, range_step n s = 0 :: l.
Proof.
  intros Hn Hs. unfold range_step.
  destruct ((n + s - 1) / s) as [|k] eqn:E.
  - apply Nat.div_small_iff in E; lia.
  - eexists. cbn [seq]. rewrite fmap_cons. reflexivity.
Qed.

Lemma range_step_single (n s : nat) :
  0 < n -> n <= s -> range_step n s = [0].
Proof.
  intros Hn Hs. unfold range_step.
  replace ((n + s - 1) / s) with 1; [reflexivity|].
  apply Nat.div_unique with (r := n - 1); lia.
Qed.

(** ** Chunk processing: errors and edge cases *)

Lemma karur_registered :
  exists bank,
    BANK_MAPPINGS !! "karur_vysya" = Some bank
    /\ column_mapping (booking bank) !! "IRCTCORDERNO" = Some "irctc_order_no"
    /\ column_mapping (booking bank) !! "BANKBOOKINGREFNO" = Some "bank_booking_ref_no"
    /\ column_mapping (booking bank) !! "BOOKINGAMOUNT" = Some "booking_amount"
    /\ column_mapping (booking bank) !! "TXNDATE" = Some "transaction_date"
    /\ column_mapping (booking bank) !! "CREDITEDON" = Some "credited_date"
    /\ (list_to_map
          [("IRCTCORDERNO", "irctc_order_no");
           ("BANKBOOKINGREFNO", "bank_booking_ref_no");
           ("BOOKINGAMOUNT", "booking_amount");
           ("TXNDATE", "transaction_date");
           ("CREDITEDON", "credited_date")] : gmap string string)
       = column_mapping (booking bank)
    /\ KARUR_RENAMING = column_mapping (refund bank) ∪ column_mapping (booking bank).
Proof.
  eexists. split; [vm_compute; reflexivity|].
  repeat split; vm_compute; reflexivity.
Qed.

Lemma in_columns_elem k cols : in_columns k cols = true <-> k ∈ cols.
Proof.
  unfold in_columns. rewrite existsb_exists. split.
  - intros (x & Hx & E). apply String.eqb_eq in E. subst. apply list_elem_of_In, Hx.
  - intros H. exists k. split; [apply list_elem_of_In, H|apply String.eqb_refl].
Qed.

(** The renaming dict built from the labels present renames like the fixed
    table. *)
Lemma rename_present (refund_map booking_map : gmap string string) (cleaned : list string) :
  rename_columns
    (filter (fun kv => in_columns kv.1 cleaned = true) refund_map ∪ booking_map) cleaned
  = (fun c => default c ((refund_map ∪ booking_map) !! c)) <$> cleaned.
Proof.
  unfold rename_columns. apply list_fmap_ext. intros i c Hc.
  assert (Hin : in_columns c cleaned = true)
    by (apply in_columns_elem, list_elem_of_lookup; eauto).
  rewrite !lookup_union, map_lookup_filter.
  destruct (refund_map !! c) as [v|]; simpl; [|reflexivity].
  rewrite option_guard_True by exact Hin. reflexivity.
Qed.

(** Chunk processing for Karur Vysya, header handling done. *)
Lemma process_karur_chunk df transaction_type w :
  process_dataframe_chunk df "karur_vysya" transaction_type w =
  match dropna common_columns (renamed_frame df) with
  | inl e => (Raise e, w)
  | inr df' => chunk_body df' "karur_vysya" transaction_type w
  end.
Proof.
  destruct karur_registered as (bank & Hb & H1 & H2 & H3 & H4 & H5 & Hfive & Hk).
  unfold process_dataframe_chunk.
  rewrite run_bind. unfold getitem at 1. rewrite Hb. rewrite run_ret.
  rewrite run_bind. unfold getitem at 1. rewrite H1. rewrite run_ret.
  rewrite run_bind. unfold getitem at 1. rewrite H2. rewrite run_ret.
  rewrite run_bind. unfold getitem at 1. rewrite H3. rewrite run_ret.
  rewrite run_bind. unfold getitem at 1. rewrite H4. rewrite run_ret.
  rewrite run_bind. unfold getitem at 1. rewrite H5. rewrite run_ret.
  rewrite Hfive, rename_present, <- Hk, <- list_fmap_compose.
  change (mkDataFrame _ (rows df)) with (renamed_frame df).
  rewrite run_bind.
  destruct (dropna common_columns (renamed_frame df)) as [e|df']; reflexivity.
Qed.

Lemma clean_column_name_kept header :
  PyStr.forallb kept_char (clean_column_name header) = true.
Proof.
  rewrite clean_column_name_filter. apply forallb_filter. trivial.
Qed.

(** The registry's renaming is one-to-one, and none of its labels is a
    cleaned token (each has an underscore). *)
Lemma karur_renaming_injective token token' label :
  KARUR_RENAMING !! token = Some label ->
  KARUR_RENAMING !! token' = Some label ->
  token = token'.
Proof.
  intros H1 H2.
  apply elem_of_map_to_list, list_elem_of_In in H1.
  apply elem_of_map_to_list, list_elem_of_In in H2.
  assert (Hall : List.forallb
                   (fun p : string * string =>
                      List.forallb
                        (fun q : string * string =>
                           implb (String.eqb p.2 q.2) (String.eqb p.1 q.1))
                        (map_to_list KARUR_RENAMING))
                   (map_to_list KARUR_RENAMING) = true)
    by (vm_compute; reflexivity).
  pose proof (proj1 (forallb_forall _ _)
                (proj1 (forallb_forall _ _) Hall _ H1) _ H2) as H.
  simpl in H. rewrite String.eqb_refl in H. apply String.eqb_eq, H.
Qed.

Lemma karur_label_not_cleaned token label :
  KARUR_RENAMING !! token = Some label -> PyStr.forallb kept_char label = false.
Proof.
  intros H1. apply elem_of_map_to_list, list_elem_of_In in H1.
  assert (Hall : List.forallb
                   (fun p : string * string => negb (PyStr.forallb kept_char p.2))
                   (map_to_list KARUR_RENAMING) = true)
    by (vm_compute; reflexivity).
  pose proof (proj1 (forallb_forall _ _) Hall _ H1) as H.
  apply negb_true_iff in H. exact H.
Qed.

(** A registry label is obtained from exactly one cleaned token. *)
Lemma karur_label_token header token label :
  KARUR_RENAMING !! token = Some label ->
  String.eqb label (karur_label header)
  = String.eqb (clean_column_name header) token.
Proof.
  intros Ht. unfold karur_label.
  pose proof (clean_column_name_kept header) as Hk.
  set (c := clean_column_name header) in *.
  destruct (String.eqb_spec c token) as [->|Hne].
  - rewrite Ht. apply String.eqb_refl.
  - apply String.eqb_neq. intros E.
    destruct (KARUR_RENAMING !! c) as [v|] eqn:Hc; simpl in E.
    + subst v. apply Hne. exact (karur_renaming_injective _ _ _ Hc Ht).
    + rewrite <- E, (karur_label_not_cleaned _ _ Ht) in Hk. discriminate.
Qed.

Lemma in_renamed_columns cols token label :
  KARUR_RENAMING !! token = Some label ->
  in_columns label (karur_label <$> cols) = has_token cols token.
Proof.
  intros Ht. unfold in_columns, has_token.
  induction cols as [|h cols IH]; [reflexivity|].
  rewrite fmap_cons. cbn [existsb]. rewrite IH, (karur_label_token _ _ _ Ht).
  reflexivity.
Qed.

Lemma karur_renaming_lookup :
  KARUR_RENAMING !! "IRCTCORDERNO" = Some "irctc_order_no"
  /\ KARUR_RENAMING !! "BANKBOOKINGREFNO" = Some "bank_booking_ref_no"
  /\ KARUR_RENAMING !! "BOOKINGAMOUNT" = Some "booking_amount"
  /\ KARUR_RENAMING !! "TXNDATE" = Some "transaction_date"
  /\ KARUR_RENAMING !! "CREDITEDON" = Some "credited_date"
  /\ KARUR_RENAMING !! "REFUNDDATE" = Some "refund_date"
  /\ KARUR_RENAMING !! "BANKREFUNDREFNO" = Some "bank_refund_ref_no"
  /\ KARUR_RENAMING !! "REFUNDAMOUNT" = Some "refund_amount"
  /\ KARUR_RENAMING !! "DEBITEDON" = Some "debited_date".
Proof. repeat split; vm_compute; reflexivity. Qed.

Lemma has_required_booking cols :
  has_required expected_booking_columns (karur_label <$> cols)
  = List.forallb (has_token cols) booking_tokens.
Proof.
  destruct karur_renaming_lookup as (K1 & K2 & K3 & K4 & K5 & _).
  unfold has_required, expected_booking_columns, booking_tokens.
  cbn [List.forallb].
  rewrite (in_renamed_columns _ _ _ K1), (in_renamed_columns _ _ _ K2),
    (in_renamed_columns _ _ _ K3), (in_renamed_columns _ _ _ K4),
    (in_renamed_columns _ _ _ K5).
  reflexivity.
Qed.

Lemma has_required_refund cols :
  has_required expected_refund_columns (karur_label <$> cols)
  = List.forallb (has_token cols) refund_tokens.
Proof.
  destruct karur_renaming_lookup as (K1 & K2 & _ & _ & _ & K6 & K7 & K8 & K9).
  unfold has_required, expected_refund_columns, refund_tokens.
  cbn [List.forallb].
  rewrite (in_renamed_columns _ _ _ K1), (in_renamed_columns _ _ _ K2),
    (in_renamed_columns _ _ _ K6), (in_renamed_columns _ _ _ K7),
    (in_renamed_columns _ _ _ K8), (in_renamed_columns _ _ _ K9).
  reflexivity.
Qed.

Lemma dropna_columns subset df df' :
  dropna subset df = inr df' -> columns df' = columns df.
Proof.
  unfold dropna. destruct (List.find _ subset); [discriminate|].
  intros [= <-]. reflexivity.
Qed.

(** A bank the registry does not know.  Chunk processing for a bank name
    without an entry in [BANK_MAPPINGS] raises [KeyError] before anything is
    read, logged or inserted, for every chunk and transaction type; so does
    the driver on the first file with data.  Of the three banks the upload
    form offers, [hdfc] and [icici] are such banks (they have a bank code but
    no mapping). *)
Theorem unregistered_bank_raises :
  (forall df bank_name transaction_type w,
      BANK_MAPPINGS !! bank_name = None ->
      process_dataframe_chunk df bank_name transaction_type w
      = (Raise (KeyError bank_name), w))
  /\ (forall file files bank_name transaction_type w df,
         BANK_MAPPINGS !! bank_name = None ->
         read_excel file = inr df ->
         rows df <> [] ->
         process_uploaded_files (file :: files) bank_name transaction_type "excel" w
         = (Raise (KeyError bank_name), add_log w [Log ERROR "Error processing file"]))
  /\ (forall bank_name,
         bank_name ∈ BANK_CHOICES.*1 ->
         bank_name <> "karur_vysya" ->
         BANK_MAPPINGS !! bank_name = None
         /\ is_Some (BANK_CODE_MAPPING !! bank_name)).
Proof.
  assert (Hchunk : forall df bank_name transaction_type w,
             BANK_MAPPINGS !! bank_name = None ->
             process_dataframe_chunk df bank_name transaction_type w
             = (Raise (KeyError bank_name), w)).
  { intros df bank_name transaction_type w Hb. unfold process_dataframe_chunk.
    rewrite run_bind. unfold getitem at 1. rewrite Hb. reflexivity. }
  split; [exact Hchunk|]. split.
  - intros file files bank_name transaction_type w df Hb Hr Hrows.
    unfold process_uploaded_files, try_except.
    rewrite files_loop_excel_cons, Hr.
    destruct (rows df) as [|row rs] eqn:Hrs; [contradiction|].
    change (length (row :: rs) =? 0)%nat with false. cbv iota.
    unfold excel_chunks.
    destruct (range_step_first (length (rows df)) chunk_size) as [l ->];
      [rewrite Hrs; simpl; lia|exact chunk_size_pos|].
    cbn [for_each]. rewrite run_bind, (Hchunk _ _ _ _ Hb). reflexivity.
  - intros bank_name Hin Hne. unfold BANK_CHOICES in Hin. simpl in Hin.
    repeat (apply elem_of_cons in Hin as [->|Hin];
            [first [contradiction | split; [vm_compute; reflexivity|eexists; vm_compute; reflexivity]]|]).
    apply elem_of_nil in Hin. contradiction.
Qed.

Lemma unregistered_bank_raises_witness :
  process_dataframe_chunk Fixtures.same_reference "hdfc" "booking" empty_world
  = (Raise (KeyError "hdfc"), empty_world).
Proof.
  apply (proj1 unregistered_bank_raises).
  vm_compute. reflexivity.
Defined.

(** A chunk without a key column.  For Karur Vysya, when no header of the
    chunk cleans to [IRCTCORDERNO] or none cleans to [BANKBOOKINGREFNO],
    chunk processing raises a [KeyError] naming a key label that is missing
    ([irctc_order_no] or [bank_booking_ref_no]), and nothing is logged or
    inserted: for refund chunks too, whose own reference is another
    column. *)
Theorem missing_key_column_raises :
  forall df transaction_type w,
    has_token (columns df) "IRCTCORDERNO"
    && has_token (columns df) "BANKBOOKINGREFNO" = false ->
    exists key,
      process_dataframe_chunk df "karur_vysya" transaction_type w
      = (Raise (KeyError key), w)
      /\ ((key = "irctc_order_no"
           /\ has_token (columns df) "IRCTCORDERNO" = false)
          \/ (key = "bank_booking_ref_no"
              /\ has_token (columns df) "BANKBOOKINGREFNO" = false)).
Proof.
  destruct karur_renaming_lookup as (K1 & K2 & _).
  intros df transaction_type w H. rewrite process_karur_chunk.
  unfold dropna, common_columns, renamed_frame. cbn [List.find columns].
  rewrite (in_renamed_columns _ _ _ K1), (in_renamed_columns _ _ _ K2).
  destruct (has_token (columns df) "IRCTCORDERNO") eqn:H1.
  - cbn [andb] in H. rewrite H. exists "bank_booking_ref_no".
    split; [reflexivity|]. right. split; reflexivity.
  - exists "irctc_order_no". split; [reflexivity|]. left. split; reflexivity.
Qed.

Lemma missing_key_column_raises_witness :
  exists key,
    process_dataframe_chunk
      (mkDataFrame ["REFUND DATE"; "IRCTC ORDER NO."; "BANK REFUND REF.NO.";
                    "REFUND AMOUNT"; "DEBITED ON"]
         [[Some "02-01-2024"; Some "1"; Some "5"; Some "10"; Some "06-01-2024"]])
      "karur_vysya" "refund" empty_world
    = (Raise (KeyError key), empty_world)
    /\ ((key = "irctc_order_no"
         /\ has_token ["REFUND DATE"; "IRCTC ORDER NO."; "BANK REFUND REF.NO.";
                       "REFUND AMOUNT"; "DEBITED ON"] "IRCTCORDERNO" = false)
        \/ (key = "bank_booking_ref_no"
            /\ has_token ["REFUND DATE"; "IRCTC ORDER NO."; "BANK REFUND REF.NO.";
                          "REFUND AMOUNT"; "DEBITED ON"] "BANKBOOKINGREFNO" = false)).
Proof.
  apply (missing_key_column_raises
           (mkDataFrame ["REFUND DATE"; "IRCTC ORDER NO."; "BANK REFUND REF.NO.";
                         "REFUND AMOUNT"; "DEBITED ON"]
              [[Some "02-01-2024"; Some "1"; Some "5"; Some "10"; Some "06-01-2024"]])
           "refund" empty_world).
  vm_compute. reflexivity.
Defined.

(** A chunk that is skipped without an error.  For Karur Vysya, once the key
    columns are there: when every row lacks one of the two keys, chunk
    processing logs one WARNING and does nothing else; when some row has both
    keys but, for each kind the transaction type asks for, a required column
    is absent (no header cleans to its token), chunk processing returns
    normally and leaves the world untouched: nothing is inserted and nothing
    is logged.  This covers a booking file uploaded as [refund], a file
    lacking one amount or date column, and a transaction type that is none
    of [booking], [refund], [both]. *)
Theorem chunk_skipped_silently :
  (forall df transaction_type w df',
      dropna common_columns (renamed_frame df) = inr df' ->
      df_empty df' = true ->
      process_dataframe_chunk df "karur_vysya" transaction_type w
      = (Return tt,
         add_log w
           [Log WARNING
              "No valid rows remaining after dropping NAs. Skipping this chunk."]))
  /\ (forall df transaction_type w df',
         dropna common_columns (renamed_frame df) = inr df' ->
         df_empty df' = false ->
         wants_booking transaction_type
         && List.forallb (has_token (columns df)) booking_tokens = false ->
         wants_refund transaction_type
         && List.forallb (has_token (columns df)) refund_tokens = false ->
         process_dataframe_chunk df "karur_vysya" transaction_type w
         = (Return tt, w)).
Proof.
  split.
  - intros df transaction_type w df' Hd He.
    rewrite process_karur_chunk, Hd. unfold chunk_body. rewrite He. reflexivity.
  - intros df transaction_type w df' Hd He Hb Hr.
    rewrite process_karur_chunk, Hd. unfold chunk_body. rewrite He.
    rewrite (dropna_columns _ _ _ Hd). unfold renamed_frame. cbn [columns].
    rewrite has_required_booking, has_required_refund, Hb, Hr. reflexivity.
Qed.

Lemma chunk_skipped_silently_witness :
  process_dataframe_chunk Fixtures.same_reference "karur_vysya" "refund" empty_world
  = (Return tt, empty_world).
Proof.
  apply (proj2 chunk_skipped_silently Fixtures.same_reference "refund" empty_world
           (renamed_frame Fixtures.same_reference));
    vm_compute; reflexivity.
Defined.

(** ** The driver: chunking and failures *)

Lemma files_loop_csv_app (before files : list file_content) bank_name transaction_type :
  forall w,
    files_loop (before ++ files) bank_name transaction_type "csv" w =
    match files_loop before bank_name transaction_type "csv" w with
    | (Return _, w') => files_loop files bank_name transaction_type "csv" w'
    | (Raise e, w') => (Raise e, w')
    end.
Proof.
  induction before as [|f before IH]; intros w; [reflexivity|].
  rewrite <- app_comm_cons, !files_loop_csv_cons.
  destruct (csv_chunks (read_csv f) bank_name transaction_type w) as [[[]|e] w1];
    [apply IH|reflexivity].
Qed.

Lemma range_step_start_in_range (n s k : nat) :
  0 < s -> k < (n + s - 1) / s -> k * s < n.
Proof.
  intros Hs Hk.
  pose proof (Nat.Div0.mul_div_le (n + s - 1) s) as Hle.
  assert (s * S k <= s * ((n + s - 1) / s)) by (apply Nat.mul_le_mono_l; lia).
  nia.
Qed.

(** The Excel branch processes every row of the file, in order, in chunks
    of 50000.  For an Excel file whose frame has at least one row there is a
    list of chunks such that: the chunks put end to end are the rows of the
    frame; no chunk is empty or has more than 50000 rows, and every chunk
    but the last has exactly 50000; the branch runs chunk processing on each
    chunk in turn, under the header of the frame, and then goes on with the
    following files (a chunk that raises ends the loop).  A file of at most
    50000 rows is one chunk, so that the in-chunk duplicate test then covers
    the whole file. *)
Theorem excel_file_chunking :
  forall file files bank_name transaction_type w df,
    read_excel file = inr df ->
    rows df <> [] ->
    exists chunks : list (list (list cell)),
      concat chunks = rows df
      /\ Forall (fun chunk => 0 < length chunk <= chunk_size) chunks
      /\ (forall i chunk,
             chunks !! i = Some chunk -> S i < length chunks ->
             length chunk = chunk_size)
      /\ files_loop (file :: files) bank_name transaction_type "excel" w
         = (for_each chunks
              (fun chunk =>
                 process_dataframe_chunk (mkDataFrame (columns df) chunk)
                   bank_name transaction_type);;
            files_loop files bank_name transaction_type "excel") w
      /\ (length (rows df) <= chunk_size -> chunks = [rows df])
      /\ chunk_size = N.to_nat 50000.
Proof.
  intros file files bank_name transaction_type w df Hr Hne.
  pose proof chunk_size_pos as Hs.
  set (rs := rows df) in *. set (n := length rs).
  set (m := (n + chunk_size - 1) / chunk_size).
  exists ((fun k => slice rs (k * chunk_size) chunk_size) <$> seq 0 m).
  assert (Hlen : forall k, k < m ->
            length (slice rs (k * chunk_size) chunk_size)
            = Nat.min chunk_size (n - k * chunk_size)).
  { intros k _. unfold slice. rewrite length_take, length_drop. reflexivity. }
  split; [|split; [|split; [|split; [|split]]]].
  - apply (concat_slices chunk_size), range_step_covers, Hs.
  - apply Forall_fmap, Forall_forall. intros k Hk.
    apply elem_of_seq in Hk as [_ Hk]. cbn [plus] in Hk.
    pose proof (range_step_start_in_range n chunk_size k Hs Hk).
    cbn [compose]. rewrite (Hlen k Hk). lia.
  - intros i chunk Hi Hlast. rewrite length_fmap, length_seq in Hlast.
    rewrite list_lookup_fmap in Hi.
    destruct (seq 0 m !! i) as [k|] eqn:Hk; [|discriminate Hi].
    apply lookup_seq in Hk as [-> Hk]. cbn [plus] in Hi.
    injection Hi as <-. rewrite (Hlen i Hk).
    pose proof (range_step_start_in_range n chunk_size (S i) Hs Hlast).
    cbn [Nat.mul] in H. lia.
  - rewrite files_loop_excel_cons, Hr. fold rs. fold n.
    destruct (n =? 0)%nat eqn:E.
    { apply Nat.eqb_eq in E. unfold n in E. destruct rs; [contradiction|discriminate]. }
    unfold excel_chunks, range_step. fold rs. fold n. fold m.
    rewrite !for_each_fmap, run_bind.
    destruct (for_each (seq 0 m) _ w) as [[[]|e] w1]; reflexivity.
  - intros Hle. fold n in Hle.
    assert (0 < n) by (unfold n; destruct rs; [contradiction|simpl; lia]).
    assert (m = 1) as ->.
    { pose proof (range_step_single n chunk_size ltac:(assumption) Hle) as Hone.
      apply (f_equal length) in Hone. unfold range_step in Hone.
      rewrite length_fmap, length_seq in Hone. exact Hone. }
    cbn [seq fmap list_fmap]. unfold slice.
    rewrite Nat.mul_0_l, drop_0, take_ge by exact Hle. reflexivity.
  - reflexivity.
Qed.

Lemma excel_file_chunking_witness :
  exists chunks : list (list (list cell)),
    concat chunks
    = [Fixtures.booking_row (Some "123456") (Some "987654") (Some "100.50")]
    /\ Forall (fun chunk => 0 < length chunk <= chunk_size) chunks
    /\ (forall i chunk,
           chunks !! i = Some chunk -> S i < length chunks ->
           length chunk = chunk_size)
    /\ files_loop [Fixtures.one_booking] "karur_vysya" "booking" "excel" empty_world
       = (for_each chunks
            (fun chunk =>
               process_dataframe_chunk (mkDataFrame Fixtures.booking_header chunk)
                 "karur_vysya" "booking");;
          files_loop [] "karur_vysya" "booking" "excel") empty_world
    /\ (1 <= chunk_size ->
        chunks
        = [[Fixtures.booking_row (Some "123456") (Some "987654") (Some "100.50")]])
    /\ chunk_size = N.to_nat 50000.
Proof.
  apply (excel_file_chunking Fixtures.one_booking [] "karur_vysya" "booking"
           empty_world
           (mkDataFrame Fixtures.booking_header
              [Fixtures.booking_row (Some "123456") (Some "987654") (Some "100.50")])
           eq_refl).
  discriminate.
Defined.

(** A failure while processing one file ends the whole invocation.  When the
    files before it were processed to the end and processing the file raises
    [e], the driver logs one more ERROR record and raises [e]: the files
    after it are never looked at, and what the earlier files persisted stays
    (no rollback).  With a format that is neither [excel] nor [csv] the
    first file already raises [ValueError]; with no file at all the driver
    returns normally whatever the format. *)
Theorem failure_aborts_the_invocation :
  (forall before after file bank_name transaction_type w w1 w2 e,
      files_loop before bank_name transaction_type "csv" w = (Return tt, w1) ->
      files_loop [file] bank_name transaction_type "csv" w1 = (Raise e, w2) ->
      process_uploaded_files (before ++ file :: after) bank_name transaction_type
        "csv" w
      = (Raise e, add_log w2 [Log ERROR "Error processing file"])
      /\ grew w1 w2)
  /\ (forall before after file bank_name transaction_type w w1 w2 e,
         forallb (fun f => negb (zero_rows_excel f)) before = true ->
         files_loop before bank_name transaction_type "excel" w = (Return tt, w1) ->
         files_loop [file] bank_name transaction_type "excel" w1 = (Raise e, w2) ->
         process_uploaded_files (before ++ file :: after) bank_name transaction_type
           "excel" w
         = (Raise e, add_log w2 [Log ERROR "Error processing file"])
         /\ grew w1 w2)
  /\ (forall file files bank_name transaction_type file_format w,
         file_format <> "excel" -> file_format <> "csv" ->
         process_uploaded_files (file :: files) bank_name transaction_type
           file_format w
         = (Raise (ValueError "Unsupported file format"),
            add_log w [Log ERROR "Unsupported file format";
                       Log ERROR "Error processing file"]))
  /\ (forall bank_name transaction_type file_format w,
         process_uploaded_files [] bank_name transaction_type file_format w
         = (Return tt, w)).
Proof.
  assert (Hgrew : forall files bank_name transaction_type file_format w,
             grew w (files_loop files bank_name transaction_type file_format w).2).
  { intros files bank_name transaction_type file_format.
    apply (preserves_files_loop grew grew_refl grew_trans grew_add_log
             (fun _ => True) (fun cls objs _ => grew_atomic cls objs)); trivial. }
  split; [|split; [|split]].
  - intros before after file bank_name transaction_type w w1 w2 e Hb Hf.
    split; [|specialize (Hgrew [file] bank_name transaction_type "csv" w1);
             rewrite Hf in Hgrew; exact Hgrew].
    unfold process_uploaded_files, try_except.
    rewrite files_loop_csv_app, Hb.
    change (file :: after) with ([file] ++ after).
    rewrite files_loop_csv_app, Hf. reflexivity.
  - intros before after file bank_name transaction_type w w1 w2 e Hnz Hb Hf.
    split; [|specialize (Hgrew [file] bank_name transaction_type "excel" w1);
             rewrite Hf in Hgrew; exact Hgrew].
    unfold process_uploaded_files, try_except.
    rewrite files_loop_excel_app, Hnz, Hb.
    change (file :: after) with ([file] ++ after).
    rewrite files_loop_excel_app, Hf.
    destruct (forallb _ [file]); reflexivity.
  - intros file files bank_name transaction_type file_format w H1 H2.
    unfold process_uploaded_files, try_except. cbn [files_loop].
    apply String.eqb_neq in H1, H2. rewrite H1, H2.
    rewrite run_bind, run_logger. unfold raise at 1, any_exception.
    rewrite run_bind, run_logger, add_log_add_log. reflexivity.
  - reflexivity.
Qed.

Lemma failure_aborts_the_invocation_witness :
  process_uploaded_files
    ([Fixtures.one_booking]
       ++ mkFile (inl (OtherError "BadZipFile")) (StreamRaise (OtherError "ParserError"))
       :: [Fixtures.one_booking])
    "karur_vysya" "booking" "csv" empty_world
  = (Raise (OtherError "ParserError"),
     add_log
       (final (files_loop [Fixtures.one_booking] "karur_vysya" "booking" "csv"
                 empty_world))
       [Log ERROR "Error processing file"]).
Proof.
  refine (proj1 (proj1 failure_aborts_the_invocation
                   [Fixtures.one_booking] [Fixtures.one_booking] _
                   "karur_vysya" "booking" empty_world _ _ _ _ _)).
  - vm_cast_no_check
      (eq_refl (Return tt,
                final (files_loop [Fixtures.one_booking] "karur_vysya" "booking"
                         "csv" empty_world))).
  - reflexivity.
Defined.

(** ** Integer cells *)

Section IntegerCells.

Import PyFloat.
Local Open Scope Z_scope.

Lemma digit_char c :
  is_digit c = true ->
  isspace c = false
  /\ Ascii.eqb c "_" = false
  /\ (forall s, parse_sign (String c s) = (false, String c s))
  /\ (forall s, String.eqb (lower_str (String c s)) "inf" = false)
  /\ (forall s, String.eqb (lower_str (String c s)) "infinity" = false)
  /\ (forall s, String.eqb (lower_str (String c s)) "nan" = false)
  /\ 0 <= digit_val c <= 9.
Proof.
  destruct c as [[] [] [] [] [] [] [] []]; intros H; vm_compute in H;
    try discriminate H; repeat split; intros; discriminate.
Qed.

Lemma drop_underscores_digits s :
  all_digits s = true ->
  forall prev, Ascii.eqb prev "_" = false -> drop_underscores prev s = Some s.
Proof.
  induction s as [|c s IH]; intros Hd prev Hp; simpl.
  - rewrite Hp. reflexivity.
  - simpl in Hd. apply andb_prop in Hd as [Hc Hs].
    destruct (digit_char c Hc) as (_ & Hu & _).
    rewrite Hu, Hp. simpl. rewrite (IH Hs c Hu). reflexivity.
Qed.

Lemma rstrip_digits s : all_digits s = true -> rstrip s = s.
Proof.
  induction s as [|c s IH]; intros Hd; [reflexivity|].
  simpl in Hd. apply andb_prop in Hd as [Hc Hs].
  destruct (digit_char c Hc) as (Hsp & _).
  cbn [rstrip]. rewrite (IH Hs), Hsp. destruct s; reflexivity.
Qed.

Lemma strip_digits s : all_digits s = true -> strip s = s.
Proof.
  intros Hd. unfold strip.
  assert (lstrip s = s) as ->; [|apply rstrip_digits, Hd].
  destruct s as [|c s]; [reflexivity|].
  simpl in Hd. apply andb_prop in Hd as [Hc _].
  destruct (digit_char c Hc) as (Hsp & _). cbn [lstrip]. rewrite Hsp. reflexivity.
Qed.

Lemma span_digits_all s :
  all_digits s = true ->
  exists ds,
    span_digits s = (ds, EmptyString)
    /\ length ds = String.length s
    /\ forall acc, fold_left (fun a d => 10 * a + d) ds acc = numeral_value_from acc s.
Proof.
  induction s as [|c s IH]; intros Hd.
  - exists []. repeat split.
  - simpl in Hd. apply andb_prop in Hd as [Hc Hs].
    destruct (IH Hs) as (ds & E & Hl & Hv).
    exists (digit_val c :: ds). simpl. rewrite Hc, E. simpl.
    split; [reflexivity|]. split; [rewrite Hl; reflexivity|].
    intros acc. apply Hv.
Qed.

Lemma numeral_value_from_nonneg s :
  all_digits s = true -> forall acc, 0 <= acc -> 0 <= numeral_value_from acc s.
Proof.
  induction s as [|c s IH]; intros Hd acc Ha; [exact Ha|].
  simpl in *. apply andb_prop in Hd as [Hc Hs].
  destruct (digit_char c Hc) as (_ & _ & _ & _ & _ & _ & Hv).
  apply (IH Hs). lia.
Qed.

Lemma numeral_value_from_bound s :
  all_digits s = true ->
  forall acc, 0 <= acc ->
    numeral_value_from acc s < (acc + 1) * 10 ^ Z.of_nat (String.length s).
Proof.
  induction s as [|c s IH]; intros Hd acc Ha.
  - simpl. lia.
  - simpl in Hd. apply andb_prop in Hd as [Hc Hs].
    destruct (digit_char c Hc) as (_ & _ & _ & _ & _ & _ & Hv).
    cbn [numeral_value_from String.length].
    specialize (IH Hs (10 * acc + digit_val c) ltac:(lia)).
    rewrite Nat2Z.inj_succ, Z.pow_succ_r by lia.
    assert (0 < 10 ^ Z.of_nat (String.length s)) by (apply Z.pow_pos_nonneg; lia).
    nia.
Qed.

Lemma short_numeral_small s :
  all_digits s = true -> (String.length s <= 15)%nat -> numeral_value s < 2 ^ 53.
Proof.
  intros Hd Hl. unfold numeral_value.
  pose proof (numeral_value_from_bound s Hd 0 ltac:(lia)) as Hb.
  assert (10 ^ Z.of_nat (String.length s) <= 10 ^ 15)
    by (apply Z.pow_le_mono_r; lia).
  assert (10 ^ 15 < 2 ^ 53) by reflexivity.
  lia.
Qed.

(** An integer below [2^53] is its own binary64 value. *)
Lemma round_ratio_exact n :
  0 < n < 2 ^ 53 ->
  to_int (round_ratio false n 1) = inr n.
Proof.
  intros [Hpos Hlt].
  destruct (Z.log2_spec n Hpos) as [Hlo Hhi].
  assert (HL : 0 <= Z.log2 n < 53).
  { split; [apply Z.log2_nonneg|]. apply Z.log2_lt_pow2; assumption. }
  set (L := Z.log2 n) in *.
  set (k := 52 - L).
  assert (Hk : 0 <= k) by (unfold k; lia).
  assert (Hpow : 2 ^ L * 2 ^ k = 2 ^ 52).
  { rewrite <- Z.pow_add_r by lia. f_equal. unfold k. lia. }
  assert (Hpow' : 2 ^ (L + 1) * 2 ^ k = 2 ^ 53).
  { rewrite <- Z.pow_add_r by lia. f_equal. unfold k. lia. }
  assert (H2k : 0 < 2 ^ k) by (apply Z.pow_pos_nonneg; lia).
  assert (Hm_lo : 2 ^ 52 <= n * 2 ^ k).
  { rewrite <- Hpow. apply Z.mul_le_mono_nonneg_r; lia. }
  assert (Hm_hi : n * 2 ^ k < 2 ^ 53).
  { rewrite <- Hpow'. apply Z.mul_lt_mono_pos_r; lia. }
  unfold round_ratio. change (Z.log2 1) with 0. rewrite Z.sub_0_r. fold L.
  replace (L - 52) with (- k) by (unfold k; lia).
  replace (L - 53) with (- k - 1) by (unfold k; lia).
  assert (Hscaled : (if 0 <=? - k then n / (1 * 2 ^ (- k)) else n * 2 ^ (- - k) / 1)
                    = n * 2 ^ k).
  { destruct (Z.leb_spec 0 (- k)).
    - assert (k = 0) by lia. subst k. replace (- (52 - L)) with 0 by lia.
      replace (52 - L) with 0 by lia. simpl. rewrite Z.div_1_r. lia.
    - rewrite Z.opp_involutive, Z.div_1_r. reflexivity. }
  rewrite Hscaled.
  destruct (Z.leb_spec (2 ^ 52) (n * 2 ^ k)) as [_|Hbad]; [|lia].
  rewrite Z.max_l by lia.
  assert (Hnum : (if 0 <=? - k then n else n * 2 ^ (- - k)) = n * 2 ^ k).
  { destruct (Z.leb_spec 0 (- k)).
    - assert (k = 0) by lia. replace k with 0 by lia. simpl. lia.
    - rewrite Z.opp_involutive. reflexivity. }
  assert (Hden : (if 0 <=? - k then 1 * 2 ^ (- k) else 1) = 1).
  { destruct (Z.leb_spec 0 (- k)); [|reflexivity].
    assert (k = 0) by lia. replace (- k) with 0 by lia. reflexivity. }
  rewrite Hnum, Hden, Z.div_1_r, Z.mod_1_r.
  change (1 <? 2 * 0) with false. change (1 =? 2 * 0) with false. cbv iota.
  change (false && Z.odd (n * 2 ^ k)) with false. cbv iota.
  destruct (Z.eqb_spec (n * 2 ^ k) (2 ^ 53)) as [Hbad|_]; [lia|].
  destruct (Z.ltb_spec 971 (- k)) as [Hbad|_]; [lia|].
  unfold to_int.
  destruct (Z.leb_spec 0 (- k)).
  - assert (k = 0) by lia. replace k with 0 by lia. replace (- 0) with 0 by lia.
    simpl. f_equal. lia.
  - rewrite Z.opp_involutive, Z.div_mul by lia. reflexivity.
Qed.

Lemma int_of_numeral s :
  s <> EmptyString ->
  all_digits s = true ->
  numeral_value s < 2 ^ 53 ->
  int_of_str s = inr (numeral_value s).
Proof.
  intros Hne Hd Hlt. unfold int_of_str, of_str.
  rewrite (drop_underscores_digits s Hd) by reflexivity.
  rewrite (strip_digits s Hd).
  destruct s as [|c s]; [contradiction|].
  pose proof Hd as Hd'. simpl in Hd'. apply andb_prop in Hd' as [Hc Hs].
  destruct (digit_char c Hc) as (_ & _ & Hsign & Hinf & Hinfinity & Hnan & _).
  rewrite Hsign, Hinf, Hinfinity, Hnan. cbn [orb].
  destruct (span_digits_all (String c s) Hd) as (ds & E & Hl & Hv).
  unfold parse_decimal. rewrite E.
  destruct ds as [|d ds]; [simpl in Hl; discriminate|].
  rewrite app_nil_r. cbn [parse_exponent length].
  unfold digits_value. rewrite (Hv 0). fold (numeral_value (String c s)).
  pose proof (numeral_value_from_nonneg (String c s) Hd 0 ltac:(lia)) as Hnn.
  fold (numeral_value (String c s)) in Hnn.
  set (n := numeral_value (String c s)) in *.
  unfold of_decimal.
  destruct (Z.eqb_spec n 0) as [->|Hn0]; [reflexivity|].
  change (310 <? 0 - Z.of_nat 0) with false. cbv iota.
  destruct (Z.ltb_spec (Z.of_nat (S (length ds)) + (0 - Z.of_nat 0)) (-330))
    as [Hbad|_]; [lia|].
  change (0 <=? 0 - Z.of_nat 0) with true. cbv iota.
  change (0 - Z.of_nat 0) with 0. rewrite Z.pow_0_r, Z.mul_1_r.
  apply round_ratio_exact. lia.
Qed.

End IntegerCells.

(** Integer cells are read exactly up to [2^53]: for every non-empty
    cell made of decimal digits whose value is below [2^53] (in particular
    every numeral of at most 15 digits), [convert_to_int] returns exactly
    that value and leaves the log as it is. *)
Theorem integer_cells_convert_exactly :
  forall s w,
    s <> EmptyString ->
    all_digits s = true ->
    ((String.length s <= 15)%nat \/ (numeral_value s < 2 ^ 53)%Z) ->
    convert_to_int (Some s) w = (Return (Some (numeral_value s)), w).
Proof.
  intros s w Hne Hd Hlt.
  assert (numeral_value s < 2 ^ 53)%Z as Hlt'
    by (destruct Hlt; [apply short_numeral_small|]; assumption).
  rewrite convert_to_int_run.
  unfold int_of_cell, after_convert, conversion_error.
  destruct s as [|c s]; [contradiction|]. cbn [PyStr.is_empty].
  rewrite (int_of_numeral _ Hne Hd Hlt'). reflexivity.
Qed.

Lemma integer_cells_convert_exactly_witness :
  convert_to_int (Some "100000000000017") empty_world
  = (Return (Some 100000000000017%Z), empty_world).
Proof.
  apply (integer_cells_convert_exactly "100000000000017" empty_world).
  - discriminate.
  - reflexivity.
  - left. simpl. lia.
Defined.

(** The bound is where exactness ends: [2^53 + 1] is read as [2^53]. *)
Example integer_cell_beyond_2_53_rounded :
  int_of_cell (Some "9007199254740993") = Some 9007199254740992%Z.
Proof. vm_compute. reflexivity. Qed.

(** ** The upload view *)

Lemma acceptable_cases file :
  (acceptable file = true /\ (file_size file =? 0)%N = false
   /\ endswith (file_name file) ".xlsx" = true
   /\ format_of_name (file_name file) = Some "excel")
  \/ (acceptable file = true /\ (file_size file =? 0)%N = false
      /\ endswith (file_name file) ".xlsx" = false
      /\ endswith (file_name file) ".csv" = true
      /\ format_of_name (file_name file) = Some "csv")
  \/ (acceptable file = false /\ (file_size file =? 0)%N = true)
  \/ (acceptable file = false /\ (file_size file =? 0)%N = false
      /\ endswith (file_name file) ".xlsx" = false
      /\ endswith (file_name file) ".csv" = false).
Proof.
  unfold acceptable, format_of_name.
  destruct (file_size file =? 0)%N; [right; right; left; auto|].
  destruct (endswith (file_name file) ".xlsx"); [left; auto|].
  destruct (endswith (file_name file) ".csv");
    [right; left; auto|right; right; right; auto].
Qed.

Lemma scan_files_accepts files :
  List.forallb acceptable files = true ->
  forall file_contents file_format,
    scan_files files file_contents file_format
    = inr (file_contents ++ (file_bytes <$> files),
           match last files with
           | Some file => format_of_name (file_name file)
           | None => file_format
           end).
Proof.
  induction files as [|file files IH]; intros Hall file_contents file_format.
  - simpl. rewrite app_nil_r. reflexivity.
  - cbn [List.forallb] in Hall. apply andb_prop in Hall as [Hfile Hall].
    cbn [scan_files]. cbv zeta. rewrite last_cons, fmap_cons.
    destruct (acceptable_cases file)
      as [(_ & -> & -> & Hf)|[(_ & -> & -> & -> & Hf)|[[Hno _]|[Hno _]]]];
      try congruence.
    + rewrite (IH Hall), <- app_assoc.
      destruct (last files); [reflexivity|]. rewrite Hf. reflexivity.
    + rewrite (IH Hall), <- app_assoc.
      destruct (last files); [reflexivity|]. rewrite Hf. reflexivity.
Qed.

Lemma scan_files_rejects files :
  List.forallb acceptable files = false ->
  forall file_contents file_format,
    exists early recs,
      scan_files files file_contents file_format = inl (early, recs)
      /\ json_status early = Some 400%Z.
Proof.
  induction files as [|file files IH]; intros Hall file_contents file_format.
  - discriminate Hall.
  - cbn [List.forallb] in Hall. cbn [scan_files]. cbv zeta.
    destruct (acceptable_cases file)
      as [(Hyes & -> & -> & _)|[(Hyes & -> & -> & -> & _)|[(_ & ->)|(_ & -> & -> & ->)]]].
    + rewrite Hyes in Hall. apply (IH Hall).
    + rewrite Hyes in Hall. apply (IH Hall).
    + eexists _, _. split; reflexivity.
    + eexists _, _. split; reflexivity.
Qed.

Lemma acceptable_format file :
  acceptable file = true ->
  format_of_name (file_name file) = Some "excel"
  \/ format_of_name (file_name file) = Some "csv".
Proof.
  unfold acceptable, format_of_name. intros H.
  apply andb_prop in H as [_ H]. apply bool_decide_eq_true in H.
  destruct (endswith (file_name file) ".xlsx"); [left; reflexivity|].
  destruct (endswith (file_name file) ".csv"); [right; reflexivity|].
  destruct H as [x H]. discriminate H.
Qed.

(** The view queues the task once or not at all.  A request is
    accepted when it is a POST whose form is valid and which carries at least
    one file, every file being non-empty with a name ending in [.xlsx] or
    [.csv].  For an accepted request the view answers 202 and queues exactly
    one call of [process_uploaded_files], with the contents of all files in
    upload order, the bank and type of the form, and the format of the LAST
    file's name (one format for all files); for every other request it
    queues nothing and does not answer 202.  The format handed over is
    always [excel] or [csv]. *)
Theorem upload_queues_once_or_not_at_all :
  forall request,
    queued (upload_files request)
    = (if upload_accepted request
       then [mkTask (file_bytes <$> FILES request)
                    (cleaned_bank_name request) (cleaned_transaction_type request)
                    (default EmptyString
                       (last (FILES request) ≫= fun file => format_of_name (file_name file)))]
       else [])
    /\ (json_status (view_response (upload_files request)) = Some 202%Z
        <-> upload_accepted request = true)
    /\ Forall (fun call => task_file_format call = "excel" \/ task_file_format call = "csv")
         (queued (upload_files request)).
Proof.
  intros [verb valid bank type files]. unfold upload_files, upload_accepted.
  cbn [method form_is_valid FILES cleaned_bank_name cleaned_transaction_type].
  destruct (String.eqb verb "POST");
    [|split; [reflexivity|split; [split; discriminate|constructor]]].
  destruct valid;
    [|split; [reflexivity|split; [split; discriminate|constructor]]].
  cbn [andb].
  destruct (List.forallb acceptable files) eqn:Hall.
  - rewrite (scan_files_accepts files Hall), app_nil_l.
    destruct files as [|file files].
    + split; [reflexivity|]. split; [split; discriminate|constructor].
    + rewrite bool_decide_eq_false_2 by discriminate. cbn [negb andb].
      assert (exists last_file, last (file :: files) = Some last_file
                                /\ acceptable last_file = true)
        as (last_file & Hlast & Hok).
      { destruct (last (file :: files)) as [last_file|] eqn:Hlast.
        - exists last_file. split; [reflexivity|].
          apply last_Some_elem_of, list_elem_of_In in Hlast.
          exact (proj1 (List.forallb_forall _ _) Hall _ Hlast).
        - apply last_None in Hlast. discriminate Hlast. }
      rewrite Hlast. cbn [mbind option_bind].
      destruct (acceptable_format last_file Hok) as [-> | ->]; cbn [default];
        (split; [reflexivity|]; split; [split; reflexivity|]);
        (constructor; [cbn [task_file_format]; auto|constructor]).
  - destruct (scan_files_rejects files Hall [] None) as (early & recs & -> & Hst).
    rewrite andb_false_r. cbn [queued view_response].
    split; [reflexivity|]. split; [|constructor].
    rewrite Hst. split; discriminate.
Qed.

(** Files of both kinds in one upload are all handed over under the format
    of the last one. *)
Example mixed_upload_goes_out_as_csv :
  queued (upload_files
            (mkRequest "POST" true "karur_vysya" "booking"
               [mkUpload "a.xlsx" 10 "x"; mkUpload "b.csv" 5 "y"]))
  = [mkTask ["x"; "y"] "karur_vysya" "booking" "csv"].
Proof. reflexivity. Qed.
